(* ===== verification/_CoqProject ===== *)
-Q . S2P
Prelude.v
Text.v
Geofence.v
Models.v
Http.v
Routing.v
Favorites.v
Notify.v
Forms.v
Reports.v
Contact.v
Listing.v
Comments.v
Inbox.v
Stats.v
Templatetags.v
Accounts.v
System.v
Schema.v
Dispatch.v
Admin.v
Display.v
Interleave.v
Refinement.v
