(* ===== verification/Prelude.v ===== *)
(** * IncluiMap: a verification development of the Django application

    IncluiMap ([src/]) is a Django application for reporting the
    accessibility of places in the commune of Maipú.  Its parts, and how
    they interact:
    - the models ([src/core/models.py]): [Place], whose [save] runs
      [full_clean] and whose [clean] rejects coordinates outside a
      bounding box; [Report] on a place by a user; [Comment] on a report;
      [Profile], one per user, created by a [post_save] receiver on
      [User], with the user's favourite places; [Notification], created by
      a [post_save] receiver on [Report] for every user who favourited the
      report's place, with an e-mail sent on a best-effort basis;
    - the forms ([src/core/forms.py]): [ReportForm] with [clean_photo],
      [clean_tags] and the tag parsing of [__init__]; the account forms;
    - the views ([src/core/views.py]): report creation, edition and
      deletion (author only), the favourite toggle, the report page with
      its comments, the notification page that marks notifications read,
      the JSON place search [places_api] and the statistics dashboard;
    - template tags, URL configuration and admin registration
      ([src/core/admin.py]).

    A request is modelled as a function from the database (and the acting
    user, the method and the parameters) to an [Http.Outcome]: the
    response, the flash messages and the new database.  The database
    [Models.DB] is a record of tables; a table is a [gmap] from primary
    keys to rows with the next key of its autoincrement sequence.  Texts
    are lists of Unicode code points.

    Files, in dependency order:
    - Prelude.v (this file): imports, hint databases, the validation
      error codes, tactics and generic list lemmas.
    - Text.v: the Python [str] operations ([strip], [split], [join],
      [lower], [startswith], [in]) on code-point lists.
    - Geofence.v: [Decimal] (Python decimals as their [as_tuple()]),
      Django's [DecimalValidator], [Place.clean], [Place.clean_fields],
      [Place.full_clean].  Theorems: [full_clean] accepts exactly the
      valid places, an out-of-box point is reported on both fields,
      an accepted coordinate is below 1000 with six decimals at most.
    - Models.v: the tables, the rows of each model ([Profile], [Report],
      [Notification], [Comment], in Modules), [place_save],
      [create_user]/[save_user] with the profile receiver, the cascading
      [delete_report] and [delete_place], and the integrity invariant
      [wf] (keys below the sequence, one profile per user, foreign keys,
      valid places).  Theorems: the cascades of [delete_place] and
      [delete_user].
    - Http.v: methods, flash messages, redirect targets, responses
      (with the 500 of an uncaught exception, the [JsonResponse] of the
      API, and [Delegated] for the views of Django's own), outcomes.
    - Routing.v: [urlpatterns] of [src/config/urls.py] as data, with
      Django's [resolve] (first matching pattern) and [reverse] and the
      [int] and [str] path converters.  Theorems: [reverse] then
      [resolve] gives the name and arguments back; no path matches two
      patterns, so the first match is the only one; every resolved path
      has a canonical form; every [redirect(...)] target of the views
      leads back to its route.
    - Favorites.v: [toggle_favorite_place].  Theorems: it flips the
      membership, twice is the identity, a double submission
      leaves one toggle's state, the error paths change nothing, and the
      open redirect through [next].
    - Notify.v: the [post_save] fan-out [create_favorite_place_notifications],
      with the mail transport as the class [MailTransport] (every theorem
      holds for every transport).  Theorems: one notification per
      favouriting non-author user, the new rows, independence from
      mail failures.
    - Forms.v: [ReportForm].  Theorems: what a valid form guarantees, the
      round trip between [clean_tags] and the tag parsing of [__init__].
    - Reports.v: [report_view], [report_edit_view], [report_delete_view].
      Theorems: a valid POST stores the report, non-authors get 404,
      edits never fan out, deletion cascades, an edited report with a
      stored photo can never be saved again, a missing rating is refused.
    - Contact.v: [contact_view], with [send_mail] through the
      [MailTransport] class.  Theorems: a complete POST sends exactly
      one mail composed from the fields, or changes nothing when
      sending raises; a type with a line break can never be mailed
      ([BadHeaderError]); the body determines the submission.
    - Listing.v: the pages that list: [map_view], [about_view],
      [places_view], [favorites_view], [reports_view] and
      [my_reports_view] with their orders, slices and date filters
      ([DateField.to_python] on the parameters).  Theorems: the user's
      report page lists what it should, an invalid date gives a server
      error, the favourites page lists exactly the favourites by name,
      the places page only reads.
    - Comments.v: [report_detail].  Theorems: one comment per non-blank
      POST, blank comments refused, the ordered comment list,
      comments above 1000 characters stored.
    - Inbox.v: [notifications_view].  Theorems: all of the user's
      notifications marked read and nothing else changed, the page
      is evaluated after the update, idempotence.
    - Stats.v: [places_api] and [dashboard_view].  Theorems: the API
      lists exactly the matching places with count and mean, sorted; the
      example of spec section 8; the per-tag groups and their counts; the
      per-place statistics; the unstripped tag pieces; every mean of
      ratings within [lo, hi] lies within [lo, hi].
    - Templatetags.v: [star_row] with Python's [int()] on the values the
      templates pass, [split_tags], [active].  Theorems: [star_row]
      draws exactly [max_stars] stars, [split_tags] reads back what
      [clean_tags] stored.
    - Accounts.v: [SignupForm] (with [str.title] on the letters its
      validator admits), [UserForm], [signup_view], [profile_view];
      Django's own e-mail, username and password validators are Section
      variables.  Theorems: a valid signup creates one normalised
      account and keeps e-mail addresses unique; the profile page lets a
      user take another account's address.
    - System.v: the application as a transition system: [step] relates
      two databases when a route of [src/config/urls.py] (or the admin's
      place saves and place and user deletions) takes the first to the
      second: a signup or a contact message from anyone, and the other
      writing views as a logged-in user sends them (their anonymous
      requests change nothing), and
      [reachable] is reachability from the empty database.  Theorem, by
      rule induction: every reachable database satisfies [wf], its
      reports are rated 1 to 5, its comments are non-empty and stripped,
      and no notification goes to the author of its report; composed
      with Stats.v, every average the API and the dashboard show lies
      between 1 and 5.  Liveness: from every reachable database, deleting
      the users one at a time reaches one with no users, profiles,
      reports, comments or notifications.  The admin's edits of reports
      bypass [ReportForm] and are not steps.
    - Schema.v: the typing of the stored rows against the column
      declarations of models.py.  Theorem: on every reachable database
      each place passes [full_clean] and each report has tags within
      [max_length=255], a rating within [PositiveSmallIntegerField]
      and a valid place; the comments' [max_length=1000] is not among
      them, since no code path checks it.
    - Dispatch.v: the request handler: [call_view] binds each pattern of
      urls.py to its view, [handle] resolves the path and calls it (404
      otherwise; the admin and auth views of Django answer [Delegated]),
      and [follow] is a browser following redirects with [GET]s, with a
      fuel of redirects.  Theorems: every request's redirects end within
      two [GET]s (and two are needed); every request of an anonymous
      visitor or an existing user is a [System.step] or changes nothing,
      so every database a sequence of such requests passes through is
      reachable, satisfies [System.inv] and is typed ([run_states]).
    - Admin.v: the change lists of [admin.py]'s [PlaceAdmin] and
      [ReportAdmin]: [search_fields] through Django's
      [get_search_results] (SQLite's [LIKE]), the [rating] filter with
      its [int()] conversion and the redirect to [?e=1], the ordering
      with its [-pk] tie-break.  Theorem: the report change list holds
      exactly the matching reports, each once, newest first; a report is
      found by its place's name in any ASCII case.
    - Display.v: the [__str__] methods of models.py, which the admin
      shows for each row and for the foreign keys of [list_display];
      a missing row ([DoesNotExist]) is [None].  Theorem: on a
      consistent database every profile, report, notification and
      comment can be shown.
    - Interleave.v: report creation as Django runs it, each [INSERT]
      committed on its own: the database after the report's [INSERT]
      and after each notification, and another request run between two
      of them.  Theorems: with a request that writes nothing the split
      run is the atomic [report_create]; every intermediate database is
      consistent, holds the report and has notified a prefix of the
      recipients; a recipient whose notification page runs after the
      report's [INSERT] and before their notification sees nothing
      about it (against spec section 5) and still gets it, unread.
    - Refinement.v: the favourites relation against an abstract state
      machine (spec section 4.5): each step of [System.step] is one
      abstract step (a new user, one place flipped by its user, a place or
      a user forgotten, or nothing), so the favourites of every reachable
      database are reached by the abstract machine.

    Bounds and modelling choices.  [Text.lower] is Python's [str.lower]
    on ASCII and Latin-1 letters only, which covers the literals the code
    compares, and [Accounts.title] is [str.title] on the alphabet of the
    [only_letters_spaces] validator, which every name it is applied to
    has passed; [Templatetags.py_int], the path converters of Routing.v
    and the date pattern of Listing.v read ASCII digits only.  The
    settings module is not part of the sources: what depends on it
    ([CONTACT_EMAIL], the time zone of [__date], the Python version's
    [date.fromisoformat]) is a variable of the Section that uses it, and
    the theorems hold for every value.
    Coordinates are compared exactly as rationals where Python
    converts them to [float]: every bound and every accepted coordinate
    has at most six decimals and magnitude below 1000, and on such
    values the two comparisons agree (the doubles nearest to two such
    decimals are ordered as the decimals are).  Timestamps are the
    request time [now], a natural number, passed to each view.  Means are
    exact rationals.  Orderings that the database leaves unspecified
    (ties of [ORDER BY], the iteration order of a queryset without
    [order_by]) are fixed by the model, and no theorem depends on them:
    the fan-out theorems count notifications per user, which the order of
    the loop does not change, and the sorted lists are characterised up
    to ties.  No definition of the code needs fuel:
    every loop of the code is over a finite queryset and is a [foldl] or
    [map] over a list.  The one fuel of the development is the number
    of redirects [Dispatch.follow] may follow; two suffice for every
    request, and [redirects_terminate] proves it.

    Not modelled: template rendering; the decoding of an uploaded image
    by Pillow ([ProfileForm]'s avatar is taken as valid); Django's
    authentication views (login, logout, password reset), whose routes
    Routing.v resolves but whose code is Django's; the [static()] route
    of [DEBUG]; [admin.py]'s [list_display], which only picks the
    columns of a rendered page (the [__str__] it shows for a foreign
    key is Display.v's), the admin's pagination and its quoted
    search phrases (the admin's writes are the place saves and the
    place and user deletions of System.v; its edits of reports, which
    bypass [ReportForm], are not steps). *)

From Stdlib Require Export NArith ZArith Lia.
From stdpp Require Export base list gmap sets strings sorting.
From stdpp Require Export fin_maps.

Declare Scope incluimap_scope.
Delimit Scope incluimap_scope with im.

Create HintDb incluimap.
Create Rewrite HintDb incluimap_rw.

(** ** Validation errors

    Django reports validation failures as a [ValidationError] whose
    payload is a dictionary from field names to messages.  The model keeps
    the field and the kind of failure; the message wording is presentation
    and is left out. *)

Inductive Field :=
  | F_name | F_address | F_lat | F_lng | F_tags
  | F_place | F_description | F_rating | F_photo
  | F_text | F_all
  | F_username | F_first_name | F_last_name | F_email | F_password | F_bio | F_avatar.

Inductive ErrorCode :=
  | E_null                 (** "This field cannot be null." *)
  | E_blank                (** "This field cannot be blank." / "required" *)
  | E_max_length (n : nat) (** [MaxLengthValidator(n)] *)
  | E_invalid              (** a value that does not parse *)
  | E_max_digits           (** [DecimalValidator]: too many digits *)
  | E_max_decimal_places   (** [DecimalValidator]: too many decimals *)
  | E_max_whole_digits     (** [DecimalValidator]: too many whole digits *)
  | E_outside_maipu        (** [Place.clean]: outside the bounding box *)
  | E_invalid_choice       (** a choice field got a value outside its choices *)
  | E_image_too_big        (** [ReportForm.clean_photo]: over 5 MB *)
  | E_image_format         (** [ReportForm.clean_photo]: not jpg/png/webp *)
  | E_taken.               (** [SignupForm.clean_email]: the address is registered *)

(** An error dictionary, flattened: one entry per (field, error). *)
Abbreviation Errors := (list (Field * ErrorCode)).

#[export] Instance Field_eq_dec : EqDecision Field.
Proof. solve_decision. Qed.
#[export] Instance ErrorCode_eq_dec : EqDecision ErrorCode.
Proof. solve_decision. Qed.

(** ** Shared tactics *)

(** Case on the integer comparisons of a hypothesis [H] (typically a
    validator's nested [if]s equated to its result), keeping the
    comparison as a proposition and discarding contradictory branches. *)
Ltac case_zcmp H :=
  repeat match type of H with
  | context [(?a <? ?b)%Z] => destruct (Z.ltb_spec a b); simpl in H; try discriminate H
  | context [(?a <=? ?b)%Z] => destruct (Z.leb_spec a b); simpl in H; try discriminate H
  | context [(?a <? ?b)%nat] => destruct (Nat.ltb_spec a b); simpl in H; try discriminate H
  | context [(?a <=? ?b)%nat] => destruct (Nat.leb_spec a b); simpl in H; try discriminate H
  end.

(** ** Generic list lemmas *)

(** Filtering an association list keeps its keys distinct. *)
Lemma NoDup_fst_filter {A B} (P : A * B → Prop) `{∀ x, Decision (P x)} (l : list (A * B)) :
  NoDup l.*1 → NoDup (filter P l).*1.
Proof. intros Hl. eapply sublist_NoDup; [exact Hl|]. apply (fmap_sublist fst), sublist_filter. Qed.

(** A prefix of a sorted list ([qs[:n]] of an ordered queryset) is sorted. *)
Lemma StronglySorted_take {A} (R : relation A) n l :
  StronglySorted R l → StronglySorted R (take n l).
Proof. rewrite <- (take_drop n l) at 1. apply StronglySorted_app_1_l. Qed.

(** A prefix keeps every property of the elements. *)
Lemma Forall_take_elem {A} (P : A → Prop) n l x : Forall P l → x ∈ take n l → P x.
Proof. intros Hl Hx. eapply Forall_forall; [exact Hl|]. by apply subseteq_take in Hx. Qed.


(** The two halves of a list without duplicates have none. *)
Lemma NoDup_take_drop {A} n (l : list A) : NoDup l → NoDup (take n l) ∧ NoDup (drop n l).
Proof. intros H. rewrite <- (take_drop n l) in H. apply NoDup_app in H as (? & _ & ?). done. Qed.

(** An element of a sorted list that its first [n] elements leave out
    comes after all of them, and then those [n] elements exist: [qs[:n]]
    of an ordered queryset holds the first [n] rows of the order. *)
Lemma StronglySorted_take_top {A} (R : relation A) n l x :
  StronglySorted R l → x ∈ l → x ∉ take n l →
  length (take n l) = n ∧ Forall (λ y, R y x) (take n l).
Proof.
  rewrite <- (take_drop n l) at 1 2. intros Hs Hx Hnot.
  apply elem_of_app in Hx as [Hx|Hx]; [done|].
  split.
  - apply length_take_le. destruct (drop n l) as [|y ys] eqn:E; [by apply elem_of_nil in Hx|].
    pose proof (length_drop l n) as Hl. rewrite E in Hl. simpl in Hl. lia.
  - apply Forall_forall. intros y Hy. by eapply StronglySorted_app_1_elem_of.
Qed.

Lemma filter_True_id {A} (l : list A) : filter (λ _, True) l = l.
Proof. induction l as [|x l IH]; [done|]. rewrite filter_cons_True by done. by f_equal. Qed.

(** A whole query: the rows of a table that satisfy [P], sorted by [R],
    each once. *)
Lemma sorted_rows {A} (R : relation (nat * A)) `{!RelDecision R} `{!Total R} `{!Transitive R}
    (P : nat * A → Prop) `{∀ x, Decision (P x)} (m : gmap nat A) :
  let l := merge_sort R (filter P (map_to_list m)) in
  (∀ k x, (k, x) ∈ l ↔ m !! k = Some x ∧ P (k, x)) ∧ NoDup l.*1 ∧ StronglySorted R l.
Proof.
  split_and!.
  - intros k x. rewrite merge_sort_Permutation, list_elem_of_filter, elem_of_map_to_list. tauto.
  - rewrite merge_sort_Permutation. apply NoDup_fst_filter, NoDup_fst_map_to_list.
  - apply StronglySorted_merge_sort; apply _.
Qed.

(** The page an ordered, sliced queryset gives: [take n] of the rows of
    a table that satisfy [P], sorted by [R].  It holds rows of the table
    that satisfy [P], each once, in order, at most [n]; a row it leaves
    out comes after [n] listed ones. *)
Lemma sorted_page {A} (R : relation (nat * A)) `{!RelDecision R} `{!Total R} `{!Transitive R}
    (P : nat * A → Prop) `{∀ x, Decision (P x)} (m : gmap nat A) n :
  let l := take n (merge_sort R (filter P (map_to_list m))) in
  (∀ k x, (k, x) ∈ l → m !! k = Some x ∧ P (k, x)) ∧
  NoDup l.*1 ∧ StronglySorted R l ∧ length l ≤ n ∧
  (∀ k x, m !! k = Some x → P (k, x) → (k, x) ∉ l → length l = n ∧ Forall (λ y, R y (k, x)) l).
Proof.
  intros l. subst l. destruct (sorted_rows R P m) as (Hel & Hnd & Hs).
  split_and!.
  - intros k x Hin%subseteq_take. by apply Hel.
  - eapply sublist_NoDup; [|apply (fmap_sublist fst), sublist_take]. exact Hnd.
  - by apply StronglySorted_take.
  - rewrite length_take. lia.
  - intros k x Hk HP Hnot. apply (StronglySorted_take_top R n _ (k, x) Hs); [by apply Hel|done].
Qed.

(** [omap] keeps a sorted list sorted when [f] maps the order into the
    order of its results. *)
Lemma StronglySorted_omap {A B} (R : relation A) (R' : relation B) (f : A → option B) l :
  (∀ x y x' y', f x = Some x' → f y = Some y' → R x y → R' x' y') →
  StronglySorted R l → StronglySorted R' (omap f l).
Proof.
  intros Hf. induction 1 as [|x l Hl IH Hx]; simpl; [constructor|].
  destruct (f x) as [x'|] eqn:E; [|done]. constructor; [done|].
  apply Forall_forall. intros y' (y & Hy & Ey)%list_elem_of_omap.
  apply (Hf x y); [done|done|]. by eapply Forall_forall.
Qed.

(** [omap] keeps keys distinct when it keeps each element's key. *)
Lemma NoDup_omap_key {A B K} (f : A → option B) (g : A → K) (g' : B → K) l :
  (∀ x x', f x = Some x' → g' x' = g x) → NoDup (g <$> l) → NoDup (g' <$> omap f l).
Proof.
  intros Hf. induction l as [|x l IH]; simpl; [constructor|]. intros (Hx & Hl)%NoDup_cons.
  destruct (f x) as [x'|] eqn:E; [|auto]. simpl. constructor; [|auto].
  rewrite (Hf x x' E). intros (y' & Heq & (y & Hy & Ey)%list_elem_of_omap)%list_elem_of_fmap.
  apply Hx. rewrite Heq, (Hf y y' Ey). by apply list_elem_of_fmap_2.
Qed.

Lemma sum_list_with_fmap {A B} (f : B → nat) (g : A → B) l :
  sum_list_with f (g <$> l) = sum_list_with (f ∘ g) l.
Proof. induction l as [|x l IH]; simpl; [done|]. f_equal. exact IH. Qed.
