(* ===== verification/Text.v ===== *)
(** * Text: the Python [str] operations the application uses

    A Python [str] is a sequence of Unicode code points, so [len], slicing
    ([s[:200]]) and [max_length] count code points.  Here a text is a
    [list N] of code points.  Rocq string literals are UTF-8 byte
    sequences; [lit] decodes one into code points, so the Spanish literals of
    the source ("Descripción") are written as they are in the code.

    The operations are [str.strip], [str.split(sep)], [sep.join],
    [str.lower], [str.startswith], the [in] operator on strings and
    slicing, [int()] on a [str], SQLite's case-insensitive [LIKE], each
    with the lemmas the components use, and the order of
    texts under a binary collation ([text_leb]) that [ORDER BY name]
    follows. *)

From S2P Require Import Prelude.

Abbreviation text := (list N).

(** ** UTF-8 decoding of source literals *)

Fixpoint utf8_decode (bs : list N) : text :=
  match bs with
  | [] => []
  | b :: r =>
      if (b <? 128)%N then b :: utf8_decode r
      else if (b <? 224)%N then
        match r with
        | c :: r' => ((b - 192) * 64 + (c - 128))%N :: utf8_decode r'
        | [] => []
        end
      else if (b <? 240)%N then
        match r with
        | c :: d :: r' =>
            ((b - 224) * 4096 + (c - 128) * 64 + (d - 128))%N :: utf8_decode r'
        | _ => []
        end
      else
        match r with
        | c :: d :: e :: r' =>
            ((b - 240) * 262144 + (c - 128) * 4096 + (d - 128) * 64 + (e - 128))%N
              :: utf8_decode r'
        | _ => []
        end
  end.

(** A literal of the source, as code points. *)
Definition lit (s : string) : text :=
  utf8_decode (map Ascii.N_of_ascii (String.list_ascii_of_string s)).

(** ** [str.isspace] on one character

    Python's whitespace: the characters whose bidirectional class is WS,
    B or S, or whose category is Zs (CPython's [Py_UNICODE_ISSPACE]). *)
Definition isspace (c : N) : bool :=
  ((9 <=? c)%N && (c <=? 13)%N) || ((28 <=? c)%N && (c <=? 32)%N)
  || (c =? 133)%N || (c =? 160)%N || (c =? 5760)%N
  || ((8192 <=? c)%N && (c <=? 8202)%N)
  || (c =? 8232)%N || (c =? 8233)%N || (c =? 8239)%N
  || (c =? 8287)%N || (c =? 12288)%N.

(** ** [str.strip()] *)

Fixpoint lstrip (s : text) : text :=
  match s with
  | [] => []
  | c :: r => if isspace c then lstrip r else s
  end.

Definition rstrip (s : text) : text := reverse (lstrip (reverse s)).

Definition strip (s : text) : text := rstrip (lstrip s).

(** Truthiness of a [str]: [if s:] holds exactly for a non-empty string. *)
Definition truthy (s : text) : bool := negb (bool_decide (s = [])).

(** ** [s.split(sep)] with a one-character separator, and [sep.join(ws)] *)

(** [','] *)
Definition comma : N := 44%N.
Definition NEWLINE : N := 10%N.

Fixpoint split_on (sep : N) (s : text) : list text :=
  match s with
  | [] => [[]]
  | c :: r =>
      if (c =? sep)%N then [] :: split_on sep r
      else match split_on sep r with
           | w :: ws => (c :: w) :: ws
           | [] => [[c]]
           end
  end.

Fixpoint join (sep : N) (ws : list text) : text :=
  match ws with
  | [] => []
  | [w] => w
  | w :: ws' => w ++ sep :: join sep ws'
  end.

(** [str.split()] with no argument: maximal runs of non-whitespace. *)
Fixpoint split_ws_aux (cur : text) (s : text) : list text :=
  match s with
  | [] => if bool_decide (cur = []) then [] else [reverse cur]
  | c :: r =>
      if isspace c then
        (if bool_decide (cur = []) then [] else [reverse cur]) ++ split_ws_aux [] r
      else split_ws_aux (c :: cur) r
  end.

Definition split_ws (s : text) : list text := split_ws_aux [] s.

(** ** [str.lower()]

    Python lower-cases every cased character of Unicode.  The model
    lower-cases the Basic Latin and Latin-1 letters (A-Z and the accented
    capitals U+00C0-U+00DE except U+00D7), which covers the Spanish
    alphabet of the application; code points from U+0100 on are left as
    they are. *)
Definition lower_char (c : N) : N :=
  if ((65 <=? c)%N && (c <=? 90)%N)
     || ((192 <=? c)%N && (c <=? 222)%N && negb (c =? 215)%N)
  then (c + 32)%N else c.

Definition lower (s : text) : text := map lower_char s.

(** ** SQLite's [LIKE]

    SQLite's [LIKE] ignores the case of the ASCII letters only: other
    characters, the accented capitals among them, compare as they are. *)
Definition ascii_lower_char (c : N) : N := if (65 <=? c)%N && (c <=? 90)%N then (c + 32)%N else c.

Definition ascii_lower (s : text) : text := map ascii_lower_char s.

(** ** Prefix and substring tests ([str.startswith], [x in s]) *)

Fixpoint startswith (s pre : text) {struct pre} : bool :=
  match pre with
  | [] => true
  | p :: pre' =>
      match s with
      | c :: s' => (p =? c)%N && startswith s' pre'
      | [] => false
      end
  end.

Fixpoint contains (hay needle : text) : bool :=
  startswith hay needle ||
  match hay with
  | [] => false
  | _ :: hay' => contains hay' needle
  end.

(** ** [int()] on a [str]

    An optional sign and decimal digits, with single underscores between
    digits, inside whitespace; digits other than the ASCII ones, which
    Python also accepts, are not modelled. *)

Definition digit_val (c : N) : option Z :=
  if ((48 <=? c)%N && (c <=? 57)%N) then Some (Z.of_N (c - 48)) else None.

(** The digits of an integer literal, an underscore allowed only
    between two digits; [prev_digit] says whether the last character read
    was a digit. *)
Fixpoint parse_digits (acc : Z) (prev_digit : bool) (s : text) : option Z :=
  match s with
  | [] => if prev_digit then Some acc else None
  | c :: r =>
      match digit_val c with
      | Some d => parse_digits (acc * 10 + d) true r
      | None => if (c =? 95)%N && prev_digit then parse_digits acc false r else None
      end
  end.

(** [int(s)] for a [str] [s]; [None] when it raises [ValueError]. *)
Definition py_int_str (s : text) : option Z :=
  match strip s with
  | [] => None
  | c :: r =>
      if (c =? 45)%N then Z.opp <$> parse_digits 0 false r
      else if (c =? 43)%N then parse_digits 0 false r
      else parse_digits 0 false (c :: r)
  end.

(** ** Order on texts *)

(** Lexicographic order on code points ([ORDER BY name] under a binary
    collation). *)
Fixpoint text_leb (a b : text) : bool :=
  match a, b with
  | [], _ => true
  | _ :: _, [] => false
  | x :: a', y :: b' => ((x <? y)%N || ((x =? y)%N && text_leb a' b'))
  end.

(** ** Lemmas *)

Lemma truthy_false_iff (s : text) : truthy s = false ↔ s = [].
Proof. unfold truthy. rewrite negb_false_iff. apply bool_decide_eq_true. Qed.

Lemma truthy_true_iff (s : text) : truthy s = true ↔ s ≠ [].
Proof. unfold truthy. rewrite negb_true_iff. apply bool_decide_eq_false. Qed.

Lemma lstrip_head (s : text) c r : lstrip s = c :: r → isspace c = false.
Proof.
  induction s as [|x s IH]; simpl; [discriminate|].
  destruct (isspace x) eqn:E; [exact IH|]. intros [= <- _]. exact E.
Qed.

Lemma lstrip_idem (s : text) : lstrip (lstrip s) = lstrip s.
Proof.
  induction s as [|x s IH]; simpl; [done|].
  destruct (isspace x) eqn:E; [exact IH|]. simpl. by rewrite E.
Qed.

Lemma lstrip_nonspace_head c r : isspace c = false → lstrip (c :: r) = c :: r.
Proof. simpl. by intros ->. Qed.

Lemma lstrip_snoc_nonspace (l : text) c : isspace c = false → ∃ u, lstrip (l ++ [c]) = u ++ [c].
Proof.
  intros Hc. induction l as [|x l IH]; simpl.
  - rewrite Hc. by exists [].
  - destruct (isspace x); [exact IH|]. by exists (x :: l).
Qed.

(** [s.strip().strip() == s.strip()] *)
Lemma strip_idem (s : text) : strip (strip s) = strip s.
Proof.
  unfold strip, rstrip. destruct (lstrip s) as [|c t] eqn:E; [done|].
  pose proof (lstrip_head s c t E) as Hc.
  destruct (lstrip_snoc_nonspace (reverse t) c Hc) as [u Hu].
  rewrite reverse_cons, Hu, reverse_snoc, lstrip_nonspace_head by done.
  rewrite reverse_cons, reverse_involutive, <- Hu, lstrip_idem, Hu. by rewrite reverse_snoc.
Qed.

Lemma lstrip_nil_iff (s : text) : lstrip s = [] ↔ Forall (λ c, isspace c = true) s.
Proof.
  induction s as [|x s IH]; simpl; [split; auto|].
  rewrite Forall_cons. destruct (isspace x); [rewrite IH; tauto|].
  split; [discriminate|intros [? _]; discriminate].
Qed.

Lemma Forall_reverse {A} (P : A → Prop) (l : list A) : Forall P (reverse l) ↔ Forall P l.
Proof. rewrite !Forall_forall. setoid_rewrite elem_of_reverse. done. Qed.

(** [strip s] is empty exactly when [s] is made of whitespace only. *)
Lemma strip_nil_iff (s : text) : strip s = [] ↔ Forall (λ c, isspace c = true) s.
Proof.
  unfold strip, rstrip. rewrite <- lstrip_nil_iff. split.
  - rewrite <- (reverse_nil (A:=N)). intros H. apply (inj reverse) in H.
    apply lstrip_nil_iff in H. rewrite Forall_reverse in H.
    apply lstrip_nil_iff in H. by rewrite lstrip_idem in H.
  - intros ->. done.
Qed.

Lemma length_lstrip (s : text) : length (lstrip s) ≤ length s.
Proof. induction s as [|x s IH]; simpl; [lia|]. destruct (isspace x); simpl; lia. Qed.

Lemma length_strip (s : text) : length (strip s) ≤ length s.
Proof.
  unfold strip, rstrip. rewrite length_reverse.
  etrans; [apply length_lstrip|]. rewrite length_reverse. apply length_lstrip.
Qed.

(** The text between separators never contains the separator. *)
Lemma split_on_no_sep sep (s : text) : Forall (λ w, sep ∉ w) (split_on sep s).
Proof.
  induction s as [|c s IH]; simpl.
  - constructor; [set_solver|constructor].
  - destruct (N.eqb_spec c sep) as [->|Hne]; [constructor; [set_solver|exact IH]|].
    destruct (split_on sep s) as [|w ws] eqn:E.
    + constructor; [set_solver|constructor].
    + apply Forall_cons in IH as [Hw Hws]. constructor; [|done]. rewrite elem_of_cons. intros [->|?]; done.
Qed.

Lemma split_on_not_nil sep (s : text) : split_on sep s ≠ [].
Proof.
  destruct s as [|c s]; simpl; [done|].
  destruct (c =? sep)%N; [done|]. by destruct (split_on sep s).
Qed.

Lemma join_cons sep w (ws : list text) : ws ≠ [] → join sep (w :: ws) = w ++ sep :: join sep ws.
Proof. by destruct ws. Qed.

Lemma join_cons_char sep c w (ws : list text) : join sep ((c :: w) :: ws) = c :: join sep (w :: ws).
Proof. by destruct ws. Qed.

(** [sep.join(s.split(sep)) == s]. *)
Lemma join_split_on sep (s : text) : join sep (split_on sep s) = s.
Proof.
  induction s as [|c s IH]; simpl; [done|].
  destruct (N.eqb_spec c sep) as [->|Hne].
  - rewrite join_cons by apply split_on_not_nil. by rewrite IH.
  - destruct (split_on sep s) as [|w ws]; [by simpl in IH; subst|]. by rewrite join_cons_char, IH.
Qed.

Lemma split_on_app_sep sep (w r : text) :
  sep ∉ w → split_on sep (w ++ sep :: r) = w :: split_on sep r.
Proof.
  induction w as [|c w IH]; simpl; intros Hw.
  - by rewrite N.eqb_refl.
  - rewrite elem_of_cons in Hw. destruct (N.eqb_spec c sep); [exfalso; apply Hw; by left|].
    rewrite IH; [done|]. intros ?; apply Hw; by right.
Qed.

Lemma split_on_no_sep_id sep (w : text) : sep ∉ w → split_on sep w = [w].
Proof.
  induction w as [|c w IH]; simpl; intros Hw; [done|].
  rewrite elem_of_cons in Hw. destruct (N.eqb_spec c sep); [exfalso; apply Hw; by left|].
  rewrite IH; [done|]. intros ?; apply Hw; by right.
Qed.

(** [sep.join(ws).split(sep) == ws] when no piece contains [sep] and the
    list is not empty ([",".join([]).split(",")] is [[""]]). *)
Lemma split_on_join sep (ws : list text) :
  ws ≠ [] → Forall (λ w, sep ∉ w) ws → split_on sep (join sep ws) = ws.
Proof.
  induction ws as [|w ws IH]; intros Hne Hall; [done|].
  inversion Hall; subst. destruct ws as [|w' ws].
  - simpl. by apply split_on_no_sep_id.
  - change (join sep (w :: w' :: ws)) with (w ++ sep :: join sep (w' :: ws)).
    rewrite split_on_app_sep by done. rewrite IH; done.
Qed.

Lemma length_lower (s : text) : length (lower s) = length s.
Proof. apply length_map. Qed.

Lemma isspace_bounds c : isspace c = true → (c ≤ 32 ∨ c = 133 ∨ c = 160 ∨ 5760 ≤ c)%N.
Proof. unfold isspace. rewrite !orb_true_iff, !andb_true_iff, !N.leb_le, !N.eqb_eq. lia. Qed.

(** The letters [lower] changes are not whitespace, before or after. *)
Lemma isspace_lower_char c : isspace (lower_char c) = isspace c.
Proof.
  unfold lower_char. destruct (_ || _) eqn:E; [|done].
  rewrite !orb_true_iff, !andb_true_iff, !N.leb_le, negb_true_iff, N.eqb_neq in E.
  destruct (isspace c) eqn:Ec, (isspace (c + 32)) eqn:Ec'; try done; exfalso;
    [apply isspace_bounds in Ec|apply isspace_bounds in Ec']; lia.
Qed.

Lemma lower_char_idem c : lower_char (lower_char c) = lower_char c.
Proof.
  unfold lower_char.
  destruct (((65 <=? c) && (c <=? 90)) || ((192 <=? c) && (c <=? 222) && negb (c =? 215)))%N eqn:E;
    [|by rewrite E].
  destruct (((65 <=? c + 32) && (c + 32 <=? 90)) ||
            ((192 <=? c + 32) && (c + 32 <=? 222) && negb (c + 32 =? 215)))%N eqn:E'; [|done].
  rewrite !orb_true_iff, !andb_true_iff, !N.leb_le, !negb_true_iff, !N.eqb_neq in E, E'. lia.
Qed.

Lemma lower_idem (s : text) : lower (lower s) = lower s.
Proof. unfold lower. rewrite map_map. apply map_ext, lower_char_idem. Qed.

Lemma lstrip_lower (s : text) : lstrip (lower s) = lower (lstrip s).
Proof.
  induction s as [|c s IH]; simpl; [done|]. rewrite isspace_lower_char.
  by destruct (isspace c).
Qed.

Lemma reverse_lower (s : text) : reverse (lower s) = lower (reverse s).
Proof.
  unfold lower. induction s as [|c s IH]; [done|]. simpl map.
  by rewrite !reverse_cons, map_app, IH.
Qed.

(** [s.lower().strip() == s.strip().lower()] *)
Lemma strip_lower (s : text) : strip (lower s) = lower (strip s).
Proof. unfold strip, rstrip. by rewrite lstrip_lower, reverse_lower, lstrip_lower, reverse_lower. Qed.

Lemma startswith_app (s pre : text) : startswith (pre ++ s) pre = true.
Proof. induction pre as [|p pre IH]; simpl; [done|]. by rewrite N.eqb_refl, IH. Qed.

Lemma startswith_contains (hay needle : text) :
  startswith hay needle = true → contains hay needle = true.
Proof. destruct hay; simpl; intros ->; done. Qed.

(** A text contains each of its infixes. *)
Lemma contains_infix (a b c : text) : contains (a ++ b ++ c) b = true.
Proof.
  induction a as [|x a IH]; simpl.
  - apply startswith_contains, startswith_app.
  - rewrite IH. apply orb_true_r.
Qed.

#[export] Hint Resolve split_on_no_sep split_on_not_nil startswith_app : incluimap.
#[export] Hint Rewrite join_split_on length_lower : incluimap_rw.

Lemma text_leb_total a b : text_leb a b = true ∨ text_leb b a = true.
Proof.
  revert b. induction a as [|x a IH]; intros [|y b]; simpl; auto.
  destruct (N.ltb_spec x y), (N.ltb_spec y x), (N.eqb_spec x y), (N.eqb_spec y x);
    simpl; auto; lia.
Qed.

Lemma text_leb_trans a b c : text_leb a b = true → text_leb b c = true → text_leb a c = true.
Proof.
  revert b c. induction a as [|x a IH]; intros [|y b] [|z c]; simpl; auto; try discriminate.
  rewrite !orb_true_iff, !andb_true_iff, !N.ltb_lt, !N.eqb_eq.
  intros [Hxy|[-> Hab]] [Hyz|[-> Hbc]]; eauto with lia.
Qed.
