(* ===== verification/Geofence.v ===== *)
(** * Geofence: [Place] coordinates, their field validation and [Place.clean]

    [src/core/models.py] declares [lat] and [lng] as
    [DecimalField(max_digits=9, decimal_places=6)] and overrides
    [Place.clean] to reject coordinates outside the bounding box of the
    commune of Maipú; [Place.save] calls [full_clean] so that the check runs
    on every save.  This file holds:
    - [Decimal]: Python's [decimal.Decimal] as its [as_tuple()] triple
      (sign, digit tuple, exponent), with its exact rational value;
    - [Decimal.validate]: Django's [DecimalValidator] run by [clean_fields]
      for a field declared with [max_digits]/[decimal_places];
    - [Place]: the model's fields and [clean_fields], [clean], [full_clean].

    [Place.clean] compares [float(self.lat)] with float literals; the model
    compares the exact rational values.  The two agree on every value that
    passes the field validator (at most three whole and six fractional
    digits): the bounds have six fractional digits, distinct such values
    differ by at least 1e-6, and binary64 rounding near 70 is finer than
    1.5e-14 and monotone, so it neither reorders nor merges them. *)

From Stdlib Require Import QArith.
From S2P Require Import Prelude Text.

Module Decimal.

  (** [Decimal(...).as_tuple()]: [sign] is [True] for a negative number,
      [digits] has no leading zero (zero is the tuple [(0,)]). *)
Record t := mk { sign : bool; digits : list nat; exponent : Z }.

Definition wf (d : t) : Prop :=
    digits d ≠ [] ∧ Forall (λ x, x < 10) (digits d).

Fixpoint coeff_acc (acc : Z) (ds : list nat) : Z :=
    match ds with
    | [] => acc
    | x :: r => coeff_acc (acc * 10 + Z.of_nat x) r
    end.

  (** The integer the digit tuple spells. *)
Definition coeff (d : t) : Z := coeff_acc 0 (digits d).

Definition num (d : t) : Z :=
    (if sign d then -1 else 1) * coeff d * 10 ^ Z.max 0 (exponent d).

Definition den (d : t) : Z := 10 ^ Z.max 0 (- exponent d).

  (** The exact value of the decimal. *)
Definition to_Q (d : t) : Q := num d # Z.to_pos (den d).

  (** Ordering on values ([<=] of [decimal.Decimal]). *)
Definition le (x y : t) : bool := Qle_bool (to_Q x) (to_Q y).

  (** Django's [DecimalValidator(max_digits, decimal_places)]: the number
      of digits, of decimals and of whole digits of the tuple, checked in
      this order; the first violation is raised. *)
Definition validate (max_digits decimal_places : Z) (d : t) : option ErrorCode :=
    let len := Z.of_nat (length (digits d)) in
    let e := exponent d in
    let '(ndigits, decimals) :=
      if (0 <=? e)%Z then
        ((if bool_decide (digits d = [0%nat]) then len else len + e)%Z, 0%Z)
      else if (len <? - e)%Z then (- e, - e)%Z
      else (len, - e)%Z in
    if (max_digits <? ndigits)%Z then Some E_max_digits
    else if (decimal_places <? decimals)%Z then Some E_max_decimal_places
    else if (max_digits - decimal_places <? ndigits - decimals)%Z then Some E_max_whole_digits
    else None.

End Decimal.

(** The bounding box of [Place.clean] (models.py, lines 76-79). *)
Definition MIN_LAT : Decimal.t := Decimal.mk true [3; 3; 5; 8; 5] (-3).
Definition MAX_LAT : Decimal.t := Decimal.mk true [3; 3; 4; 8] (-2).
Definition MIN_LNG : Decimal.t := Decimal.mk true [7; 0; 8; 3; 5] (-3).
Definition MAX_LNG : Decimal.t := Decimal.mk true [7; 0; 7] (-1).

Definition in_maipu (lat lng : Decimal.t) : bool :=
  Decimal.le MIN_LAT lat && Decimal.le lat MAX_LAT &&
  Decimal.le MIN_LNG lng && Decimal.le lng MAX_LNG.

(** ** The bounding box

    The abstract contract of the validator: the exact values lie in the
    rectangle [-33.585 <= lat <= -33.480], [-70.835 <= lng <= -70.700]. *)
Definition in_box (lat lng : Q) : Prop :=
  (-33585 # 1000 <= lat <= -3348 # 100)%Q ∧ (-70835 # 1000 <= lng <= -707 # 10)%Q.

Module Place.

  (** The attributes of a [Place] instance.  [lat] and [lng] are [None]
      while unset; the columns are [NOT NULL], so a saved row has both. *)
Record t := mk {
    name : text;
    address : text;
    lat : option Decimal.t;
    lng : option Decimal.t;
    tags : text;
    created_at : nat
  }.

  (** [Place.clean] (models.py, lines 63-91). *)
Definition clean (p : t) : Errors :=
    match lat p, lng p with
    | Some a, Some b =>
        if in_maipu a b then []
        else [(F_lat, E_outside_maipu); (F_lng, E_outside_maipu)]
    | _, _ => []
    end.

  (** [Model.clean_fields] for a [CharField(max_length=m, blank=b)]. *)
Definition clean_char_field (f : Field) (blank : bool) (max_length : nat) (v : text) : Errors :=
    if bool_decide (v = []) then (if blank then [] else [(f, E_blank)])
    else if (max_length <? length v)%nat then [(f, E_max_length max_length)]
    else [].

  (** [Model.clean_fields] for [DecimalField(max_digits=9, decimal_places=6)]
      (null not allowed). *)
Definition clean_decimal_field (f : Field) (v : option Decimal.t) : Errors :=
    match v with
    | None => [(f, E_null)]
    | Some d =>
        match Decimal.validate 9 6 d with
        | Some e => [(f, e)]
        | None => []
        end
    end.

  (** The field declarations of [Place] (models.py, lines 53-58), in
      declaration order; [created_at] is [auto_now_add] and not validated. *)
Definition clean_fields (p : t) : Errors :=
    clean_char_field F_name false 200 (name p) ++
    clean_char_field F_address true 255 (address p) ++
    clean_decimal_field F_lat (lat p) ++
    clean_decimal_field F_lng (lng p) ++
    clean_char_field F_tags true 255 (tags p).

  (** [Model.full_clean]: the field checks, then [clean], whose errors are
      merged in even when a field check failed. *)
Definition full_clean (p : t) : Errors := clean_fields p ++ clean p.

  (** What a row that passed [full_clean] satisfies. *)
Definition valid (p : t) : Prop :=
    ∃ a b, lat p = Some a ∧ lng p = Some b ∧ in_box (Decimal.to_Q a) (Decimal.to_Q b) ∧
      Decimal.validate 9 6 a = None ∧ Decimal.validate 9 6 b = None ∧
      name p ≠ [] ∧ length (name p) ≤ 200 ∧
      length (address p) ≤ 255 ∧ length (tags p) ≤ 255.

End Place.

(** The coordinates of the test suite: [Decimal("-33.520000")],
    [Decimal("-70.770000")] and [Decimal("-10.000000")]. *)
Definition test_lat : Decimal.t := Decimal.mk true [3; 3; 5; 2; 0; 0; 0; 0] (-6).
Definition test_lng : Decimal.t := Decimal.mk true [7; 0; 7; 7; 0; 0; 0; 0] (-6).

(** ** Decimal values *)

Lemma coeff_acc_bound acc ds :
  (0 ≤ acc)%Z → Forall (λ x, x < 10) ds →
  (0 ≤ Decimal.coeff_acc acc ds < (acc + 1) * 10 ^ Z.of_nat (length ds))%Z.
Proof.
  revert acc. induction ds as [|x ds IH]; intros acc Hacc Hall; simpl; [lia|].
  apply Forall_cons in Hall as [Hx Hall].
  specialize (IH (acc * 10 + Z.of_nat x)%Z ltac:(lia) Hall).
  rewrite Nat2Z.inj_succ, Z.pow_succ_r by lia. nia.
Qed.

Lemma coeff_bound d : Decimal.wf d →
  (0 ≤ Decimal.coeff d < 10 ^ Z.of_nat (length (Decimal.digits d)))%Z.
Proof. intros [_ Hall]. unfold Decimal.coeff. pose proof (coeff_acc_bound 0 _ ltac:(lia) Hall). lia. Qed.

Lemma coeff_zero d : Decimal.digits d = [0] → Decimal.coeff d = 0%Z.
Proof. unfold Decimal.coeff. intros ->. reflexivity. Qed.

Lemma abs_num d : Z.abs (Decimal.num d) = (Z.abs (Decimal.coeff d) * 10 ^ Z.max 0 (Decimal.exponent d))%Z.
Proof.
  unfold Decimal.num. rewrite !Z.abs_mul, (Z.abs_eq (10 ^ _)) by (apply Z.pow_nonneg; lia).
  destruct (Decimal.sign d); simpl; lia.
Qed.

Lemma in_maipu_spec a b : in_maipu a b = true ↔ in_box (Decimal.to_Q a) (Decimal.to_Q b).
Proof.
  unfold in_maipu, in_box, Decimal.le. rewrite !andb_true_iff, !Qle_bool_iff.
  change (Decimal.to_Q MIN_LAT) with (-33585 # 1000)%Q.
  change (Decimal.to_Q MAX_LAT) with (-3348 # 100)%Q.
  change (Decimal.to_Q MIN_LNG) with (-70835 # 1000)%Q.
  change (Decimal.to_Q MAX_LNG) with (-707 # 10)%Q. tauto.
Qed.

(** ** Field validation *)

Lemma clean_char_field_nil f blank m v :
  Place.clean_char_field f blank m v = [] ↔ (blank = true ∨ v ≠ []) ∧ length v ≤ m.
Proof.
  unfold Place.clean_char_field. case_bool_decide as Hv.
  - subst. destruct blank; simpl; split; try discriminate; intuition (try lia; congruence).
  - destruct (Nat.ltb_spec m (length v)); split; try discriminate; intuition lia.
Qed.

Lemma clean_decimal_field_nil f v :
  Place.clean_decimal_field f v = [] ↔ ∃ d, v = Some d ∧ Decimal.validate 9 6 d = None.
Proof.
  unfold Place.clean_decimal_field. split.
  - destruct v as [d|]; [|discriminate].
    destruct (Decimal.validate 9 6 d) eqn:E; [discriminate|]. eauto.
  - intros (d & -> & ->). done.
Qed.

Lemma clean_nil p a b :
  Place.lat p = Some a → Place.lng p = Some b → Place.clean p = [] ↔ in_maipu a b = true.
Proof.
  intros Ha Hb. unfold Place.clean. rewrite Ha, Hb.
  destruct (in_maipu a b); split; done.
Qed.

#[export] Hint Rewrite clean_char_field_nil clean_decimal_field_nil : incluimap_rw.

(** ** Properties of [Place.full_clean] *)

(** A place that passes [Place.full_clean] is valid: the direction
    [Place.save] relies on. *)
Lemma full_clean_sound (p : Place.t) : Place.full_clean p = [] → Place.valid p.
Proof.
  unfold Place.full_clean, Place.clean_fields, Place.valid.
  rewrite !app_nil, !clean_char_field_nil, !clean_decimal_field_nil.
  intros [([[[=]|Hn] Hnl] & [_ Hadr] & (a & Ha & Hva) & (b & Hb & Hvb) & [_ Ht]) Hc].
  rewrite (clean_nil p a b Ha Hb), in_maipu_spec in Hc. exists a, b. naive_solver.
Qed.

(** C5: [Place.full_clean] (the check [Place.save] runs before every
    insert) reports no error exactly for a place whose coordinates are set,
    fit [DecimalField(9, 6)] and lie inside the Maipú bounding box, whose
    name is non-blank and at most 200 characters, and whose address and
    tags are at most 255 characters. *)
Theorem full_clean_valid (p : Place.t) : Place.full_clean p = [] ↔ Place.valid p.
Proof.
  split; [apply full_clean_sound|].
  unfold Place.full_clean, Place.clean_fields, Place.valid.
  rewrite !app_nil, !clean_char_field_nil, !clean_decimal_field_nil.
  intros (a & b & Ha & Hb & Hin & Hva & Hvb & Hn & Hnl & Hadr & Ht).
  rewrite (clean_nil p a b Ha Hb), in_maipu_spec. naive_solver lia.
Qed.


(** a coordinate that the field check of [Place.lat] or
    [Place.lng] ([DecimalField(max_digits=9, decimal_places=6)]) accepts
    has absolute value below 1000 and at most six fractional digits: its
    denominator divides [10^6]. *)
Theorem validate_bounds f d :
  Decimal.wf d → Place.clean_decimal_field f (Some d) = [] →
  (Z.abs (Decimal.num d) < 1000 * Decimal.den d)%Z ∧ (Decimal.den d | 10 ^ 6)%Z.
Proof.
  intros Hwf Hf.
  assert (Hv : Decimal.validate 9 6 d = None)
    by (unfold Place.clean_decimal_field in Hf; destruct (Decimal.validate 9 6 d); done).
  pose proof (coeff_bound d Hwf) as Hc.
  rewrite abs_num. unfold Decimal.validate, Decimal.den in *.
  set (L := Z.of_nat (length (Decimal.digits d))) in *.
  set (e := Decimal.exponent d) in *.
  rewrite Z.abs_eq by lia.
  destruct (Z.leb_spec 0 e) as [He|He].
  - rewrite (Z.max_r 0 e), (Z.max_l 0 (-e)) by lia. rewrite Z.pow_0_r.
    case_bool_decide as Hz.
    + rewrite coeff_zero by done. split; [lia|apply Z.divide_1_l].
    + case_zcmp Hv. split; [|apply Z.divide_1_l].
      assert (10 ^ L * 10 ^ e ≤ 10 ^ 3)%Z.
      { rewrite <- Z.pow_add_r by lia. apply Z.pow_le_mono_r; lia. }
      assert (0 < 10 ^ e)%Z by (apply Z.pow_pos_nonneg; lia). nia.
  - rewrite (Z.max_l 0 e), (Z.max_r 0 (-e)) by lia. rewrite Z.pow_0_r, Z.mul_1_r.
    assert (Hd : (10 ^ 6 = 10 ^ (- e) * 10 ^ (6 + e))%Z)
      by (rewrite <- Z.pow_add_r by (case_zcmp Hv; lia); f_equal; lia).
    destruct (Z.ltb_spec L (- e)) as [HL|HL]; case_zcmp Hv;
      (split; [|exists (10 ^ (6 + e))%Z; lia]).
    + assert (10 ^ L ≤ 10 ^ (- e))%Z by (apply Z.pow_le_mono_r; lia). lia.
    + assert (10 ^ L = 10 ^ (L + e) * 10 ^ (- e))%Z
        by (rewrite <- Z.pow_add_r by lia; f_equal; lia).
      assert (10 ^ (L + e) ≤ 10 ^ 3)%Z by (apply Z.pow_le_mono_r; lia).
      assert (0 < 10 ^ (- e))%Z by (apply Z.pow_pos_nonneg; lia). nia.
Qed.


Lemma validate_bounds_witness :
  (Z.abs (Decimal.num test_lat) < 1000 * Decimal.den test_lat)%Z ∧ (Decimal.den test_lat | 10 ^ 6)%Z.
Proof.
  apply (validate_bounds F_lat); [split; [discriminate|repeat constructor; lia]|vm_compute; reflexivity].
Defined.

(** [tests.py]: the place of [test_crear_place_valido] passes validation. *)
Example full_clean_test_place :
  Place.full_clean (Place.mk (lit "Plaza de Maipú") (lit "Av. Pajaritos 123")
                      (Some test_lat) (Some test_lng) (lit "rampa, ascensor") 0) = [].
Proof. vm_compute. reflexivity. Qed.
