(* ===== verification/Models.v ===== *)
(** * Models: the database of [src/core/models.py]

    One Module per model class ([User] of [django.contrib.auth], [Profile],
    [Place] from Geofence.v, [Report], [Notification], [Comment]), each a
Record of its columns.  A table is a finite map from primary keys to
    rows with the next value of its autoincrement key; foreign keys are
    primary keys.  [DB] is the whole database plus the mail outbox.

    The operations are the ORM calls the code makes: [objects.create] and
    [save] (with [Place.save]'s [full_clean] and the [post_save] signal that
    creates a [Profile] for a new [User]), and [delete] with the cascades the
    [on_delete=models.CASCADE] declarations define.  [wf] is the integrity
    invariant of the database: keys below the sequence, foreign keys
    pointing at existing rows, one profile per user, every place valid. *)

From S2P Require Import Prelude Text Geofence.

(** ** Tables with an autoincrement primary key *)

Module Table.

Record t (A : Type) := mk { rows : gmap nat A; next_id : nat }.
  Arguments mk {A}. Arguments rows {A}. Arguments next_id {A}.

Definition empty {A} : t A := mk ∅ 1.

  (** [INSERT]: the row gets the next key of the sequence. *)
Definition insert {A} (x : A) (tb : t A) : nat * t A :=
    (next_id tb, mk (<[next_id tb := x]> (rows tb)) (S (next_id tb))).

  (** [UPDATE ... WHERE id = k]. *)
Definition update {A} (k : nat) (x : A) (tb : t A) : t A :=
    mk (<[k := x]> (rows tb)) (next_id tb).

  (** [DELETE ... WHERE id = k]. *)
Definition delete {A} (k : nat) (tb : t A) : t A := mk (base.delete k (rows tb)) (next_id tb).

  (** [DELETE ... WHERE NOT P]: keep the rows satisfying [P]. *)
Definition keep {A} (P : A → bool) (tb : t A) : t A :=
    mk (filter (λ kv, P kv.2 = true) (rows tb)) (next_id tb).

  (** [UPDATE ... SET ...] on every row: [f] rewrites the rows its
      [WHERE] clause selects and returns the others unchanged. *)
Definition update_all {A} (f : A → A) (tb : t A) : t A := mk (f <$> rows tb) (next_id tb).

  (** Every key was drawn from the sequence. *)
Definition wf {A} (tb : t A) : Prop := ∀ k x, rows tb !! k = Some x → k < next_id tb.

  Arguments insert : simpl never.
  Arguments update : simpl never.
  Arguments delete : simpl never.
  Arguments keep : simpl never.
  Arguments update_all : simpl never.

End Table.

(** ** The model classes *)

Module User.
  (** [django.contrib.auth.models.User], the columns the code reads. *)
Record t := mk { username : text; email : text; first_name : text; last_name : text }.
End User.

Module Profile.
  (** [Profile] (models.py, lines 10-36); [favorite_places] is the
      many-to-many relation to [Place]. *)
Record t := mk { avatar : option text; bio : text; favorite_places : gset nat }.
Definition empty : t := mk None [] ∅.
End Profile.

Module Upload.
  (** An uploaded file as the form sees it ([UploadedFile.size],
      [UploadedFile.content_type]). *)
Record t := mk { size : Z; content_type : list N }.
End Upload.

Module Report.
  (** [Report] (models.py, lines 102-112). *)
Record t := mk {
    place : nat;
    author : nat;
    description : list N;
    rating : Z;
    tags : list N;
    photo : option Upload.t;
    created_at : nat
  }.
End Report.

Module Notification.
  (** [Notification] (models.py, lines 115-145). *)
Record t := mk {
    user : nat;
    place : option nat;
    report : option nat;
    message : list N;
    created_at : nat;
    is_read : bool
  }.
End Notification.

Module Comment.
  (** [Comment] (models.py, lines 201-219). *)
Record t := mk { report : nat; author : nat; text : list N; created_at : nat }.
End Comment.

(** A message handed to [send_mail]. *)
Record Email := mkEmail { subject : text; body : text; recipient : text }.

(** ** The database *)

Record DB := mkDB {
  users : Table.t User.t;
  profiles : gmap nat Profile.t;   (** keyed by the user: [OneToOneField] *)
  places : Table.t Place.t;
  reports : Table.t Report.t;
  comments : Table.t Comment.t;
  notifications : Table.t Notification.t;
  outbox : list Email              (** mail accepted by the transport *)
}.

Definition empty_db : DB :=
  mkDB Table.empty ∅ Table.empty Table.empty Table.empty Table.empty [].

Definition set_users f db :=
  mkDB (f (users db)) (profiles db) (places db) (reports db) (comments db) (notifications db) (outbox db).
Definition set_profiles f db :=
  mkDB (users db) (f (profiles db)) (places db) (reports db) (comments db) (notifications db) (outbox db).
Definition set_places f db :=
  mkDB (users db) (profiles db) (f (places db)) (reports db) (comments db) (notifications db) (outbox db).
Definition set_reports f db :=
  mkDB (users db) (profiles db) (places db) (f (reports db)) (comments db) (notifications db) (outbox db).
Definition set_comments f db :=
  mkDB (users db) (profiles db) (places db) (reports db) (f (comments db)) (notifications db) (outbox db).
Definition set_notifications f db :=
  mkDB (users db) (profiles db) (places db) (reports db) (comments db) (f (notifications db)) (outbox db).
Definition set_outbox f db :=
  mkDB (users db) (profiles db) (places db) (reports db) (comments db) (notifications db) (f (outbox db)).

(** ** ORM operations *)

(** [Place.save] on a new instance (models.py, lines 93-99):
    [full_clean], then [INSERT] with [created_at = now]. *)
Definition place_save (now : nat) (p : Place.t) (db : DB) : Errors + (nat * DB) :=
  match Place.full_clean p with
  | [] =>
      let ins := Table.insert (Place.mk (Place.name p) (Place.address p) (Place.lat p)
                                 (Place.lng p) (Place.tags p) now) (places db) in
      inr (ins.1, set_places (λ _, ins.2) db)
  | es => inl es
  end.

(** [Profile.objects.get_or_create(user=u)]. *)
Definition get_or_create_profile (u : nat) (db : DB) : Profile.t * DB :=
  match profiles db !! u with
  | Some prof => (prof, db)
  | None => (Profile.empty, set_profiles (λ m, <[u := Profile.empty]> m) db)
  end.

(** [User.save()] of a new user and the [post_save] receiver
    [create_or_update_user_profile] with [created=True]
    (models.py, lines 39-46): the profile is created with the user. *)
Definition create_user (usr : User.t) (db : DB) : nat * DB :=
  let ins := Table.insert usr (users db) in
  (ins.1, set_profiles (λ m, <[ins.1 := Profile.empty]> m) (set_users (λ _, ins.2) db)).

(** [User.save()] of an existing user: the receiver with [created=False]
    (models.py, lines 47-49) re-creates a missing profile. *)
Definition save_user (k : nat) (usr : User.t) (db : DB) : DB :=
  snd (get_or_create_profile k (set_users (Table.update k usr) db)).

(** [Report.delete()]: [Comment.report] and [Notification.report] are
    [on_delete=CASCADE], so the report's comments and notifications go
    with it. *)
Definition delete_report (r : nat) (db : DB) : DB :=
  set_notifications (Table.keep (λ n, negb (bool_decide (Notification.report n = Some r))))
    (set_comments (Table.keep (λ c, negb (bool_decide (Comment.report c = r))))
       (set_reports (Table.delete r) db)).

(** The reports filed on place [p]. *)
Definition reports_of (p : nat) (db : DB) : gset nat :=
  dom (filter (λ kv, Report.place kv.2 = p) (Table.rows (reports db))).

(** [Place.delete()]: [Report.place] and [Notification.place] are
    [on_delete=CASCADE] (and so, transitively, the comments and
    notifications of those reports), and the rows of the favourites
    relation that name the place are removed. *)
Definition delete_place (p : nat) (db : DB) : DB :=
  let dead := reports_of p db in
  mkDB (users db)
    ((λ prof, Profile.mk (Profile.avatar prof) (Profile.bio prof)
                (Profile.favorite_places prof ∖ {[p]})) <$> profiles db)
    (Table.delete p (places db))
    (Table.keep (λ r, negb (bool_decide (Report.place r = p))) (reports db))
    (Table.keep (λ c, negb (bool_decide (Comment.report c ∈ dead))) (comments db))
    (Table.keep (λ n, negb (bool_decide (Notification.place n = Some p)) &&
                      negb (match Notification.report n with
                            | Some r => bool_decide (r ∈ dead)
                            | None => false
                            end))
       (notifications db))
    (outbox db).

(** The reports written by user [u]. *)
Definition reports_by (u : nat) (db : DB) : gset nat :=
  dom (filter (λ kv, Report.author kv.2 = u) (Table.rows (reports db))).

(** [User.delete()] (the admin's user pages): [Profile.user],
    [Report.author], [Comment.author] and [Notification.user] are
    [on_delete=CASCADE], and so, through [Report], are the comments and
    notifications of the user's reports. *)
Definition delete_user (u : nat) (db : DB) : DB :=
  let dead := reports_by u db in
  mkDB (Table.delete u (users db))
    (base.delete u (profiles db))
    (places db)
    (Table.keep (λ r, negb (bool_decide (Report.author r = u))) (reports db))
    (Table.keep (λ c, negb (bool_decide (Comment.author c = u)) &&
                      negb (bool_decide (Comment.report c ∈ dead))) (comments db))
    (Table.keep (λ n, negb (bool_decide (Notification.user n = u)) &&
                      negb (match Notification.report n with
                            | Some r => bool_decide (r ∈ dead)
                            | None => false
                            end))
       (notifications db))
    (outbox db).

(** ** The integrity invariant *)

Definition row_in {A} (tb : Table.t A) (k : nat) : Prop := is_Some (Table.rows tb !! k).

Record wf (db : DB) : Prop := {
  wf_users : Table.wf (users db);
  wf_places : Table.wf (places db);
  wf_reports : Table.wf (reports db);
  wf_comments : Table.wf (comments db);
  wf_notifications : Table.wf (notifications db);
  (** one profile per user, and no other *)
  wf_profiles : ∀ u, is_Some (profiles db !! u) ↔ row_in (users db) u;
  wf_favorites : ∀ u prof, profiles db !! u = Some prof →
    Profile.favorite_places prof ⊆ dom (Table.rows (places db));
  wf_place_valid : ∀ k p, Table.rows (places db) !! k = Some p → Place.valid p;
  wf_report_fk : ∀ k r, Table.rows (reports db) !! k = Some r →
    row_in (places db) (Report.place r) ∧ row_in (users db) (Report.author r);
  wf_comment_fk : ∀ k c, Table.rows (comments db) !! k = Some c →
    row_in (reports db) (Comment.report c) ∧ row_in (users db) (Comment.author c);
  wf_notification_fk : ∀ k n, Table.rows (notifications db) !! k = Some n →
    row_in (users db) (Notification.user n) ∧
    (∀ p, Notification.place n = Some p → row_in (places db) p) ∧
    (∀ r, Notification.report n = Some r → row_in (reports db) r)
}.

(** ** A sample database

    Two users and the place of the test suite, built with the operations
    above; the examples and witnesses of the development run on it. *)
Definition demo_place : Place.t :=
  Place.mk (lit "Espacio Urbano") (lit "Pajaritos") (Some test_lat) (Some test_lng) (lit "ascensor") 0.

Definition demo_db : DB :=
  let db1 := (create_user (User.mk (lit "levis") [] [] []) empty_db).2 in
  let db2 := (create_user (User.mk (lit "ignacio") (lit "ignacio@test.com") [] []) db1).2 in
  match place_save 0 demo_place db2 with
  | inr (_, db3) => db3
  | inl _ => db2
  end.

(** ** Table lemmas *)

Section TableLemmas.
  Context {A : Type}.
  Implicit Types (tb : Table.t A) (x : A).

Lemma table_insert_fresh tb : Table.wf tb → Table.rows tb !! Table.next_id tb = None.
  Proof.
    intros Hwf. destruct (Table.rows tb !! Table.next_id tb) as [y|] eqn:E; [|done].
    apply Hwf in E. lia.
  Qed.

Lemma table_insert_key tb x : (Table.insert x tb).1 = Table.next_id tb.
  Proof. done. Qed.

Lemma table_insert_wf tb x : Table.wf tb → Table.wf (Table.insert x tb).2.
  Proof.
    intros Hwf k y. simpl. rewrite lookup_insert.
    case_decide; [lia|]. intros Hk. apply Hwf in Hk. lia.
  Qed.

Lemma table_insert_lookup tb x k :
    Table.rows (Table.insert x tb).2 !! k =
      if decide (Table.next_id tb = k) then Some x else Table.rows tb !! k.
  Proof. apply lookup_insert. Qed.

Lemma table_insert_lookup_eq tb x : Table.rows (Table.insert x tb).2 !! Table.next_id tb = Some x.
  Proof. rewrite table_insert_lookup. by rewrite decide_True. Qed.

Lemma table_row_in_insert tb x k : row_in tb k → row_in (Table.insert x tb).2 k.
  Proof. unfold row_in. rewrite table_insert_lookup. case_decide; auto. Qed.

Lemma table_update_wf tb k x : row_in tb k → Table.wf tb → Table.wf (Table.update k x tb).
  Proof.
    intros [y Hy] Hwf k' z. simpl. rewrite lookup_insert.
    case_decide; [subst; by apply Hwf in Hy|]. apply Hwf.
  Qed.

Lemma table_delete_rows tb k : Table.rows (Table.delete k tb) = base.delete k (Table.rows tb).
  Proof. done. Qed.

Lemma table_delete_wf tb k : Table.wf tb → Table.wf (Table.delete k tb).
  Proof. intros Hwf k' z. simpl. rewrite lookup_delete_Some. intros [_ H]. by apply Hwf in H. Qed.

Lemma table_keep_lookup P tb k x :
    Table.rows (Table.keep P tb) !! k = Some x ↔ Table.rows tb !! k = Some x ∧ P x = true.
  Proof. simpl. by rewrite map_lookup_filter_Some. Qed.

Lemma table_keep_wf P tb : Table.wf tb → Table.wf (Table.keep P tb).
  Proof. intros Hwf k z. rewrite table_keep_lookup. intros [H _]. by apply Hwf in H. Qed.

Lemma table_row_in_update tb k x v : row_in tb k → row_in (Table.update k x tb) v ↔ row_in tb v.
  Proof.
    intros Hk. unfold row_in. simpl. rewrite lookup_insert.
    case_decide; [subst; split; auto|done].
  Qed.

Lemma table_row_in_keep P tb k x :
    Table.rows tb !! k = Some x → P x = true → row_in (Table.keep P tb) k.
  Proof. intros H HP. exists x. by apply table_keep_lookup. Qed.

Lemma table_row_in_delete tb k k' : k ≠ k' → row_in tb k' → row_in (Table.delete k tb) k'.
  Proof. intros Hne. unfold row_in. simpl. by rewrite lookup_delete_ne. Qed.

Lemma table_update_all_id (f : A → A) tb :
    (∀ k x, Table.rows tb !! k = Some x → f x = x) → Table.update_all f tb = tb.
  Proof.
    destruct tb as [rows next]. intros H. unfold Table.update_all. simpl. f_equal.
    apply map_eq. intros k. rewrite lookup_fmap.
    destruct (rows !! k) as [x|] eqn:E; simpl; [by rewrite (H k x E)|done].
  Qed.

End TableLemmas.

#[export] Hint Resolve table_insert_wf table_update_wf table_delete_wf table_keep_wf
  table_row_in_insert : incluimap.

(** ** The operations preserve the invariant *)

(** Reduce the record plumbing of [DB] and nothing else. *)
Ltac simpl_db :=
  cbn [set_users set_profiles set_places set_reports set_comments set_notifications
       set_outbox users profiles places reports comments notifications outbox fst snd] in *.

Lemma row_in_lookup {A} (tb : Table.t A) k x : Table.rows tb !! k = Some x → row_in tb k.
Proof. intros H. by exists x. Qed.

#[export] Hint Resolve row_in_lookup : incluimap.

Lemma create_user_wf usr db : wf db → wf (create_user usr db).2.
Proof.
  intros []. unfold create_user. simpl_db. rewrite table_insert_key.
  pose proof (table_insert_fresh _ wf_users0) as Hfresh.
  split; simpl_db; eauto with incluimap.
  - intros u'. rewrite lookup_insert. unfold row_in. rewrite table_insert_lookup.
    case_decide; [split; intros; eauto|]. apply wf_profiles0.
  - intros u' prof. rewrite lookup_insert. case_decide; [intros [= <-]; set_solver|].
    apply wf_favorites0.
  - intros k r Hr. destruct (wf_report_fk0 k r Hr). eauto with incluimap.
  - intros k c Hc. destruct (wf_comment_fk0 k c Hc). eauto with incluimap.
  - intros k n Hn. destruct (wf_notification_fk0 k n Hn) as (? & ? & ?).
    eauto with incluimap.
Qed.

Lemma place_valid_created_at p now :
  Place.valid p →
  Place.valid (Place.mk (Place.name p) (Place.address p) (Place.lat p) (Place.lng p) (Place.tags p) now).
Proof. done. Qed.

Lemma dom_insert_row {A} (tb : Table.t A) x :
  dom (Table.rows (Table.insert x tb).2) = {[Table.next_id tb]} ∪ dom (Table.rows tb).
Proof. apply dom_insert_L. Qed.

Lemma place_save_wf now p db k db' :
  wf db → place_save now p db = inr (k, db') → wf db'.
Proof.
  intros [] Hs. unfold place_save in Hs.
  destruct (Place.full_clean p) eqn:Hc; [|discriminate].
  apply (inj inr), pair_equal_spec in Hs as [<- <-].
  apply full_clean_sound in Hc.
  split; simpl_db; eauto with incluimap.
  - intros u prof Hp. rewrite dom_insert_row. apply wf_favorites0 in Hp. set_solver.
  - intros k' p'. rewrite table_insert_lookup. case_decide; [intros [= <-]|]; eauto.
  - intros k' r Hr. destruct (wf_report_fk0 k' r Hr). eauto with incluimap.
  - intros k' n Hn. destruct (wf_notification_fk0 k' n Hn) as (? & Hp & ?).
    split_and!; eauto with incluimap.
Qed.

Lemma place_save_keeps now p db k db' :
  place_save now p db = inr (k, db') →
  users db' = users db ∧ (∀ j, row_in (places db) j → row_in (places db') j).
Proof.
  unfold place_save. destruct (Place.full_clean p); [|discriminate].
  intros Hs. apply (inj inr), pair_equal_spec in Hs as [<- <-]. simpl_db. eauto with incluimap.
Qed.

Lemma get_or_create_users u db : users (get_or_create_profile u db).2 = users db.
Proof. unfold get_or_create_profile. by destruct (profiles db !! u). Qed.

Lemma get_or_create_lookup u db :
  profiles (get_or_create_profile u db).2 !! u = Some (get_or_create_profile u db).1.
Proof.
  unfold get_or_create_profile. destruct (profiles db !! u) eqn:E; simpl_db; [done|].
  by rewrite lookup_insert_eq.
Qed.

(** [get_or_create] writes the profile table only, and only at [u]. *)
Lemma get_or_create_other u db :
  let db1 := (get_or_create_profile u db).2 in
  (∀ v, v ≠ u → profiles db1 !! v = profiles db !! v) ∧
  users db1 = users db ∧ places db1 = places db ∧ reports db1 = reports db ∧
  comments db1 = comments db ∧ notifications db1 = notifications db ∧ outbox db1 = outbox db.
Proof.
  unfold get_or_create_profile. destruct (profiles db !! u); simpl_db; [done|].
  split_and!; try done. intros v Hv. by rewrite lookup_insert_ne.
Qed.

Lemma get_or_create_wf u db : wf db → row_in (users db) u → wf (get_or_create_profile u db).2.
Proof.
  intros [] Hu. unfold get_or_create_profile. destruct (profiles db !! u) eqn:E; [by split|].
  split; simpl_db; auto.
  - intros v. rewrite lookup_insert. case_decide; [subst; split; auto|auto].
  - intros v prof. rewrite lookup_insert. case_decide; [intros [= <-]; set_solver|apply wf_favorites0].
Qed.

(** On a consistent database every user has a profile already:
    [get_or_create] only reads. *)
Lemma get_or_create_noop u db : wf db → row_in (users db) u → (get_or_create_profile u db).2 = db.
Proof.
  intros Hwf Hu. apply (wf_profiles _ Hwf) in Hu as [prof Hp].
  unfold get_or_create_profile. by rewrite Hp.
Qed.

(** Writing the row of an existing user keeps the database consistent. *)
Lemma update_user_wf k usr db : wf db → row_in (users db) k → wf (set_users (Table.update k usr) db).
Proof.
  intros [] Hk. split; simpl_db; auto using table_update_wf.
  - intros v. rewrite table_row_in_update by done. auto.
  - intros j r Hr. rewrite table_row_in_update by done. eauto.
  - intros j c Hc. rewrite table_row_in_update by done. eauto.
  - intros j n Hn. rewrite table_row_in_update by done. eauto.
Qed.

(** Writing the profile of an existing user, with favourites that
    exist, keeps the database consistent. *)
Lemma profile_insert_wf u prof db :
  wf db → row_in (users db) u → Profile.favorite_places prof ⊆ dom (Table.rows (places db)) →
  wf (set_profiles (λ ps, <[u := prof]> ps) db).
Proof.
  intros [] Hu Hf. split; simpl_db; auto.
  - intros v. rewrite lookup_insert. case_decide; [subst; split; auto|auto].
  - intros v p. rewrite lookup_insert. case_decide; [intros [= <-]; done|apply wf_favorites0].
Qed.

Lemma reports_of_spec p db r :
  r ∈ reports_of p db ↔ ∃ x, Table.rows (reports db) !! r = Some x ∧ Report.place x = p.
Proof. unfold reports_of. rewrite elem_of_dom. unfold is_Some. setoid_rewrite map_lookup_filter_Some. naive_solver. Qed.

Lemma delete_report_wf r db : wf db → wf (delete_report r db).
Proof.
  intros []. unfold delete_report. split; simpl_db; eauto with incluimap.
  - intros k x. unfold Table.delete. simpl. rewrite lookup_delete_Some. intros [_ Hx]. eauto.
  - intros k c. rewrite table_keep_lookup. intros [Hc Hne%negb_true_iff].
    apply bool_decide_eq_false_1 in Hne.
    destruct (wf_comment_fk0 k c Hc). split; [|done]. by apply table_row_in_delete.
  - intros k n. rewrite table_keep_lookup. intros [Hn Hne%negb_true_iff].
    apply bool_decide_eq_false_1 in Hne.
    destruct (wf_notification_fk0 k n Hn) as (? & ? & Hr). split_and!; [done|done|].
    intros r' Hr'. apply table_row_in_delete; [congruence|eauto].
Qed.

Lemma negb_bool_decide_true (P : Prop) `{Decision P} : negb (bool_decide P) = true ↔ ¬ P.
Proof. rewrite negb_true_iff. apply bool_decide_eq_false. Qed.

Lemma keep_report_other p db r x :
  Table.rows (reports db) !! r = Some x → r ∉ reports_of p db →
  row_in (Table.keep (λ r, negb (bool_decide (Report.place r = p))) (reports db)) r.
Proof.
  intros Hx Hdead. apply (table_row_in_keep _ _ _ x Hx), negb_bool_decide_true.
  intros Hp. apply Hdead, reports_of_spec. eauto.
Qed.

Lemma delete_place_wf p db : wf db → wf (delete_place p db).
Proof.
  intros []. unfold delete_place. split; simpl_db; eauto with incluimap.
  - intros u. by rewrite lookup_fmap, fmap_is_Some.
  - intros u prof. rewrite lookup_fmap, fmap_Some. intros (prof0 & Hp0 & ->). cbn [Profile.favorite_places].
    apply wf_favorites0 in Hp0. rewrite table_delete_rows, dom_delete_L. set_solver.
  - intros k x. rewrite table_delete_rows, lookup_delete_Some. intros [_ Hx]. eauto.
  - intros k x. rewrite table_keep_lookup, negb_bool_decide_true. intros [Hx Hne].
    destruct (wf_report_fk0 k x Hx). split; [|done]. by apply table_row_in_delete.
  - intros k c. rewrite table_keep_lookup, negb_bool_decide_true. intros [Hc Hdead].
    destruct (wf_comment_fk0 k c Hc) as [[x Hx] ?]. split; [|done].
    by apply (keep_report_other _ _ _ x).
  - intros k n. rewrite table_keep_lookup, andb_true_iff, negb_bool_decide_true.
    intros [Hn [Hpl Hrep]]. destruct (wf_notification_fk0 k n Hn) as (? & Hp & Hr).
    split_and!; [done| |].
    + intros p' Hp'. apply table_row_in_delete; [congruence|auto].
    + intros r Hr'. rewrite Hr' in Hrep. apply negb_true_iff, bool_decide_eq_false in Hrep.
      destruct (Hr r Hr') as [x Hx]. by apply (keep_report_other _ _ _ x).
Qed.

(** C6: deleting a place (the cascades its foreign keys declare) keeps
    the database consistent and removes the place, every report filed on
    it, every comment on those reports, every notification that refers to
    the place or to one of those reports, and the place from every list
    of favourites; the other reports stay. *)
Theorem delete_place_cascade p db :
  wf db →
  let db' := delete_place p db in
  wf db' ∧ ¬ row_in (places db') p ∧
  (∀ k x, Table.rows (reports db') !! k = Some x ↔
            Table.rows (reports db) !! k = Some x ∧ Report.place x ≠ p) ∧
  (∀ k c, Table.rows (comments db') !! k = Some c → Comment.report c ∉ reports_of p db) ∧
  (∀ k n, Table.rows (notifications db') !! k = Some n →
            Notification.place n ≠ Some p ∧
            ∀ r, Notification.report n = Some r → r ∉ reports_of p db) ∧
  (∀ u prof, profiles db' !! u = Some prof → p ∉ Profile.favorite_places prof).
Proof.
  intros Hwf. cbv zeta. split_and!.
  - by apply delete_place_wf.
  - unfold row_in, delete_place. simpl_db. rewrite table_delete_rows, lookup_delete_eq. by intros [].
  - intros k x. unfold delete_place. simpl_db. by rewrite table_keep_lookup, negb_bool_decide_true.
  - intros k c. unfold delete_place. simpl_db. rewrite table_keep_lookup, negb_bool_decide_true. tauto.
  - intros k n. unfold delete_place. simpl_db. rewrite table_keep_lookup, andb_true_iff, negb_bool_decide_true.
    intros (_ & Hpl & Hrep). split; [done|]. intros r Hr. rewrite Hr in Hrep.
    by apply negb_true_iff, bool_decide_eq_false in Hrep.
  - intros u prof. unfold delete_place. simpl_db. rewrite lookup_fmap, fmap_Some.
    intros (? & _ & ->). cbn [Profile.favorite_places]. set_solver.
Qed.

Lemma reports_by_spec u db r :
  r ∈ reports_by u db ↔ ∃ x, Table.rows (reports db) !! r = Some x ∧ Report.author x = u.
Proof. unfold reports_by. rewrite elem_of_dom. unfold is_Some. setoid_rewrite map_lookup_filter_Some. naive_solver. Qed.

Lemma keep_report_author u db r x :
  Table.rows (reports db) !! r = Some x → r ∉ reports_by u db →
  row_in (Table.keep (λ r, negb (bool_decide (Report.author r = u))) (reports db)) r.
Proof.
  intros Hx Hdead. apply (table_row_in_keep _ _ _ x Hx), negb_bool_decide_true.
  intros Hp. apply Hdead, reports_by_spec. eauto.
Qed.

Lemma delete_user_wf u db : wf db → wf (delete_user u db).
Proof.
  intros []. unfold delete_user. split; simpl_db; eauto with incluimap.
  - intros v. rewrite lookup_delete_is_Some. unfold row_in. rewrite table_delete_rows, lookup_delete_is_Some.
    specialize (wf_profiles0 v). naive_solver.
  - intros v prof. rewrite lookup_delete_Some. intros [_ Hp]. eauto.
  - intros k x. rewrite table_keep_lookup, negb_bool_decide_true. intros [Hx Hne].
    destruct (wf_report_fk0 k x Hx). split; [done|]. by apply table_row_in_delete.
  - intros k c. rewrite table_keep_lookup, andb_true_iff, !negb_bool_decide_true. intros (Hc & Ha & Hdead).
    destruct (wf_comment_fk0 k c Hc) as [[x Hx] ?]. split.
    + by apply (keep_report_author _ _ _ x).
    + by apply table_row_in_delete.
  - intros k n. rewrite table_keep_lookup, andb_true_iff, negb_bool_decide_true.
    intros [Hn [Hu Hrep]]. destruct (wf_notification_fk0 k n Hn) as (? & Hp & Hr).
    split_and!; [by apply table_row_in_delete|done|].
    intros r Hr'. rewrite Hr' in Hrep. apply negb_true_iff, bool_decide_eq_false in Hrep.
    destruct (Hr r Hr') as [x Hx]. by apply (keep_report_author _ _ _ x).
Qed.

(** C21: deleting a user keeps the database consistent and removes the
    user, their profile, every report they wrote, every comment they
    wrote or that was on one of those reports, every notification
    addressed to them or about one of those reports; the places and the
    other users' reports stay. *)
Theorem delete_user_cascade u db :
  wf db →
  let db' := delete_user u db in
  wf db' ∧ ¬ row_in (users db') u ∧ profiles db' !! u = None ∧ places db' = places db ∧
  (∀ k x, Table.rows (reports db') !! k = Some x ↔
            Table.rows (reports db) !! k = Some x ∧ Report.author x ≠ u) ∧
  (∀ k c, Table.rows (comments db') !! k = Some c ↔
            Table.rows (comments db) !! k = Some c ∧ Comment.author c ≠ u ∧
            Comment.report c ∉ reports_by u db) ∧
  (∀ k n, Table.rows (notifications db') !! k = Some n →
            Notification.user n ≠ u ∧ ∀ r, Notification.report n = Some r → r ∉ reports_by u db).
Proof.
  intros Hwf. cbv zeta. unfold delete_user. simpl_db. split_and!; [by apply delete_user_wf|..].
  - unfold row_in. rewrite table_delete_rows, lookup_delete_eq. by intros [].
  - by rewrite lookup_delete_eq.
  - done.
  - intros k x. by rewrite table_keep_lookup, negb_bool_decide_true.
  - intros k c. by rewrite table_keep_lookup, andb_true_iff, !negb_bool_decide_true.
  - intros k n. rewrite table_keep_lookup, andb_true_iff, negb_bool_decide_true.
    intros (_ & Hu & Hrep). split; [done|]. intros r Hr. rewrite Hr in Hrep.
    by apply negb_true_iff, bool_decide_eq_false in Hrep.
Qed.

Lemma empty_db_wf : wf empty_db.
Proof.
  split; simpl; unfold Table.wf, row_in; simpl; intros *; rewrite ?lookup_empty;
    try (intros; discriminate).
  split; intros [? ?]; discriminate.
Qed.

Lemma demo_db_wf : wf demo_db.
Proof.
  unfold demo_db. pose proof (create_user_wf (User.mk (lit "levis") [] [] []) _ empty_db_wf) as H1.
  pose proof (create_user_wf (User.mk (lit "ignacio") (lit "ignacio@test.com") [] []) _ H1) as H2.
  destruct (place_save 0 demo_place _) as [|[k db3]] eqn:E; [exact H2|].
  exact (place_save_wf _ _ _ _ _ H2 E).
Qed.

Lemma delete_place_cascade_witness :
  wf demo_db ∧
  let db' := delete_place 1 demo_db in
  wf db' ∧ ¬ row_in (places db') 1 ∧
  (∀ k x, Table.rows (reports db') !! k = Some x ↔
            Table.rows (reports demo_db) !! k = Some x ∧ Report.place x ≠ 1) ∧
  (∀ k c, Table.rows (comments db') !! k = Some c → Comment.report c ∉ reports_of 1 demo_db) ∧
  (∀ k n, Table.rows (notifications db') !! k = Some n →
            Notification.place n ≠ Some 1 ∧
            ∀ r, Notification.report n = Some r → r ∉ reports_of 1 demo_db) ∧
  (∀ u prof, profiles db' !! u = Some prof → 1 ∉ Profile.favorite_places prof).
Proof. split; [apply demo_db_wf|]. apply delete_place_cascade, demo_db_wf. Defined.

Lemma delete_user_cascade_witness :
  wf demo_db ∧
  let db' := delete_user 2 demo_db in
  wf db' ∧ ¬ row_in (users db') 2 ∧ profiles db' !! 2 = None ∧ places db' = places demo_db ∧
  (∀ k x, Table.rows (reports db') !! k = Some x ↔
            Table.rows (reports demo_db) !! k = Some x ∧ Report.author x ≠ 2) ∧
  (∀ k c, Table.rows (comments db') !! k = Some c ↔
            Table.rows (comments demo_db) !! k = Some c ∧ Comment.author c ≠ 2 ∧
            Comment.report c ∉ reports_by 2 demo_db) ∧
  (∀ k n, Table.rows (notifications db') !! k = Some n →
            Notification.user n ≠ 2 ∧ ∀ r, Notification.report n = Some r → r ∉ reports_by 2 demo_db).
Proof. split; [apply demo_db_wf|]. apply delete_user_cascade, demo_db_wf. Defined.
