(* ===== verification/Http.v ===== *)
(** * Http: what the views of [src/core/views.py] receive and return

    A view receives the acting user ([request.user]: [None] when
    anonymous), the method and its parameters, and returns a response, the
    flash messages it queued with [django.contrib.messages], and the new
    database.  [login_required] sends an anonymous user to the login page;
    [require_POST] answers any other method with 405;
    [get_object_or_404] answers 404.  Rendering a template is a
    [Render] response; the page's data is returned beside it by the views
    whose page content matters. *)

From S2P Require Import Prelude Text Models.

Inductive Method := GET | POST.

(** [messages.info], [messages.success], [messages.error]. *)
Inductive Level := L_info | L_success | L_error.

Record Flash := mkFlash { level : Level; extra_tags : text; flash_text : text }.

(** The targets of [redirect(...)]: the named routes of
    [src/config/urls.py], or a URL taken from the request. *)
Inductive Route :=
  | R_home | R_places | R_my_reports | R_report_detail (pk : nat)
  | R_login | R_profile | R_contact
  | R_url (url : text).

Inductive Template :=
  | T_report_form | T_report_confirm_delete | T_report_detail
  | T_notifications | T_favorites | T_places | T_dashboard
  | T_signup | T_profile | T_map | T_reports | T_about | T_contact.

Inductive Response :=
  | Redirect (r : Route)
  | Render (t : Template)
  | NotFound            (** [Http404] from [get_object_or_404] *)
  | MethodNotAllowed    (** 405 from [require_POST] *)
  | ServerError         (** 500: an exception the view does not catch *)
  | Json                (** the [JsonResponse] of [places_api] *)
  | Delegated.          (** answered by a view of Django's own ([admin.site],
                            [django.contrib.auth.views]), outside the model *)

Record Outcome := mkOutcome { response : Response; flashes : list Flash; state : DB }.

(** A view that changes nothing. *)
Definition unchanged (r : Response) (db : DB) : Outcome := mkOutcome r [] db.

(** Python's [a or b] on optional request parameters: the first truthy one. *)
Definition py_or (a b : option text) : option text :=
  match a with
  | Some s => if truthy s then Some s else b
  | None => b
  end.
