(* ===== verification/Routing.v ===== *)
(** * Routing: [urlpatterns] ([src/config/urls.py]) and Django's resolver

    [urlpatterns] is data: a list of [path(route, view, name=...)].  A
    route is a text with converters: [<int:pk>] matches [[0-9]+] and
    gives [int(value)], [<str:token>] (also [<uidb64>]) matches [[^/]+]
    and gives the text.  Every converter of this configuration is a whole
    segment between two slashes, so a route is a list of segments
    ([Piece]) and matching the regular expression Django compiles from it
    is matching the path split on ["/"] segment by segment.  [path()]
    routes match the whole path; the [include] of [admin/] matches a
    prefix and hands the rest to the admin site ([PRest]).  [resolve]
    tries the patterns in order and takes the first that matches; the
    path is [request.path_info] without its leading slash.

    [reverse(name, args)] ([reverse_url]) renders the pattern named [name]: an [int]
    slot prints its argument with [str()], a [str] slot takes a
    non-empty text without a slash, and anything else raises
    [NoReverseMatch] ([None]).  The percent-encoding [reverse] applies
    is undone by the server before [path_info] reaches the resolver and
    is left out.

    The pattern of [static()] that [settings.DEBUG] adds is not
    modelled: the settings are not part of the sources. *)

From Stdlib Require Import DecimalNat.
From S2P Require Import Prelude Text Http.

(** ** Numbers as path segments *)

Definition SLASH : N := 47%N.

Definition is_digit (c : N) : bool := (48 <=? c)%N && (c <=? 57)%N.

(** [[0-9]+] *)
Definition all_digits (s : text) : bool := truthy s && forallb is_digit s.

(** [int(s)] on a string of ASCII digits. *)
Definition digits_value (s : text) : nat :=
  foldl (λ acc c, acc * 10 + N.to_nat (c - 48)) 0 s.

Fixpoint uint_text (u : Decimal.uint) : text :=
  match u with
  | Decimal.Nil => []
  | Decimal.D0 u => 48%N :: uint_text u
  | Decimal.D1 u => 49%N :: uint_text u
  | Decimal.D2 u => 50%N :: uint_text u
  | Decimal.D3 u => 51%N :: uint_text u
  | Decimal.D4 u => 52%N :: uint_text u
  | Decimal.D5 u => 53%N :: uint_text u
  | Decimal.D6 u => 54%N :: uint_text u
  | Decimal.D7 u => 55%N :: uint_text u
  | Decimal.D8 u => 56%N :: uint_text u
  | Decimal.D9 u => 57%N :: uint_text u
  end.

(** [str(n)] for a natural number. *)
Definition show_nat (n : nat) : text := uint_text (Nat.to_uint n).

(** ** Patterns *)

Inductive URLName :=
  | U_admin | U_home | U_places | U_report | U_reports | U_my_reports
  | U_report_detail | U_report_edit | U_report_delete | U_about | U_contact
  | U_favorites | U_toggle_favorite_place | U_profile | U_notifications
  | U_dashboard | U_login | U_logout | U_signup | U_password_reset
  | U_password_reset_done | U_password_reset_confirm | U_password_reset_complete
  | U_places_api.

#[export] Instance URLName_eq_dec : EqDecision URLName.
Proof. solve_decision. Defined.

Inductive Piece :=
  | PLit (s : text)   (** a literal segment *)
  | PInt              (** [<int:...>] *)
  | PStr              (** [<str:...>] and [<...>] *)
  | PRest.            (** the rest of the path, handed to an [include] *)

Record URLPattern := mkPattern { pieces : list Piece; url_name : URLName }.

Inductive Arg := A_int (n : nat) | A_str (s : text).

#[export] Instance Arg_eq_dec : EqDecision Arg.
Proof. solve_decision. Defined.

Record Match := mkMatch { m_name : URLName; m_args : list Arg }.

#[export] Instance Match_eq_dec : EqDecision Match.
Proof. solve_decision. Defined.

(** A route is listed by its segments: ['lugares/'] is
    [[seg "lugares"; END]], [END] being the empty segment after the final
    slash, and [''] is [[END]]. *)
Definition seg (s : string) : Piece := PLit (lit s).
Definition END : Piece := PLit [].

(** [urlpatterns], in the order of the file. *)
Definition urlpatterns : list URLPattern := [
  mkPattern [seg "admin"; PRest] U_admin;
  mkPattern [END] U_home;
  mkPattern [seg "lugares"; END] U_places;
  mkPattern [seg "reportar"; END] U_report;
  mkPattern [seg "reportes"; END] U_reports;
  mkPattern [seg "reportes"; seg "mios"; END] U_my_reports;
  mkPattern [seg "reportes"; PInt; END] U_report_detail;
  mkPattern [seg "reportes"; PInt; seg "editar"; END] U_report_edit;
  mkPattern [seg "reportes"; PInt; seg "eliminar"; END] U_report_delete;
  mkPattern [seg "acerca"; END] U_about;
  mkPattern [seg "contacto"; END] U_contact;
  mkPattern [seg "favoritos"; END] U_favorites;
  mkPattern [seg "lugares"; PInt; seg "favorito"; END] U_toggle_favorite_place;
  mkPattern [seg "perfil"; END] U_profile;
  mkPattern [seg "notificaciones"; END] U_notifications;
  mkPattern [seg "dashboard"; END] U_dashboard;
  mkPattern [seg "accounts"; seg "login"; END] U_login;
  mkPattern [seg "accounts"; seg "logout"; END] U_logout;
  mkPattern [seg "accounts"; seg "signup"; END] U_signup;
  mkPattern [seg "accounts"; seg "password_reset"; END] U_password_reset;
  mkPattern [seg "accounts"; seg "password_reset"; seg "done"; END] U_password_reset_done;
  mkPattern [seg "accounts"; seg "reset"; PStr; PStr; END] U_password_reset_confirm;
  mkPattern [seg "accounts"; seg "reset"; seg "done"; END] U_password_reset_complete;
  mkPattern [seg "api"; seg "places"; END] U_places_api
].

(** ** Resolving *)

(** The converters' [to_python] on the segments of a path. *)
Fixpoint match_pieces (ps : list Piece) (segs : list text) : option (list Arg) :=
  match ps, segs with
  | [], [] => Some []
  | [PRest], _ :: _ => Some []
  | PLit l :: ps, s :: ss => if bool_decide (s = l) then match_pieces ps ss else None
  | PInt :: ps, s :: ss => if all_digits s then cons (A_int (digits_value s)) <$> match_pieces ps ss else None
  | PStr :: ps, s :: ss => if truthy s then cons (A_str s) <$> match_pieces ps ss else None
  | _, _ => None
  end.

Fixpoint resolve_in (pats : list URLPattern) (segs : list text) : option Match :=
  match pats with
  | [] => None
  | p :: ps =>
      match match_pieces (pieces p) segs with
      | Some args => Some (mkMatch (url_name p) args)
      | None => resolve_in ps segs
      end
  end.

(** [resolve(path)]; [None] is [Resolver404]. *)
Definition resolve (path : text) : option Match := resolve_in urlpatterns (split_on SLASH path).

(** ** Reversing *)

(** The converters' [to_url], and the check of the result against the
    converter's regular expression. *)
Definition int_to_url (a : Arg) : option text :=
  match a with
  | A_int n => Some (show_nat n)
  | A_str s => if all_digits s then Some s else None
  end.

Definition str_to_url (a : Arg) : option text :=
  match a with
  | A_int n => Some (show_nat n)
  | A_str s => if truthy s && negb (bool_decide (SLASH ∈ s)) then Some s else None
  end.

Fixpoint render (ps : list Piece) (args : list Arg) : option (list text) :=
  match ps, args with
  | [], [] => Some []
  | PLit l :: ps, _ => cons l <$> render ps args
  | PInt :: ps, a :: args => t ← int_to_url a; cons t <$> render ps args
  | PStr :: ps, a :: args => t ← str_to_url a; cons t <$> render ps args
  | _, _ => None
  end.

Definition find_pattern (nm : URLName) : option URLPattern :=
  snd <$> list_find (λ p, url_name p = nm) urlpatterns.

(** [reverse(name, args=args)], without the leading slash. *)
Definition reverse_url (nm : URLName) (args : list Arg) : option text :=
  p ← find_pattern nm; segs ← render (pieces p) args; Some (join SLASH segs).

(** ** Checks on the configuration

    Decided by evaluation on [urlpatterns]: literal segments contain no
    slash, no two patterns share a name, and no path matches two
    patterns. *)

(** The arguments have the kinds of the pattern's converters, as the
    views pass them ([redirect('report_detail', pk=report.pk)]). *)
Fixpoint args_fit (ps : list Piece) (args : list Arg) : bool :=
  match ps, args with
  | [], [] => true
  | PLit _ :: ps, _ => args_fit ps args
  | PInt :: ps, A_int _ :: args => args_fit ps args
  | PStr :: ps, A_str _ :: args => args_fit ps args
  | _, _ => false
  end.

(** The same, for the pattern a name designates. *)
Definition args_fit_name (nm : URLName) (args : list Arg) : bool :=
  match find_pattern nm with Some p => args_fit (pieces p) args | None => false end.

Definition piece_ok (pc : Piece) : bool :=
  match pc with PLit l => negb (bool_decide (SLASH ∈ l)) | _ => true end.

Definition pattern_ok (p : URLPattern) : bool :=
  negb (bool_decide (pieces p = [])) && forallb piece_ok (pieces p).

(** A sufficient condition for no list of segments to match both
    patterns. *)
Fixpoint pieces_disjoint (ps qs : list Piece) : bool :=
  match ps, qs with
  | [], [] => false
  | [], _ :: _ | _ :: _, [] => true
  | PRest :: _, _ | _, PRest :: _ => false
  | PLit a :: ps, PLit b :: qs => negb (bool_decide (a = b)) || pieces_disjoint ps qs
  | PLit a :: ps, PInt :: qs | PInt :: ps, PLit a :: qs => negb (all_digits a) || pieces_disjoint ps qs
  | PLit a :: ps, PStr :: qs | PStr :: ps, PLit a :: qs => negb (truthy a) || pieces_disjoint ps qs
  | _ :: ps, _ :: qs => pieces_disjoint ps qs
  end.

Fixpoint pairwise_disjoint (pats : list URLPattern) : bool :=
  match pats with
  | [] => true
  | p :: ps => forallb (λ q, pieces_disjoint (pieces p) (pieces q)) ps && pairwise_disjoint ps
  end.

(** [redirect(name, ...)] of the views: the pattern each [Http.Route]
    names. *)
Definition route_match (r : Route) : option Match :=
  match r with
  | R_home => Some (mkMatch U_home [])
  | R_places => Some (mkMatch U_places [])
  | R_my_reports => Some (mkMatch U_my_reports [])
  | R_report_detail pk => Some (mkMatch U_report_detail [A_int pk])
  | R_login => Some (mkMatch U_login [])
  | R_profile => Some (mkMatch U_profile [])
  | R_contact => Some (mkMatch U_contact [])
  | R_url _ => None
  end.

(** ** Lemmas *)

Lemma digits_value_acc u acc :
  foldl (λ acc c, acc * 10 + N.to_nat (c - 48)) acc (uint_text u) = Nat.of_uint_acc u acc.
Proof.
  revert acc. induction u; intros acc; simpl; rewrite ?IHu, ?Nat.tail_mul_spec;
    f_equal; simpl; lia.
Qed.

Lemma show_nat_value n : digits_value (show_nat n) = n.
Proof. unfold digits_value, show_nat. rewrite digits_value_acc. apply DecimalNat.Unsigned.of_to. Qed.

Lemma uint_text_digits u : forallb is_digit (uint_text u) = true.
Proof. induction u; simpl; rewrite ?IHu; done. Qed.

Lemma show_nat_not_nil n : show_nat n ≠ [].
Proof.
  unfold show_nat. intros E. destruct (Nat.to_uint n) eqn:Eu; try discriminate.
  pose proof (DecimalNat.Unsigned.of_to n) as H. rewrite Eu in H. simpl in H. subst n. discriminate.
Qed.

Lemma show_nat_digits n : all_digits (show_nat n) = true.
Proof.
  unfold all_digits. apply andb_true_iff. split; [apply truthy_true_iff, show_nat_not_nil|].
  apply uint_text_digits.
Qed.

Lemma all_digits_no_slash s : all_digits s = true → SLASH ∉ s.
Proof.
  unfold all_digits. rewrite andb_true_iff, forallb_forall. intros [_ Hd] Hin.
  apply list_elem_of_In, Hd in Hin. done.
Qed.

#[export] Hint Resolve show_nat_digits show_nat_value : incluimap.

Lemma render_match ps args segs :
  render ps args = Some segs → args_fit ps args = true → match_pieces ps segs = Some args.
Proof.
  revert args segs. induction ps as [|pc ps IH]; intros args segs.
  - destruct args; simpl; [by intros [= <-]|done].
  - destruct pc as [l| | |]; simpl.
    + destruct (render ps args) eqn:E; simpl; [|done]. intros [= <-] Hfit.
      simpl. rewrite bool_decide_true by done. by apply IH.
    + destruct args as [|[n|s] args]; simpl; [done| |done].
      destruct (render ps args) eqn:E; simpl; [|done]. intros [= <-] Hfit.
      simpl. rewrite show_nat_digits, show_nat_value. by rewrite (IH _ _ E Hfit).
    + destruct args as [|[n|s] args]; simpl; [done|done|].
      destruct (truthy s && _) eqn:Hs; [|done]. apply andb_true_iff in Hs as [Hs _].
      destruct (render ps args) eqn:E; simpl; [|done]. intros [= <-] Hfit.
      simpl. rewrite Hs. by rewrite (IH _ _ E Hfit).
    + destruct args; done.
Qed.

Lemma render_segs ps args segs :
  forallb piece_ok ps = true → render ps args = Some segs →
  Forall (λ w, SLASH ∉ w) segs ∧ length segs = length ps.
Proof.
  revert args segs. induction ps as [|pc ps IH]; intros args segs Hok.
  - destruct args; simpl; [by intros [= <-]|done].
  - simpl in Hok. apply andb_true_iff in Hok as [Hpc Hok].
    destruct pc as [l| | |]; simpl.
    + destruct (render ps args) eqn:E; simpl; [|done]. intros [= <-].
      destruct (IH _ _ Hok E). simpl in Hpc. apply negb_true_iff, bool_decide_eq_false in Hpc.
      simpl; auto.
    + destruct args as [|a args]; [done|]. destruct (int_to_url a) as [t|] eqn:Ht; [|done]. simpl.
      destruct (render ps args) eqn:E; simpl; [|done]. intros [= <-].
      destruct (IH _ _ Hok E). split; [|simpl; lia]. constructor; [|done].
      apply all_digits_no_slash. destruct a; simpl in Ht.
      * simplify_eq. apply show_nat_digits.
      * destruct (all_digits s) eqn:Hd; simplify_eq; done.
    + destruct args as [|a args]; [done|]. destruct (str_to_url a) as [t|] eqn:Ht; [|done]. simpl.
      destruct (render ps args) eqn:E; simpl; [|done]. intros [= <-].
      destruct (IH _ _ Hok E). split; [|simpl; lia]. constructor; [|done].
      destruct a; simpl in Ht.
      * simplify_eq. by apply all_digits_no_slash, show_nat_digits.
      * destruct (truthy s && _) eqn:Hs; [|done]. simplify_eq.
        apply andb_true_iff in Hs as [_ Hs]. by apply negb_true_iff, bool_decide_eq_false in Hs.
    + destruct args; done.
Qed.

Lemma match_disjoint ps qs segs a b :
  pieces_disjoint ps qs = true → match_pieces ps segs = Some a → match_pieces qs segs = Some b → False.
Proof.
  revert qs segs a b. induction ps as [|p ps IH]; intros qs segs a b Hd Ha Hb.
  - destruct qs as [|q qs]; [done|]. destruct segs; simpl in Ha; [|done].
    destruct q, qs; simpl in Hb; done.
  - destruct segs as [|s ss]; [destruct p, ps; simpl in Ha; done|].
    destruct qs as [|q qs]; [simpl in Hb; done|].
    destruct p, q; simpl in Hd; try done;
      repeat match goal with
      | H : _ <$> _ = Some _ |- _ => apply fmap_Some in H as (? & ? & ?)
      | H : match_pieces (_ :: _) (_ :: _) = _ |- _ => simpl in H
      | H : context [bool_decide ?P] |- _ => case_bool_decide; simplify_eq
      | H : (if ?c then _ else _) = _ |- _ => destruct c eqn:?; simplify_eq
      end;
      rewrite ?orb_true_iff, ?negb_true_iff in Hd;
      try (destruct Hd as [Hd|Hd]; [congruence|]); by eapply IH.
Qed.

Lemma match_render ps segs args :
  match_pieces ps segs = Some args → Forall (λ w, SLASH ∉ w) segs → PRest ∉ ps →
  ∃ segs', render ps args = Some segs' ∧ args_fit ps args = true.
Proof.
  revert segs args. induction ps as [|pc ps IH]; intros segs args Hm Hs Hr.
  - destruct segs; simpl in Hm; [|done]. simplify_eq. by exists [].
  - rewrite elem_of_cons in Hr. apply Decidable.not_or in Hr as [Hpc Hr].
    destruct segs as [|s ss]; [destruct pc, ps; done|]. inversion Hs as [|? ? Hs1 Hss]; subst.
    destruct pc as [l| | |]; simpl in Hm; [| | |done].
    + case_bool_decide; [|done]. destruct (IH _ _ Hm Hss Hr) as (segs' & E & F).
      exists (l :: segs'). simpl. by rewrite E.
    + destruct (all_digits s) eqn:Hd; [|done]. apply fmap_Some in Hm as (a' & Hm & ->).
      destruct (IH _ _ Hm Hss Hr) as (segs' & E & F).
      exists (show_nat (digits_value s) :: segs'). simpl. by rewrite E.
    + destruct (truthy s) eqn:Ht; [|done]. apply fmap_Some in Hm as (a' & Hm & ->).
      destruct (IH _ _ Hm Hss Hr) as (segs' & E & F).
      exists (s :: segs'). simpl. rewrite Ht, bool_decide_false by done. simpl. by rewrite E.
Qed.

Lemma resolve_in_unique pats segs p a :
  pairwise_disjoint pats = true → p ∈ pats → match_pieces (pieces p) segs = Some a →
  resolve_in pats segs = Some (mkMatch (url_name p) a).
Proof.
  induction pats as [|q pats IH]; intros Hd Hin Hm; [by apply elem_of_nil in Hin|].
  simpl in Hd. apply andb_true_iff in Hd as [Hq Hd]. simpl.
  apply elem_of_cons in Hin as [->|Hin]; [by rewrite Hm|].
  destruct (match_pieces (pieces q) segs) eqn:E; [|by apply IH].
  exfalso. rewrite forallb_forall in Hq. eapply match_disjoint; [|exact E|exact Hm].
  by apply Hq, list_elem_of_In.
Qed.

Lemma resolve_in_sound pats segs m :
  resolve_in pats segs = Some m →
  ∃ p, p ∈ pats ∧ url_name p = m_name m ∧ match_pieces (pieces p) segs = Some (m_args m).
Proof.
  induction pats as [|q pats IH]; simpl; [done|].
  destruct (match_pieces (pieces q) segs) eqn:E.
  - intros [= <-]. exists q. split_and!; [by left|done|done].
  - intros (p & ? & ?)%IH. exists p. split; [by right|done].
Qed.

Lemma urlpatterns_disjoint : pairwise_disjoint urlpatterns = true.
Proof. vm_compute. reflexivity. Qed.

Lemma urlpatterns_ok p : p ∈ urlpatterns → pattern_ok p = true.
Proof. intros Hp. assert (H : forallb pattern_ok urlpatterns = true) by (vm_compute; reflexivity).
  rewrite forallb_forall in H. by apply H, list_elem_of_In. Qed.

Lemma urlpatterns_rest p : p ∈ urlpatterns → url_name p ≠ U_admin → PRest ∉ pieces p.
Proof.
  intros Hp. assert (H : Forall (λ p, url_name p ≠ U_admin → PRest ∉ pieces p) urlpatterns)
    by (repeat constructor; cbn; (done || set_solver)).
  rewrite Forall_forall in H. by apply H.
Qed.

Lemma urlpatterns_names_NoDup : NoDup (url_name <$> urlpatterns).
Proof. apply (bool_decide_unpack _). vm_compute. reflexivity. Qed.

Lemma find_pattern_Some nm p : find_pattern nm = Some p → p ∈ urlpatterns ∧ url_name p = nm.
Proof.
  unfold find_pattern. intros ([i q] & Hf & ->)%fmap_Some.
  apply list_find_Some in Hf as (Hi & Hn & _). split; [|done]. by eapply list_elem_of_lookup_2.
Qed.

Lemma find_pattern_complete p : p ∈ urlpatterns → find_pattern (url_name p) = Some p.
Proof.
  intros Hp. unfold find_pattern.
  destruct (list_find_elem_of (λ q, url_name q = url_name p) urlpatterns p Hp eq_refl) as [[i q] Hf].
  rewrite Hf. simpl. apply list_find_Some in Hf as (Hi & Hn & _). f_equal.
  apply list_elem_of_lookup_1 in Hp as [j Hj].
  pose proof urlpatterns_names_NoDup as Hnd.
  assert (i = j) as ->.
  { eapply NoDup_lookup; [exact Hnd| |]; rewrite list_lookup_fmap; [rewrite Hi | rewrite Hj]; simpl;
      [by rewrite Hn|done]. }
  congruence.
Qed.

(** Rendering a pattern of [urlpatterns] and resolving the path gives the
    pattern and the arguments back. *)
Lemma resolve_render p args segs :
  p ∈ urlpatterns → render (pieces p) args = Some segs → args_fit (pieces p) args = true →
  resolve (join SLASH segs) = Some (mkMatch (url_name p) args).
Proof.
  intros Hp Hr Hfit. pose proof (urlpatterns_ok p Hp) as Hok.
  apply andb_true_iff in Hok as [Hne Hok]. apply negb_true_iff, bool_decide_eq_false in Hne.
  destruct (render_segs _ _ _ Hok Hr) as [Hs Hl].
  unfold resolve. rewrite split_on_join; [|by intros ->; destruct (pieces p)|done].
  apply resolve_in_unique; [apply urlpatterns_disjoint|done|]. by apply render_match.
Qed.

(** ** Properties of the URL configuration *)

(** C16: [reverse] and [resolve] are inverse: a path that [reverse] builds
    for a name, from arguments of the kinds of its converters, resolves to
    that name with the same arguments. *)
Theorem reverse_resolve nm args path :
  args_fit_name nm args = true → reverse_url nm args = Some path →
  resolve path = Some (mkMatch nm args).
Proof.
  unfold args_fit_name, reverse_url. destruct (find_pattern nm) as [p|] eqn:F; [|done]. simpl.
  destruct (render (pieces p) args) as [segs|] eqn:R; [|done]. intros Hfit [= <-].
  apply find_pattern_Some in F as [Hp <-]. by apply resolve_render.
Qed.

(** C27: the order of [urlpatterns] does not matter: no path matches two
    patterns, so the first pattern that matches, which [resolve] takes, is
    the only one. *)
Theorem resolve_any_match path m :
  resolve path = Some m ↔
  ∃ p, p ∈ urlpatterns ∧ url_name p = m_name m ∧
       match_pieces (pieces p) (split_on SLASH path) = Some (m_args m).
Proof.
  split; [apply resolve_in_sound|]. intros (p & Hp & Hn & Hm). destruct m as [nm args]. simpl in *.
  subst nm. apply resolve_in_unique; [apply urlpatterns_disjoint|done|done].
Qed.

(** every path the resolver accepts, the admin's apart, has a
    canonical form: reversing the match gives a path that resolves to the
    same view with the same arguments ([reportes/007/] becomes
    [reportes/7/]). *)
Theorem resolve_reverse path m :
  resolve path = Some m → m_name m ≠ U_admin →
  ∃ path', reverse_url (m_name m) (m_args m) = Some path' ∧ resolve path' = Some m.
Proof.
  intros (p & Hp & Hn & Hm)%resolve_in_sound Hadm. rewrite <- Hn in Hadm |- *.
  destruct (match_render _ _ _ Hm (split_on_no_sep _ _) (urlpatterns_rest p Hp Hadm))
    as (segs & Hr & Hfit).
  exists (join SLASH segs). unfold reverse_url. rewrite find_pattern_complete by done. simpl. rewrite Hr.
  split; [done|]. destruct m. simpl in *. subst. by apply resolve_render.
Qed.

(** every [redirect(...)] of the views names a route of
    [urlpatterns], and the URL it builds leads back to that route. *)
Theorem redirect_targets_resolve r m :
  route_match r = Some m →
  ∃ path, reverse_url (m_name m) (m_args m) = Some path ∧ resolve path = Some m.
Proof.
  intros Hr. assert (Hfit : args_fit_name (m_name m) (m_args m) = true)
    by (destruct r; simpl in Hr; simplify_eq; vm_compute; reflexivity).
  unfold args_fit_name in Hfit. destruct (find_pattern (m_name m)) as [p|] eqn:F; [|done].
  destruct (find_pattern_Some _ _ F) as [Hp Hn].
  destruct (render (pieces p) (m_args m)) as [segs|] eqn:R.
  - exists (join SLASH segs). unfold reverse_url. rewrite F. simpl. rewrite R. split; [done|].
    destruct m. simpl in *. subst. by apply resolve_render.
  - exfalso. destruct r; simpl in Hr; simplify_eq; vm_compute in F, R; simplify_eq; discriminate.
Qed.

(** ** Witnesses *)

Lemma reverse_resolve_witness :
  args_fit_name U_report_edit [A_int 12] = true ∧
  reverse_url U_report_edit [A_int 12] = Some (lit "reportes/12/editar/") ∧
  resolve (lit "reportes/12/editar/") = Some (mkMatch U_report_edit [A_int 12]).
Proof.
  split; [reflexivity|]. split; [vm_compute; reflexivity|].
  apply (reverse_resolve U_report_edit [A_int 12]); vm_compute; reflexivity.
Defined.

Lemma resolve_reverse_witness :
  resolve (lit "reportes/007/") = Some (mkMatch U_report_detail [A_int 7]) ∧
  ∃ path', reverse_url U_report_detail [A_int 7] = Some path' ∧
           resolve path' = Some (mkMatch U_report_detail [A_int 7]).
Proof.
  split; [vm_compute; reflexivity|].
  apply (resolve_reverse (lit "reportes/007/") (mkMatch U_report_detail [A_int 7]));
    [vm_compute; reflexivity|discriminate].
Defined.

Lemma redirect_targets_resolve_witness :
  ∃ path, reverse_url U_report_detail [A_int 3] = Some path ∧
          resolve path = Some (mkMatch U_report_detail [A_int 3]).
Proof. apply (redirect_targets_resolve (R_report_detail 3) (mkMatch U_report_detail [A_int 3])). reflexivity. Defined.

(** The paths of the application's pages. *)
Example resolve_examples :
  resolve (lit "reportes/mios/") = Some (mkMatch U_my_reports []) ∧
  resolve (lit "lugares/4/favorito/") = Some (mkMatch U_toggle_favorite_place [A_int 4]) ∧
  resolve (lit "admin/core/place/") = Some (mkMatch U_admin []) ∧
  resolve (lit "reportes/mio/") = None ∧ resolve (lit "reportes/-1/") = None ∧
  resolve (lit "lugares") = None.
Proof. vm_compute. split_and!; reflexivity. Qed.
