(* ===== verification/Favorites.v ===== *)
(** * Favorites: [toggle_favorite_place] (views.py, lines 213-230)

    The view looks the place up (404 if absent), gets or creates the
    acting user's profile, and flips the membership of the place in
    [profile.favorite_places]: [remove] when present, [add] when absent.
    It then redirects to the [next] parameter of the POST body or of the
    query string, and to the place list when neither is truthy.

    [toggle_check] and [toggle_act] split the view into the membership
    test and the write, so that two requests racing on the same pair
    (a double click) can be run as an explicit interleaving. *)

From S2P Require Import Prelude Text Geofence Models Http.

(** The favourites of [u], with the profile [get_or_create] would give. *)
Definition favorites_of (u : nat) (db : DB) : gset nat :=
  Profile.favorite_places (get_or_create_profile u db).1.

Definition set_favorites (u : nat) (favs : gset nat) (db : DB) : DB :=
  let '(prof, db1) := get_or_create_profile u db in
  set_profiles (λ m, <[u := Profile.mk (Profile.avatar prof) (Profile.bio prof) favs]> m) db1.

(** [profile.favorite_places.filter(pk=place.pk).exists()] *)
Definition toggle_check (u p : nat) (db : DB) : bool :=
  bool_decide (p ∈ favorites_of u db).

(** [profile.favorite_places.remove(place)] when the test said present,
    [profile.favorite_places.add(place)] otherwise. *)
Definition toggle_act (present : bool) (u p : nat) (db : DB) : DB :=
  if present then set_favorites u (favorites_of u db ∖ {[p]}) db
  else set_favorites u ({[p]} ∪ favorites_of u db) db.

(** [redirect(next_url or "places")] with
    [next_url = request.POST.get("next") or request.GET.get("next")]. *)
Definition redirect_next (post_next get_next : option text) : Route :=
  match py_or post_next get_next with
  | Some url => if truthy url then R_url url else R_places
  | None => R_places
  end.

Definition toggle_favorite_place (db : DB) (m : Method) (user : option nat) (place_id : nat)
    (post_next get_next : option text) : Outcome :=
  match m with
  | GET => unchanged MethodNotAllowed db
  | POST =>
      match user with
      | None => unchanged (Redirect R_login) db
      | Some u =>
          match Table.rows (places db) !! place_id with
          | None => unchanged NotFound db
          | Some place =>
              let present := toggle_check u place_id db in
              let msg :=
                if present then
                  mkFlash L_info [] (lit "Quitaste '" ++ Place.name place ++ lit "' de tus favoritos.")
                else
                  mkFlash L_success [] (lit "Agregaste '" ++ Place.name place ++ lit "' a tus favoritos.") in
              mkOutcome (Redirect (redirect_next post_next get_next)) [msg]
                (toggle_act present u place_id db)
          end
      end
  end.

(** The abstract effect of a toggle on a set of favourites: the symmetric
    difference with [{[p]}]. *)
Definition flip (p : nat) (favs : gset nat) : gset nat :=
  if bool_decide (p ∈ favs) then favs ∖ {[p]} else {[p]} ∪ favs.

(** ** Lemmas *)

Lemma set_favorites_lookup u favs db v :
  profiles (set_favorites u favs db) !! v =
    if decide (u = v) then
      Some (Profile.mk (Profile.avatar (get_or_create_profile u db).1)
                       (Profile.bio (get_or_create_profile u db).1) favs)
    else profiles db !! v.
Proof.
  unfold set_favorites, get_or_create_profile.
  destruct (profiles db !! u) as [prof|] eqn:E; simpl_db; rewrite lookup_insert;
    case_decide; subst; rewrite ?lookup_insert_ne; done.
Qed.

Lemma set_favorites_lookup_eq u favs db :
  profiles (set_favorites u favs db) !! u =
    Some (Profile.mk (Profile.avatar (get_or_create_profile u db).1)
                     (Profile.bio (get_or_create_profile u db).1) favs).
Proof. rewrite set_favorites_lookup. by rewrite decide_True. Qed.

(** [set_favorites] writes the profile table and nothing else. *)
Lemma set_favorites_other u favs db :
  users (set_favorites u favs db) = users db ∧ places (set_favorites u favs db) = places db ∧
  reports (set_favorites u favs db) = reports db ∧ comments (set_favorites u favs db) = comments db ∧
  notifications (set_favorites u favs db) = notifications db ∧
  outbox (set_favorites u favs db) = outbox db.
Proof. unfold set_favorites, get_or_create_profile. by destruct (profiles db !! u). Qed.

Lemma get_or_create_existing u db prof :
  profiles db !! u = Some prof → get_or_create_profile u db = (prof, db).
Proof. unfold get_or_create_profile. by intros ->. Qed.

Lemma favorites_of_set u favs db : favorites_of u (set_favorites u favs db) = favs.
Proof.
  unfold favorites_of. by rewrite (get_or_create_existing _ _ _ (set_favorites_lookup_eq u favs db)).
Qed.

Lemma profile_eta (prof : Profile.t) :
  Profile.mk (Profile.avatar prof) (Profile.bio prof) (Profile.favorite_places prof) = prof.
Proof. by destruct prof. Qed.

Lemma db_eta (db : DB) :
  mkDB (users db) (profiles db) (places db) (reports db) (comments db) (notifications db) (outbox db) = db.
Proof. by destruct db. Qed.

(** Writing back the favourites a profile already has changes nothing. *)
Lemma set_favorites_same u db prof :
  profiles db !! u = Some prof → set_favorites u (Profile.favorite_places prof) db = db.
Proof.
  intros Hp. unfold set_favorites. rewrite (get_or_create_existing _ _ _ Hp).
  unfold set_profiles. rewrite profile_eta, insert_id by done. apply db_eta.
Qed.

(** Writing the favourites twice keeps the second write. *)
Lemma set_favorites_twice u favs favs' db :
  set_favorites u favs' (set_favorites u favs db) = set_favorites u favs' db.
Proof.
  unfold set_favorites at 1. rewrite (get_or_create_existing _ _ _ (set_favorites_lookup_eq u favs db)).
  unfold set_favorites, get_or_create_profile.
  destruct (profiles db !! u); simpl_db; unfold set_profiles; simpl_db; by rewrite insert_insert_eq.
Qed.

Lemma toggle_check_set u p favs db : toggle_check u p (set_favorites u favs db) = bool_decide (p ∈ favs).
Proof. unfold toggle_check. by rewrite favorites_of_set. Qed.

Lemma favorites_of_existing u db prof :
  profiles db !! u = Some prof → favorites_of u db = Profile.favorite_places prof.
Proof. intros Hp. unfold favorites_of. by rewrite (get_or_create_existing _ _ _ Hp). Qed.

Lemma favorites_of_in_places u db : wf db → favorites_of u db ⊆ dom (Table.rows (places db)).
Proof.
  intros Hwf. unfold favorites_of, get_or_create_profile.
  destruct (profiles db !! u) as [prof|] eqn:E; simpl; [|set_solver].
  by apply (wf_favorites _ Hwf u).
Qed.

Lemma flip_in p favs : p ∈ favs → flip p favs = favs ∖ {[p]}.
Proof. intros H. unfold flip. by rewrite bool_decide_eq_true_2. Qed.

Lemma flip_notin p favs : p ∉ favs → flip p favs = {[p]} ∪ favs.
Proof. intros H. unfold flip. by rewrite bool_decide_eq_false_2. Qed.

Lemma flip_flip p favs : flip p (flip p favs) = favs.
Proof.
  destruct (decide (p ∈ favs)).
  - rewrite (flip_in p favs), flip_notin by set_solver. by rewrite <- union_difference_singleton_L.
  - rewrite (flip_notin p favs), flip_in by set_solver. set_solver.
Qed.


Lemma toggle_act_check u p db :
  toggle_act (toggle_check u p db) u p db = set_favorites u (flip p (favorites_of u db)) db.
Proof. unfold toggle_act, toggle_check, flip. by case_bool_decide. Qed.

(** The state a toggle on an existing place leaves. *)
Lemma toggle_state db u p place pn gn :
  Table.rows (places db) !! p = Some place →
  state (toggle_favorite_place db POST (Some u) p pn gn) = toggle_act (toggle_check u p db) u p db.
Proof. intros Hp. unfold toggle_favorite_place. by rewrite Hp. Qed.

Lemma toggle_act_places b u p db : places (toggle_act b u p db) = places db.
Proof. unfold toggle_act. destruct b; apply set_favorites_other. Qed.

Lemma set_favorites_wf u favs db :
  wf db → row_in (users db) u → favs ⊆ dom (Table.rows (places db)) → wf (set_favorites u favs db).
Proof.
  intros [] Hu Hfavs. destruct (set_favorites_other u favs db) as (Hu' & Hp' & Hr' & Hc' & Hn' & _).
  split; rewrite ?Hu', ?Hp', ?Hr', ?Hc', ?Hn'; eauto.
  - intros v. rewrite set_favorites_lookup. case_decide; [subst; split; eauto|auto].
  - intros v prof. rewrite set_favorites_lookup. case_decide; [intros [= <-]; done|eauto].
Qed.


(** C8: toggling the same place twice in succession gives back exactly
    the database the user started from (the profile exists, as every
    user has one). *)
Theorem toggle_twice db u p place pn gn pn' gn' :
  wf db → row_in (users db) u → Table.rows (places db) !! p = Some place →
  state (toggle_favorite_place (state (toggle_favorite_place db POST (Some u) p pn gn))
           POST (Some u) p pn' gn') = db.
Proof.
  intros Hwf Hu Hp. destruct (proj2 (wf_profiles _ Hwf u) Hu) as [prof Hprof].
  rewrite (toggle_state db u p place pn gn Hp).
  rewrite (toggle_state _ u p place) by (rewrite toggle_act_places; exact Hp).
  rewrite !toggle_act_check, favorites_of_set, set_favorites_twice, flip_flip.
  rewrite (favorites_of_existing _ _ _ Hprof). by apply set_favorites_same.
Qed.


(** the error paths of the toggle change nothing: any method but
    POST gets 405, an anonymous user is sent to the login page, and a
    missing place gets 404. *)
Theorem toggle_errors db m user p pn gn :
  let o := toggle_favorite_place db m user p pn gn in
  (m = GET → o = unchanged MethodNotAllowed db) ∧
  (m = POST → user = None → o = unchanged (Redirect R_login) db) ∧
  (∀ u, m = POST → user = Some u → Table.rows (places db) !! p = None → o = unchanged NotFound db).
Proof.
  intros o. subst o. split_and!; intros; subst; unfold toggle_favorite_place; try done.
  by match goal with H : _ !! _ = None |- _ => rewrite H end.
Qed.

(** The toggle keeps the database consistent. *)
Lemma toggle_wf db m user p pn gn :
  wf db → (∀ u, user = Some u → row_in (users db) u) →
  wf (state (toggle_favorite_place db m user p pn gn)).
Proof.
  intros Hwf Hu. unfold toggle_favorite_place.
  destruct m; [done|]. destruct user as [u|]; [|done].
  destruct (Table.rows (places db) !! p) eqn:Hp; [|done]. simpl.
  pose proof (favorites_of_in_places u db Hwf).
  assert (p ∈ dom (Table.rows (places db))) by (apply elem_of_dom; eauto).
  unfold toggle_act. destruct (toggle_check u p db); apply set_favorites_wf; auto; set_solver.
Qed.

(** a toggle whose POST body carries a non-empty [next] redirects
    to that URL as sent, with no check that it stays on the site (an open
    redirect). *)
Theorem toggle_redirects_to_next db u p place url gn :
  Table.rows (places db) !! p = Some place → truthy url = true →
  response (toggle_favorite_place db POST (Some u) p (Some url) gn) = Redirect (R_url url).
Proof.
  intros Hp Hurl. unfold toggle_favorite_place, redirect_next, py_or. rewrite Hp. simpl.
  by rewrite Hurl, Hurl.
Qed.

(** ** Witnesses on the sample database: user 2 toggles place 1. *)


Lemma toggle_twice_witness :
  wf demo_db ∧ row_in (users demo_db) 2 ∧ Table.rows (places demo_db) !! 1 = Some demo_place ∧
  state (toggle_favorite_place (state (toggle_favorite_place demo_db POST (Some 2) 1 None None))
           POST (Some 2) 1 None None) = demo_db.
Proof.
  split_and!; [apply demo_db_wf|vm_compute; eauto|vm_compute; reflexivity|].
  apply (toggle_twice _ _ _ demo_place); [apply demo_db_wf|vm_compute; eauto|vm_compute; reflexivity].
Defined.

Lemma toggle_errors_witness :
  let o := toggle_favorite_place demo_db POST (Some 2) 7 None None in
  (POST = GET → o = unchanged MethodNotAllowed demo_db) ∧
  (POST = POST → Some 2 = None → o = unchanged (Redirect R_login) demo_db) ∧
  (∀ u, POST = POST → Some 2 = Some u → Table.rows (places demo_db) !! 7 = None →
     o = unchanged NotFound demo_db).
Proof. apply toggle_errors. Defined.

Lemma toggle_redirects_to_next_witness :
  Table.rows (places demo_db) !! 1 = Some demo_place ∧ truthy (lit "https://evil.example") = true ∧
  response (toggle_favorite_place demo_db POST (Some 2) 1 (Some (lit "https://evil.example")) None)
    = Redirect (R_url (lit "https://evil.example")).
Proof.
  split_and!; [vm_compute; reflexivity|vm_compute; reflexivity|].
  apply (toggle_redirects_to_next _ _ _ demo_place); vm_compute; reflexivity.
Defined.
