(* ===== verification/Notify.v ===== *)
(** * Notify: the fan-out of [create_favorite_place_notifications]

    [Report.save()] inserts the row and Django then sends [post_save];
    the receiver [create_favorite_place_notifications] (models.py, lines
    148-198) returns at once unless the row was created, collects the
    profiles whose favourites contain the report's place except the
    author's, and for each one creates a [Notification] and, when the user
    has an e-mail address, calls [send_mail] with [fail_silently=True]
    inside a [try]/[except Exception: pass].

    The mail transport is an interface, [MailTransport]: [deliver e] says
    whether the transport accepted the message.  A refused or failing
    delivery leaves no trace, as the [try]/[except] in the code; an
    accepted one is appended to [outbox].  The theorems hold for every
    transport.

    The profiles come back from the query in an order the database
    chooses; the model takes them in the order of [map_to_list], and the
    theorems do not depend on it. *)

From S2P Require Import Prelude Text Geofence Models Http Favorites.

Class MailTransport := { deliver : Email → bool }.

(** The text of the notification (models.py, lines 173-175). *)
Definition notification_message (place_name description : text) : text :=
  lit "Se ha creado un nuevo reporte en tu lugar favorito '" ++ place_name ++ lit "'." ++
  (if truthy description then [10%N; 10%N] ++ lit "Descripción: " ++ take 200 description
   else []).

(** [Profile.objects.filter(favorite_places=place).exclude(user=author)]:
    the users whose profile lists the place, the author excluded. *)
Definition favorites_qs (place author : nat) (db : DB) : list nat :=
  (filter (λ kv, place ∈ Profile.favorite_places kv.2 ∧ kv.1 ≠ author)
     (map_to_list (profiles db))).*1.

(** [Notification.objects.create(user=user, place=place, report=instance,
    message=msg)] (models.py, lines 178-183). *)
Definition record_notification (now place_id report_id : nat) (msg : text) (db : DB) (u : nat) : DB :=
  set_notifications
    (λ t, (Table.insert (Notification.mk u (Some place_id) (Some report_id) msg now false) t).2) db.

(** The database without its mail outbox. *)
Definition erase_mail (db : DB) : DB := set_outbox (λ _, []) db.

Section FanOut.
  Context `{MailTransport}.

  (** [send_mail(...)] under [if user.email:] and [try]/[except]. *)
Definition send_best_effort (usr : User.t) (subject msg : text) (db : DB) : DB :=
    if truthy (User.email usr) then
      let e := mkEmail subject msg (User.email usr) in
      if deliver e then set_outbox (λ o, o ++ [e]) db else db
    else db.

  (** The body of the loop for one profile (models.py, lines 172-198). *)
Definition notify_one (now place_id report_id : nat) (place : Place.t) (msg : text)
      (db : DB) (u : nat) : DB :=
    let db1 := record_notification now place_id report_id msg db u in
    match Table.rows (users db1) !! u with
    | Some usr =>
        send_best_effort usr (lit "Nuevo reporte en tu lugar favorito: " ++ Place.name place) msg db1
    | None => db1
    end.

  (** The receiver, for the report [instance] saved under key [report_id]. *)
Definition create_favorite_place_notifications (now : nat) (created : bool)
      (report_id : nat) (instance : Report.t) (db : DB) : DB :=
    if negb created then db else
    match Table.rows (places db) !! Report.place instance with
    | None => db
    | Some place =>
        let recipients := favorites_qs (Report.place instance) (Report.author instance) db in
        if bool_decide (recipients = []) then db
        else
          foldl (notify_one now (Report.place instance) report_id place
                   (notification_message (Place.name place) (Report.description instance)))
            db recipients
    end.

  (** [Report.save()] of a new report: the [INSERT], then [post_save] with
      [created=True]. *)
Definition report_create (now : nat) (r : Report.t) (db : DB) : nat * DB :=
    let ins := Table.insert r (reports db) in
    (ins.1, create_favorite_place_notifications now true ins.1 r (set_reports (λ _, ins.2) db)).

  (** [Report.save()] of an existing report: the [UPDATE], then
      [post_save] with [created=False]. *)
Definition report_update (now k : nat) (r : Report.t) (db : DB) : DB :=
    create_favorite_place_notifications now false k r (set_reports (Table.update k r) db).

End FanOut.

(** The abstract contract of the fan-out: the users to notify. *)
Definition notified_users (place author : nat) (db : DB) : gset nat :=
  dom (filter (λ kv, place ∈ Profile.favorite_places kv.2 ∧ kv.1 ≠ author) (profiles db)).

(** The notifications of user [v] about report [report_id]. *)
Definition notifications_for (v report_id : nat) (db : DB) : nat :=
  size (filter (λ kv, Notification.user kv.2 = v ∧ Notification.report kv.2 = Some report_id)
          (Table.rows (notifications db))).

(** Two mail transports: one that accepts everything and one whose
    every delivery fails. *)
Definition accept_all : MailTransport := {| deliver _ := true |}.
Definition reject_all : MailTransport := {| deliver _ := false |}.

(** The sample database after user 2 marked place 1 as a favourite, and a
    report of user 1 on that place (the scenario of [tests.py],
    [NotificationModelTest]). *)
Definition demo_fav_db : DB := state (toggle_favorite_place demo_db POST (Some 2) 1 None None).
Definition demo_report : Report.t := Report.mk 1 1 (lit "Rampa bloqueada") 3 [] None 0.

(** ** Lemmas *)

Lemma favorites_qs_NoDup place author db : NoDup (favorites_qs place author db).
Proof. apply NoDup_fst_filter, NoDup_fst_map_to_list. Qed.

(** The query returns exactly the users of the abstract contract. *)
Lemma notified_users_spec place author db v :
  v ∈ notified_users place author db ↔
  ∃ prof, profiles db !! v = Some prof ∧ place ∈ Profile.favorite_places prof ∧ v ≠ author.
Proof.
  unfold notified_users. rewrite elem_of_dom. unfold is_Some.
  setoid_rewrite map_lookup_filter_Some. naive_solver.
Qed.

Lemma elem_of_favorites_qs place author db u :
  u ∈ favorites_qs place author db ↔ u ∈ notified_users place author db.
Proof.
  unfold favorites_qs, notified_users. rewrite elem_of_dom, list_elem_of_fmap.
  unfold is_Some. setoid_rewrite map_lookup_filter_Some. setoid_rewrite list_elem_of_filter.
  setoid_rewrite elem_of_map_to_list'. split.
  - intros ([u' prof] & -> & Hp & Hl). eauto.
  - intros (prof & Hl & Hp). exists (u, prof). eauto.
Qed.

Section FanOutLemmas.
  Context `{MailTransport}.
  Variables (now place_id report_id : nat) (place : Place.t) (msg : text).

Lemma erase_mail_send usr subj m db : erase_mail (send_best_effort usr subj m db) = erase_mail db.
  Proof. unfold send_best_effort. by repeat case_match. Qed.

  (** Mail aside, one step of the loop only records the notification. *)
Lemma erase_mail_notify_one db u :
    erase_mail (notify_one now place_id report_id place msg db u) =
    record_notification now place_id report_id msg (erase_mail db) u.
  Proof. unfold notify_one. case_match; [rewrite erase_mail_send|]; done. Qed.

Lemma erase_mail_fold db l :
    erase_mail (foldl (notify_one now place_id report_id place msg) db l) =
    foldl (record_notification now place_id report_id msg) (erase_mail db) l.
  Proof.
    revert db. induction l as [|u l IH]; intros db; [done|]. simpl.
    rewrite IH, erase_mail_notify_one. done.
  Qed.

Lemma notify_one_notifications db u :
    notifications (notify_one now place_id report_id place msg db u) =
    (Table.insert (Notification.mk u (Some place_id) (Some report_id) msg now false) (notifications db)).2.
  Proof. unfold notify_one, send_best_effort. by repeat case_match. Qed.

Lemma notify_one_tables db u :
    users (notify_one now place_id report_id place msg db u) = users db ∧
    profiles (notify_one now place_id report_id place msg db u) = profiles db ∧
    places (notify_one now place_id report_id place msg db u) = places db ∧
    reports (notify_one now place_id report_id place msg db u) = reports db ∧
    comments (notify_one now place_id report_id place msg db u) = comments db.
  Proof. unfold notify_one, send_best_effort. by repeat case_match. Qed.

End FanOutLemmas.

(** Inserting a row into a table with fresh keys adds one to the size of
    every filter the row satisfies. *)
Lemma size_filter_insert_fresh {A} (P : nat * A → Prop) `{∀ x, Decision (P x)} (tb : Table.t A) x :
  Table.wf tb →
  size (filter P (Table.rows (Table.insert x tb).2)) =
    size (filter P (Table.rows tb)) + (if decide (P (Table.next_id tb, x)) then 1 else 0).
Proof.
  intros Hwf. pose proof (table_insert_fresh _ Hwf) as Hfresh.
  change (Table.rows (Table.insert x tb).2) with (<[Table.next_id tb := x]> (Table.rows tb)).
  rewrite map_filter_insert. case_decide.
  - rewrite map_size_insert_None; [lia|]. by apply map_lookup_filter_None; left.
  - rewrite delete_id by done. lia.
Qed.

Lemma length_filter_eq_NoDup (l : list nat) v :
  NoDup l → length (filter (λ w, w = v) l) = if bool_decide (v ∈ l) then 1 else 0.
Proof.
  induction l as [|w l IH]; intros Hnd; simpl; [done|].
  apply NoDup_cons in Hnd as [Hw Hnd]. rewrite filter_cons.
  destruct (decide (w = v)) as [->|Hne]; simpl; rewrite IH by done;
    repeat case_bool_decide; set_solver.
Qed.

(** No notification refers to a report key that is still unused. *)
Lemma notifications_for_fresh db v : wf db → notifications_for v (Table.next_id (reports db)) db = 0.
Proof.
  intros Hwf. unfold notifications_for. apply map_size_empty_iff, map_empty_filter.
  intros k n Hn [_ Hr]. destruct (wf_notification_fk _ Hwf k n Hn) as (_ & _ & Hrep).
  destruct (Hrep _ Hr) as [x Hx]. by rewrite (table_insert_fresh _ (wf_reports _ Hwf)) in Hx.
Qed.

Section FanOutCount.
  Context `{MailTransport}.
  Variables (now place_id report_id : nat) (place : Place.t) (msg : text).

Lemma notify_one_notifications_wf db u :
    Table.wf (notifications db) → Table.wf (notifications (notify_one now place_id report_id place msg db u)).
  Proof. rewrite notify_one_notifications. apply table_insert_wf. Qed.

Lemma fold_notify_count db l v :
    Table.wf (notifications db) →
    notifications_for v report_id (foldl (notify_one now place_id report_id place msg) db l) =
    notifications_for v report_id db + length (filter (λ w, w = v) l).
  Proof.
    revert db. induction l as [|u l IH]; intros db Hwf; simpl; [lia|].
    rewrite IH by (by apply notify_one_notifications_wf).
    unfold notifications_for. rewrite notify_one_notifications, size_filter_insert_fresh by done.
    rewrite filter_cons. simpl. repeat case_decide; simpl; naive_solver lia.
  Qed.

  (** The rows the loop leaves: the old ones, and new ones for users of
      the list, each about this place and report, unread. *)
Lemma fold_notify_rows db l k n :
    Table.wf (notifications db) →
    Table.rows (notifications (foldl (notify_one now place_id report_id place msg) db l)) !! k = Some n →
    Table.rows (notifications db) !! k = Some n ∨
    (Table.rows (notifications db) !! k = None ∧
     ∃ u, u ∈ l ∧ n = Notification.mk u (Some place_id) (Some report_id) msg now false).
  Proof.
    revert db. induction l as [|u l IH]; intros db Hwf Hk; simpl in Hk; [by left|].
    destruct (IH _ (notify_one_notifications_wf _ _ Hwf) Hk) as [Hold|[Hnone (w & Hw & ->)]];
      rewrite notify_one_notifications, table_insert_lookup in *.
    - case_decide; [subst; injection Hold as <-; right|by left].
      split; [by apply table_insert_fresh|]. eexists; split; [left|]; done.
    - case_decide; [discriminate|]. right. split; [done|]. eexists; split; [right|]; done.
  Qed.

Lemma fold_notify_tables db l :
    let db' := foldl (notify_one now place_id report_id place msg) db l in
    users db' = users db ∧ profiles db' = profiles db ∧ places db' = places db ∧
    reports db' = reports db ∧ comments db' = comments db.
  Proof.
    revert db. induction l as [|u l IH]; intros db; simpl; [done|].
    destruct (IH (notify_one now place_id report_id place msg db u)) as (-> & -> & -> & -> & ->).
    apply notify_one_tables.
  Qed.

Lemma fold_notify_keep db l k n :
    Table.wf (notifications db) → Table.rows (notifications db) !! k = Some n →
    Table.rows (notifications (foldl (notify_one now place_id report_id place msg) db l)) !! k = Some n.
  Proof.
    revert db. induction l as [|u l IH]; intros db Hwf Hk; simpl; [done|].
    apply IH; [by apply notify_one_notifications_wf|].
    rewrite notify_one_notifications, table_insert_lookup. case_decide; [|done].
    subst. by rewrite table_insert_fresh in Hk.
  Qed.

End FanOutCount.

Section Receiver.
  Context `{MailTransport}.

  (** The receiver writes notifications and mail only. *)
Lemma receiver_tables now c k r db :
    let db' := create_favorite_place_notifications now c k r db in
    users db' = users db ∧ profiles db' = profiles db ∧ places db' = places db ∧
    reports db' = reports db ∧ comments db' = comments db.
  Proof.
    unfold create_favorite_place_notifications. destruct (negb c); [done|].
    destruct (Table.rows (places db) !! Report.place r); [|done].
    case_bool_decide; [done|]. apply fold_notify_tables.
  Qed.

  (** [Report.save()] of a new report inserts it under the next key. *)
Lemma report_create_reports now r db :
    (report_create now r db).1 = Table.next_id (reports db) ∧
    reports (report_create now r db).2 = (Table.insert r (reports db)).2.
  Proof. split; [done|]. unfold report_create. simpl. apply receiver_tables. Qed.

  (** Every row the receiver adds is for a user other than the author,
      about the saved report and its place. *)
Lemma receiver_rows now c k r db j n :
    Table.wf (notifications db) →
    Table.rows (notifications (create_favorite_place_notifications now c k r db)) !! j = Some n →
    Table.rows (notifications db) !! j = Some n ∨
    (Notification.user n ≠ Report.author r ∧ Notification.report n = Some k ∧
     Notification.place n = Some (Report.place r)).
  Proof.
    intros Hwf. unfold create_favorite_place_notifications. destruct (negb c); [by left|].
    destruct (Table.rows (places db) !! Report.place r); [|by left].
    case_bool_decide; [by left|]. intros Hj.
    apply fold_notify_rows in Hj as [Hj|[_ (w & Hw & ->)]]; [by left| |exact Hwf].
    right. simpl. split_and!; [|done|done].
    apply elem_of_favorites_qs, notified_users_spec in Hw. naive_solver.
  Qed.

End Receiver.

Lemma notifications_for_set_reports v id f db :
  notifications_for v id (set_reports f db) = notifications_for v id db.
Proof. done. Qed.

Section ReportCreate.
  Context `{MailTransport}.

  (** The recipients and counts the receiver sees after the [INSERT]. *)
Lemma notified_after_insert (r : Report.t) db v :
    length (filter (λ w, w = v) (favorites_qs (Report.place r) (Report.author r) db)) =
      (if bool_decide (v ∈ notified_users (Report.place r) (Report.author r) db) then 1 else 0).
  Proof.
    rewrite length_filter_eq_NoDup by apply favorites_qs_NoDup.
    by rewrite (bool_decide_ext _ _ (elem_of_favorites_qs _ _ db v)).
  Qed.

  (** C1: after a report is created on an existing place, every user has
      exactly one notification about it if the user's profile lists the
      place among its favourites and the user is not the author, and none
      otherwise: one row per distinct favouriting user, none for the
      author, none when nobody else favourited the place. *)
Theorem report_create_notifies_once now r db v :
    wf db → row_in (places db) (Report.place r) →
    notifications_for v (report_create now r db).1 (report_create now r db).2 =
      if bool_decide (v ∈ notified_users (Report.place r) (Report.author r) db) then 1 else 0.
  Proof.
    intros Hwf [place Hp]. unfold report_create, create_favorite_place_notifications.
    cbn [fst snd negb]. rewrite table_insert_key.
    change (Table.rows (places (set_reports (λ _, (Table.insert r (reports db)).2) db)))
      with (Table.rows (places db)). rewrite Hp.
    change (favorites_qs (Report.place r) (Report.author r) (set_reports (λ _, (Table.insert r (reports db)).2) db))
      with (favorites_qs (Report.place r) (Report.author r) db).
    rewrite <- (notified_after_insert r db v).
    case_bool_decide as Hnil.
    - rewrite Hnil, notifications_for_set_reports, notifications_for_fresh by done. done.
    - rewrite fold_notify_count by apply (wf_notifications _ Hwf).
      rewrite notifications_for_set_reports, notifications_for_fresh by done. lia.
  Qed.

End ReportCreate.

Section ReportCreateRows.
  Context `{MailTransport}.

  (** creating a report stores it under a fresh key, keeps every
      existing notification, and every notification it adds goes to a user
      of the contract [notified_users], refers to the report's place and to
      the new report, is unread, and carries the message built from the
      place name and the first 200 characters of the description. *)
Theorem report_create_new_rows now r db place :
    wf db → Table.rows (places db) !! Report.place r = Some place →
    let id := (report_create now r db).1 in
    let db' := (report_create now r db).2 in
    Table.rows (reports db) !! id = None ∧ Table.rows (reports db') !! id = Some r ∧
    (∀ k n, Table.rows (notifications db) !! k = Some n → Table.rows (notifications db') !! k = Some n) ∧
    (∀ k n, Table.rows (notifications db') !! k = Some n → Table.rows (notifications db) !! k = None →
       Notification.user n ∈ notified_users (Report.place r) (Report.author r) db ∧
       Notification.place n = Some (Report.place r) ∧ Notification.report n = Some id ∧
       Notification.is_read n = false ∧
       Notification.message n = notification_message (Place.name place) (Report.description r)).
  Proof.
    intros Hwf Hp id db'. subst id db'. unfold report_create, create_favorite_place_notifications.
    cbn [fst snd negb]. rewrite table_insert_key.
    pose proof (table_insert_fresh _ (wf_reports _ Hwf)) as Hfresh.
    change (Table.rows (places (set_reports (λ _, (Table.insert r (reports db)).2) db)))
      with (Table.rows (places db)). rewrite Hp.
    change (favorites_qs (Report.place r) (Report.author r) (set_reports (λ _, (Table.insert r (reports db)).2) db))
      with (favorites_qs (Report.place r) (Report.author r) db).
    case_bool_decide as Hnil.
    - split_and!; try done.
      + simpl_db. rewrite table_insert_lookup. by rewrite decide_True.
      + intros k n Hn Hnone. simpl_db. congruence.
    - destruct (fold_notify_tables now (Report.place r) (Table.next_id (reports db)) place
        (notification_message (Place.name place) (Report.description r))
        (set_reports (λ _, (Table.insert r (reports db)).2) db)
        (favorites_qs (Report.place r) (Report.author r) db)) as (_ & _ & _ & -> & _).
      split_and!; try done.
      + simpl_db. rewrite table_insert_lookup. by rewrite decide_True.
      + intros k n Hn. apply fold_notify_keep; [apply (wf_notifications _ Hwf)|done].
      + intros k n Hn Hnone.
        apply fold_notify_rows in Hn; [|exact (wf_notifications _ Hwf)].
        destruct Hn as [Hold|[_ (w & Hw & ->)]]; [simpl_db; congruence|].
        rewrite elem_of_favorites_qs in Hw. done.
  Qed.

End ReportCreateRows.

(** C35: the mail transport has no effect on the database beyond the
    outbox: with a transport that accepts every message and with one whose
    every delivery raises, creating a report stores the same report and
    the same notifications. *)
Theorem report_create_mail_independent (T1 T2 : MailTransport) now r db :
  (@report_create T1 now r db).1 = (@report_create T2 now r db).1 ∧
  erase_mail (@report_create T1 now r db).2 = erase_mail (@report_create T2 now r db).2.
Proof.
  split; [done|]. unfold report_create, create_favorite_place_notifications. cbn [fst snd negb].
  case_match; [|done]. case_bool_decide; [done|]. by rewrite !erase_mail_fold.
Qed.

Lemma demo_fav_db_wf : wf demo_fav_db.
Proof. apply toggle_wf; [apply demo_db_wf|]. intros u [= <-]. vm_compute. eauto. Qed.

Lemma report_create_notifies_once_witness :
  wf demo_fav_db ∧ row_in (places demo_fav_db) 1 ∧
  notifications_for 2 (@report_create accept_all 0 demo_report demo_fav_db).1
    (@report_create accept_all 0 demo_report demo_fav_db).2 =
    (if bool_decide (2 ∈ notified_users 1 1 demo_fav_db) then 1 else 0).
Proof.
  pose proof demo_fav_db_wf as Hwf.
  split_and!; [exact Hwf|vm_compute; eauto|].
  apply (@report_create_notifies_once accept_all 0 demo_report demo_fav_db 2 Hwf). vm_compute. eauto.
Defined.

Lemma report_create_new_rows_witness :
  wf demo_fav_db ∧ Table.rows (places demo_fav_db) !! 1 = Some demo_place ∧
  let id := (@report_create reject_all 0 demo_report demo_fav_db).1 in
  let db' := (@report_create reject_all 0 demo_report demo_fav_db).2 in
  Table.rows (reports demo_fav_db) !! id = None ∧ Table.rows (reports db') !! id = Some demo_report ∧
  (∀ k n, Table.rows (notifications demo_fav_db) !! k = Some n → Table.rows (notifications db') !! k = Some n) ∧
  (∀ k n, Table.rows (notifications db') !! k = Some n → Table.rows (notifications demo_fav_db) !! k = None →
     Notification.user n ∈ notified_users 1 1 demo_fav_db ∧
     Notification.place n = Some 1 ∧ Notification.report n = Some id ∧
     Notification.is_read n = false ∧
     Notification.message n = notification_message (Place.name demo_place) (Report.description demo_report)).
Proof.
  pose proof demo_fav_db_wf as Hwf.
  split_and!; [exact Hwf|vm_compute; reflexivity|].
  apply (@report_create_new_rows reject_all 0 demo_report demo_fav_db demo_place Hwf).
  vm_compute. reflexivity.
Defined.

(** The scenario of [NotificationModelTest]: user 2 gets exactly one
    notification, the author none. *)
Example report_create_test_scenario :
  let db' := (@report_create accept_all 0 demo_report demo_fav_db).2 in
  (@report_create accept_all 0 demo_report demo_fav_db).1 = 1 ∧
  notifications_for 2 1 db' = 1 ∧ notifications_for 1 1 db' = 0 ∧
  size (Table.rows (notifications db')) = 1.
Proof. split_and!; vm_compute; reflexivity. Qed.

(** ** The report operations keep the database consistent *)

Lemma wf_set_outbox f db : wf db → wf (set_outbox f db).
Proof. by intros []. Qed.

Lemma insert_report_wf r db :
  wf db → row_in (places db) (Report.place r) → row_in (users db) (Report.author r) →
  wf (set_reports (λ _, (Table.insert r (reports db)).2) db).
Proof.
  intros [Hus Hpl Hre Hco Hno Hprof Hfav Hval Hrfk Hcfk Hnfk] Hp Hu.
  split; simpl_db; eauto with incluimap.
  - intros k x. rewrite table_insert_lookup. case_decide; [intros [= <-]; done|eauto].
  - intros k c Hc. destruct (Hcfk k c Hc). eauto with incluimap.
  - intros k n Hn. destruct (Hnfk k n Hn) as (? & ? & Hr).
    split_and!; eauto with incluimap.
Qed.

Lemma record_notification_wf now p id msg db u :
  wf db → row_in (users db) u → row_in (places db) p → row_in (reports db) id →
  wf (record_notification now p id msg db u).
Proof.
  intros [] Hu Hp Hr. unfold record_notification. split; simpl_db; eauto with incluimap.
  intros k n. rewrite table_insert_lookup. case_decide; [intros [= <-]|eauto].
  split_and!; simpl; [done| |]; intros ? [= <-]; done.
Qed.

Section ReportWf.
  Context `{MailTransport}.

Lemma notify_one_wf now p id place msg db u :
    wf db → row_in (users db) u → row_in (places db) p → row_in (reports db) id →
    wf (notify_one now p id place msg db u).
  Proof.
    intros Hwf Hu Hp Hr. pose proof (record_notification_wf now p id msg db u Hwf Hu Hp Hr) as Hw.
    unfold notify_one, send_best_effort. repeat case_match; auto using wf_set_outbox.
  Qed.

Lemma fold_notify_wf now p id place msg db l :
    wf db → Forall (row_in (users db)) l → row_in (places db) p → row_in (reports db) id →
    wf (foldl (notify_one now p id place msg) db l).
  Proof.
    revert db. induction l as [|u l IH]; intros db Hwf Hl Hp Hr; simpl; [done|].
    apply Forall_cons in Hl as [Hu Hl].
    destruct (notify_one_tables now p id place msg db u) as (Hus & _ & Hpl & Hre & _).
    apply IH; rewrite ?Hus, ?Hpl, ?Hre; auto using notify_one_wf.
  Qed.

Lemma favorites_qs_users place author db :
    wf db → Forall (row_in (users db)) (favorites_qs place author db).
  Proof.
    intros Hwf. apply Forall_forall. intros u Hu. apply elem_of_favorites_qs in Hu.
    unfold notified_users in Hu. apply elem_of_dom in Hu as [prof Hprof].
    apply map_lookup_filter_Some in Hprof as [Hprof _].
    apply (wf_profiles _ Hwf). by exists prof.
  Qed.

  (** Creating a report on an existing place by an existing user keeps the
      database consistent. *)
Lemma report_create_wf now r db :
    wf db → row_in (places db) (Report.place r) → row_in (users db) (Report.author r) →
    wf (report_create now r db).2.
  Proof.
    intros Hwf Hp Hu. pose proof (insert_report_wf r db Hwf Hp Hu) as Hw1.
    unfold report_create, create_favorite_place_notifications. cbn [fst snd negb].
    case_match; [|done]. case_bool_decide; [done|].
    apply fold_notify_wf; [done| |done|].
    - apply (favorites_qs_users _ _ _ Hw1).
    - rewrite table_insert_key. exists r. simpl_db. rewrite table_insert_lookup. by rewrite decide_True.
  Qed.

  (** An update of a report runs the receiver with [created=False]: no
      notification and no mail, whichever place the report now names. *)
Lemma report_update_tables now k r db :
    notifications (report_update now k r db) = notifications db ∧
    outbox (report_update now k r db) = outbox db ∧
    reports (report_update now k r db) = Table.update k r (reports db).
  Proof. done. Qed.

End ReportWf.
