(* ===== verification/Forms.v ===== *)
(** * Forms: [ReportForm] of [src/core/forms.py] (lines 82-146)

    The form has the fields [place], [description], [rating], [tags],
    [photo] in this order.  [place] is a [ModelChoiceField] over all
    places, [rating] a [ChoiceField] over the strings "1" to "5", [tags] a
    [MultipleChoiceField] over [TAGS_CHOICES] that [clean_tags] joins with
    commas, [photo] an optional [ImageField] checked by [clean_photo].  The
    [description] comes from the model's [TextField(blank=True)], a
    stripped, optional [CharField].  After the field checks, [ModelForm]
    validates the instance against the model: the joined [tags] must fit
    the model's [CharField(max_length=255)].

    [report_form_clean] returns the error dictionary or the cleaned data.
    Its [initial] argument is the photo of the instance the form edits:
    an [ImageField] with no upload cleans to that stored file, and
    [clean_photo] then checks it too.  A stored file ([FieldFile]) has a
    size but no [content_type] attribute, so [getattr] gives [''];
    [stored_file] models that view of it.
    [initial_tags] is what [ReportForm.__init__] pre-selects when the form
    edits a stored report.

    Not modelled: the check that the upload decodes as an image, which
    Django's [ImageField] delegates to Pillow. *)

From S2P Require Import Prelude Text Geofence Models.

Definition TAGS_CHOICES : list text :=
  [lit "rampa"; lit "ascensor"; lit "bano"; lit "estacionamiento"].

(** [[(i, str(i)) for i in range(1, 6)]] *)
Definition RATING_CHOICES : list (Z * text) :=
  [(1%Z, lit "1"); (2%Z, lit "2"); (3%Z, lit "3"); (4%Z, lit "4"); (5%Z, lit "5")].

Definition IMAGE_TYPES : list text := [lit "jpeg"; lit "jpg"; lit "png"; lit "webp"].

(** What the browser posts. *)
Record ReportInput := mkReportInput {
  in_place : option nat;       (** the selected primary key, if any *)
  in_description : text;
  in_rating : text;
  in_tags : list text;         (** the checked boxes, as sent *)
  in_photo : option Upload.t
}.

(** [form.cleaned_data] after [clean_tags]. *)
Record ReportData := mkReportData {
  cd_place : nat;
  cd_description : text;
  cd_rating : Z;
  cd_tags : text;
  cd_photo : option Upload.t
}.

Definition clean_place (db : DB) (v : option nat) : Errors :=
  match v with
  | None => [(F_place, E_blank)]
  | Some k => if bool_decide (is_Some (Table.rows (places db) !! k)) then [] else [(F_place, E_invalid_choice)]
  end.

(** [ChoiceField.valid_value]: the choice whose string is the value. *)
Definition rating_choice (v : text) : option Z :=
  match list_find (λ c, c.2 = v) RATING_CHOICES with
  | Some (_, (i, _)) => Some i
  | None => None
  end.

Definition clean_rating (v : text) : Errors :=
  if bool_decide (v = []) then [(F_rating, E_blank)]
  else match rating_choice v with
       | Some _ => []
       | None => [(F_rating, E_invalid_choice)]
       end.

Definition clean_tags_field (tags : list text) : Errors :=
  if forallb (λ t, bool_decide (t ∈ TAGS_CHOICES)) tags then [] else [(F_tags, E_invalid_choice)].

(** [ReportForm.clean_tags] (lines 140-146). *)
Definition clean_tags (tags : list text) : text := join comma tags.

(** [ReportForm.clean_photo] (lines 129-138). *)
Definition clean_photo (img : option Upload.t) : Errors :=
  match img with
  | None => []
  | Some f =>
      if (5 * 1024 * 1024 <? Upload.size f)%Z then [(F_photo, E_image_too_big)]
      else
        let ctype := lower (Upload.content_type f) in
        if startswith ctype (lit "image/") && existsb (contains ctype) IMAGE_TYPES then []
        else [(F_photo, E_image_format)]
  end.

(** The model validation of [ModelForm._post_clean] on [tags], run when
    the field itself was valid. *)
Definition clean_tags_model (tags : list text) : Errors :=
  if bool_decide (clean_tags_field tags = []) && (255 <? length (clean_tags tags))%nat
  then [(F_tags, E_max_length 255)] else [].

Definition report_form_errors (db : DB) (i : ReportInput) (photo : option Upload.t) : Errors :=
  clean_place db (in_place i) ++ clean_rating (in_rating i) ++
  clean_tags_field (in_tags i) ++ clean_photo photo ++ clean_tags_model (in_tags i).

(** A file already stored under [Report.photo], as the form sees it. *)
Definition stored_file (f : Upload.t) : Upload.t := Upload.mk (Upload.size f) [].

(** [FileField.clean(data, initial)]: the upload, or else the stored file. *)
Definition photo_value (upload initial : option Upload.t) : option Upload.t :=
  match upload with
  | Some f => Some f
  | None => initial
  end.

(** [form.is_valid()] and [form.cleaned_data]. *)
Definition report_form_clean (db : DB) (i : ReportInput) (initial : option Upload.t) : Errors + ReportData :=
  let photo := photo_value (in_photo i) initial in
  match report_form_errors db i photo, in_place i, rating_choice (in_rating i) with
  | [], Some k, Some rt =>
      inr (mkReportData k (strip (in_description i)) rt (clean_tags (in_tags i)) photo)
  | es, _, _ => inl es
  end.

(** [ReportForm.__init__] (lines 100-114): the stored tags split on
    commas, stripped, the empty ones dropped, the valid choices kept. *)
Definition initial_tags (stored : text) : list text :=
  if truthy stored then
    filter (λ t, t ∈ TAGS_CHOICES) (filter (λ t, t ≠ []) (map strip (split_on comma stored)))
  else [].

(** ** Lemmas *)

Lemma rating_choice_range v i : rating_choice v = Some i → (1 ≤ i ≤ 5)%Z.
Proof.
  unfold rating_choice. destruct (list_find _ _) as [[j [k t]]|] eqn:E; [|discriminate].
  intros [= <-]. apply list_find_Some in E as (Hj & _ & _).
  apply list_elem_of_lookup_2 in Hj. unfold RATING_CHOICES in Hj.
  repeat (apply elem_of_cons in Hj as [Hj|Hj]; [injection Hj as -> _; lia|]).
  by apply elem_of_nil in Hj.
Qed.

(** Every choice is a non-empty word with no comma and no whitespace. *)
Lemma tag_choice_shape t :
  t ∈ TAGS_CHOICES → (comma ∉ t) ∧ strip t = t ∧ t ≠ [].
Proof.
  unfold TAGS_CHOICES. intros Ht.
  repeat (apply elem_of_cons in Ht as [->|Ht]; [split_and!; [vm_compute; set_solver|reflexivity|discriminate]|]).
  by apply elem_of_nil in Ht.
Qed.

Lemma clean_tags_field_nil tags : clean_tags_field tags = [] ↔ Forall (λ t, t ∈ TAGS_CHOICES) tags.
Proof.
  unfold clean_tags_field. rewrite Forall_forall.
  destruct (forallb _ tags) eqn:E.
  - split; [intros _|done]. rewrite forallb_forall in E. intros t Ht.
    apply list_elem_of_In in Ht. specialize (E t Ht). by apply bool_decide_eq_true in E.
  - split; [discriminate|]. intros Hall. apply not_true_iff_false in E. exfalso. apply E.
    apply forallb_forall. intros t Ht. apply bool_decide_eq_true. apply Hall. by apply list_elem_of_In.
Qed.

Lemma join_nonempty sep (ws : list text) :
  ws ≠ [] → Forall (λ w, w ≠ []) ws → join sep ws ≠ [].
Proof.
  destruct ws as [|w ws]; [done|]. intros _ Hall. apply Forall_cons in Hall as [Hw _].
  destruct ws; simpl; [done|]. destruct w; [done|discriminate].
Qed.

(** Stripping and dropping the empty pieces keeps a list of choices. *)
Lemma strip_choices_id (tags : list text) :
  Forall (λ t, t ∈ TAGS_CHOICES) tags → filter (λ t, t ≠ []) (map strip tags) = tags.
Proof.
  induction tags as [|t tags IH]; intros Hall; [done|].
  apply Forall_cons in Hall as [Ht Hall]. destruct (tag_choice_shape t Ht) as (_ & Hs & Hne).
  simpl. rewrite Hs, filter_cons_True by done. by rewrite IH.
Qed.

(** The string [clean_tags] stores for a non-empty list of choices is
    truthy and splits back on commas into that list. *)
Lemma clean_tags_split (tags : list text) :
  tags ≠ [] → Forall (λ t, t ∈ TAGS_CHOICES) tags →
  truthy (clean_tags tags) = true ∧ split_on comma (clean_tags tags) = tags.
Proof.
  intros Hne Hall. unfold clean_tags.
  assert (Hcomma : Forall (λ t, comma ∉ t) tags)
    by (eapply Forall_impl; [exact Hall|]; intros t Ht; apply (tag_choice_shape t Ht)).
  assert (Hnil : Forall (λ t, t ≠ []) tags)
    by (eapply Forall_impl; [exact Hall|]; intros t Ht; apply (tag_choice_shape t Ht)).
  split; [|by apply split_on_join].
  unfold truthy. apply negb_true_iff, bool_decide_eq_false. by apply join_nonempty.
Qed.

(** Parsing back a list of choices: strip is the identity on them, none
    is empty, all are valid. *)
Lemma parse_choices_id (tags : list text) :
  Forall (λ t, t ∈ TAGS_CHOICES) tags →
  filter (λ t, t ∈ TAGS_CHOICES) (filter (λ t, t ≠ []) (map strip tags)) = tags.
Proof.
  induction tags as [|t tags IH]; intros Hall; [done|].
  apply Forall_cons in Hall as [Ht Hall]. destruct (tag_choice_shape t Ht) as (_ & Hs & Hne).
  simpl. rewrite Hs, filter_cons_True by done. rewrite filter_cons_True by done. by rewrite IH.
Qed.

(** the tags the form stores ([clean_tags] joins the checked
    choices with commas) are exactly the tags [ReportForm.__init__]
    pre-selects when the report is edited: for any non-empty selection of
    valid choices, parsing the stored string gives the selection back. *)
Theorem initial_tags_clean_tags tags :
  tags ≠ [] → Forall (λ t, t ∈ TAGS_CHOICES) tags → initial_tags (clean_tags tags) = tags.
Proof.
  intros Hne Hall. unfold initial_tags.
  destruct (clean_tags_split tags Hne Hall) as [-> ->]. by apply parse_choices_id.
Qed.

(** What a successful [report_form_clean] has checked. *)
Lemma report_form_clean_inr db i initial d :
  report_form_clean db i initial = inr d →
  report_form_errors db i (photo_value (in_photo i) initial) = [] ∧
  in_place i = Some (cd_place d) ∧ rating_choice (in_rating i) = Some (cd_rating d) ∧
  d = mkReportData (cd_place d) (strip (in_description i)) (cd_rating d)
        (clean_tags (in_tags i)) (photo_value (in_photo i) initial).
Proof.
  unfold report_form_clean.
  destruct (report_form_errors db i _) eqn:E, (in_place i), (rating_choice (in_rating i));
    intros Hd; try discriminate; apply (inj inr) in Hd; by subst d.
Qed.

(** The place of a valid form exists and its rating is a star count. *)
Lemma report_form_clean_place_rating db i initial d :
  report_form_clean db i initial = inr d →
  row_in (places db) (cd_place d) ∧ (1 ≤ cd_rating d ≤ 5)%Z.
Proof.
  intros (E & Hk & Hr & _)%report_form_clean_inr.
  apply app_nil in E as [Hp _]. rewrite Hk in Hp. unfold clean_place in Hp.
  split; [by case_bool_decide|by apply (rating_choice_range (in_rating i))].
Qed.

(** The tags of a valid form fit the model's [max_length=255]. *)
Lemma report_form_clean_tags_fit db i initial d :
  report_form_clean db i initial = inr d → length (cd_tags d) ≤ 255.
Proof.
  intros (E & _ & _ & ->)%report_form_clean_inr. cbn [cd_tags].
  unfold report_form_errors in E. rewrite !app_nil in E. destruct E as (_ & _ & Ht & _ & Hm).
  unfold clean_tags_model in Hm. rewrite Ht in Hm. simpl in Hm. case_zcmp Hm. lia.
Qed.

(** C17: a valid [ReportForm] yields an existing place, a rating between
    1 and 5, the comma-joined valid tags (at most 255 characters, as the
    model column requires), the stripped description, and a photo of at
    most 5 MB; an invalid one yields a non-empty error dictionary. *)
Theorem report_form_clean_sound db i initial :
  match report_form_clean db i initial with
  | inr d =>
      row_in (places db) (cd_place d) ∧ (1 ≤ cd_rating d ≤ 5)%Z ∧
      cd_tags d = clean_tags (in_tags i) ∧ Forall (λ t, t ∈ TAGS_CHOICES) (in_tags i) ∧
      length (cd_tags d) ≤ 255 ∧ cd_description d = strip (in_description i) ∧
      cd_photo d = photo_value (in_photo i) initial ∧
      (∀ f, cd_photo d = Some f → (Upload.size f ≤ 5 * 1024 * 1024)%Z)
  | inl es => es ≠ []
  end.
Proof.
  destruct (report_form_clean db i initial) as [es|d] eqn:Hd.
  - unfold report_form_clean in Hd.
    destruct (report_form_errors db i _) as [|e es'] eqn:E.
    + unfold report_form_errors in E. rewrite !app_nil in E. destruct E as (Hp & Hrt & _).
      destruct (in_place i); [|discriminate Hp].
      destruct (rating_choice (in_rating i)) eqn:Hr; [discriminate|].
      unfold clean_rating in Hrt. rewrite Hr in Hrt. by case_bool_decide.
    + destruct (in_place i), (rating_choice (in_rating i)); by apply (inj inl) in Hd as <-.
  - pose proof (report_form_clean_place_rating _ _ _ _ Hd) as [Hp Hr].
    apply report_form_clean_inr in Hd as (E & _ & _ & Hd).
    destruct d as [k desc rt tg ph]. cbn [cd_place cd_rating cd_tags cd_description cd_photo] in *.
    simplify_eq Hd. intros -> -> ->.
    unfold report_form_errors in E.
    rewrite !app_nil in E. destruct E as (_ & _ & Ht & Hph & Hm).
    split_and!; [done|lia|lia|done|by apply clean_tags_field_nil| |done|done|].
    + unfold clean_tags_model in Hm. rewrite Ht in Hm. simpl in Hm. case_zcmp Hm. lia.
    + intros f Hf. rewrite Hf in Hph. simpl in Hph. case_zcmp Hph. lia.
Qed.

(** A stored photo never passes [clean_photo]: it has no content type. *)
Lemma clean_photo_stored_file f : clean_photo (Some (stored_file f)) ≠ [].
Proof. unfold clean_photo, stored_file. simpl. by case_match. Qed.

Lemma initial_tags_clean_tags_witness :
  [lit "rampa"; lit "bano"] ≠ [] ∧ Forall (λ t, t ∈ TAGS_CHOICES) [lit "rampa"; lit "bano"] ∧
  initial_tags (clean_tags [lit "rampa"; lit "bano"]) = [lit "rampa"; lit "bano"].
Proof.
  assert (Hall : Forall (λ t, t ∈ TAGS_CHOICES) [lit "rampa"; lit "bano"])
    by (repeat constructor; vm_compute; set_solver).
  split_and!; [discriminate|exact Hall|]. apply initial_tags_clean_tags; [discriminate|exact Hall].
Defined.
