(* ===== verification/Reports.v ===== *)
(** * Reports: the report views of [src/core/views.py]

    - [report_view] (lines 115-149): [login_required]; a valid POST saves
      the report with the acting user as author, which fires the
      notification fan-out of Notify.v, and redirects home; an invalid one
      re-renders the form with an error message.  [initial_place] is
      the [?place=] pre-fill of the form (lines 121-130): [int()] on the
      parameter and [Place.objects.get(pk=...)], with [TypeError],
      [ValueError] and [DoesNotExist] caught, so a bad value (the
      docstring's ['${p.id}']) leaves the form empty.  A key beyond
      SQLite's 64-bit integers is taken as missing, as Django 5 does;
      earlier versions let the driver's [OverflowError] escape.
    - [report_edit_view] (lines 152-178) and [report_delete_view]
      (lines 181-200): [get_object_or_404(Report, pk=pk,
      author=request.user)], so a report of another user is answered 404,
      exactly as a missing one; a valid POST updates (no fan-out: the
      receiver sees [created=False]) or deletes (with the cascade to the
      report's comments and notifications). *)

From S2P Require Import Prelude Text Geofence Models Http Favorites Notify Forms.

(** [get_object_or_404(Report, pk=pk, author=request.user)] *)
Definition own_report (db : DB) (pk u : nat) : option Report.t :=
  match Table.rows (reports db) !! pk with
  | Some r => if bool_decide (Report.author r = u) then Some r else None
  | None => None
  end.

Definition flash_report (l : Level) (msg : string) : Flash := mkFlash l (lit "report") (lit msg).

(** [initial["place"]] of [report_view]. *)
Definition initial_place (raw_place_id : option text) (db : DB) : option nat :=
  match raw_place_id with
  | Some raw =>
      if truthy raw then
        match py_int_str raw with
        | Some z =>
            if (0 <=? z)%Z && bool_decide (is_Some (Table.rows (places db) !! Z.to_nat z))
            then Some (Z.to_nat z) else None
        | None => None
        end
      else None
  | None => None
  end.

Section Views.
  Context `{MailTransport}.

Definition report_view (now : nat) (db : DB) (m : Method) (user : option nat) (i : ReportInput) : Outcome :=
    match user with
    | None => unchanged (Redirect R_login) db
    | Some u =>
        match m with
        | GET => unchanged (Render T_report_form) db
        | POST =>
            match report_form_clean db i None with
            | inr d =>
                let r := Report.mk (cd_place d) u (cd_description d) (cd_rating d) (cd_tags d)
                           (cd_photo d) now in
                mkOutcome (Redirect R_home)
                  [flash_report L_success "¡Reporte enviado! Gracias por colaborar."]
                  (report_create now r db).2
            | inl _ =>
                mkOutcome (Render T_report_form)
                  [flash_report L_error "Revisa los campos marcados."] db
            end
        end
    end.

Definition report_edit_view (now : nat) (db : DB) (m : Method) (user : option nat) (pk : nat)
      (i : ReportInput) : Outcome :=
    match user with
    | None => unchanged (Redirect R_login) db
    | Some u =>
        match own_report db pk u with
        | None => unchanged NotFound db
        | Some r =>
            match m with
            | GET => unchanged (Render T_report_form) db
            | POST =>
                match report_form_clean db i (stored_file <$> Report.photo r) with
                | inr d =>
                    let r' := Report.mk (cd_place d) (Report.author r) (cd_description d) (cd_rating d)
                                (cd_tags d) (cd_photo d) (Report.created_at r) in
                    mkOutcome (Redirect R_my_reports)
                      [flash_report L_success "Reporte actualizado correctamente."]
                      (report_update now pk r' db)
                | inl _ =>
                    mkOutcome (Render T_report_form)
                      [flash_report L_error "Revisa los campos marcados."] db
                end
            end
        end
    end.

End Views.

Definition report_delete_view (db : DB) (m : Method) (user : option nat) (pk : nat) : Outcome :=
  match user with
  | None => unchanged (Redirect R_login) db
  | Some u =>
      match own_report db pk u with
      | None => unchanged NotFound db
      | Some _ =>
          match m with
          | GET => unchanged (Render T_report_confirm_delete) db
          | POST =>
              mkOutcome (Redirect R_my_reports)
                [flash_report L_success "Reporte eliminado correctamente."] (delete_report pk db)
          end
      end
  end.

(** Sample databases: report 1 of user 1 on place 1, without and with a
    photo. *)
Definition demo_report_db : DB := (@report_create accept_all 0 demo_report demo_fav_db).2.

(** A form that changes only the description. *)
Definition demo_edit : ReportInput := mkReportInput (Some 1) (lit "Ya la arreglaron") (lit "4") [] None.

(** The valid form of the test suite: place 1, rating "3", tag ascensor. *)
Definition demo_input : ReportInput :=
  mkReportInput (Some 1) (lit " Rampa en mal estado ") (lit "3") [lit "ascensor"] None.

(** ** Lemmas *)

Lemma own_report_Some db pk u r :
  own_report db pk u = Some r ↔ Table.rows (reports db) !! pk = Some r ∧ Report.author r = u.
Proof.
  unfold own_report. destruct (Table.rows (reports db) !! pk) as [r0|]; [|naive_solver].
  case_bool_decide; naive_solver.
Qed.

Lemma own_report_None db pk u :
  (∀ r, Table.rows (reports db) !! pk = Some r → Report.author r ≠ u) → own_report db pk u = None.
Proof.
  intros H. unfold own_report. destruct (Table.rows (reports db) !! pk) as [r|]; [|done].
  case_bool_decide; [|done]. by destruct (H r eq_refl).
Qed.

Lemma report_form_clean_inl db i initial :
  report_form_errors db i (photo_value (in_photo i) initial) ≠ [] →
  ∃ es, report_form_clean db i initial = inl es.
Proof.
  intros He. unfold report_form_clean.
  destruct (report_form_errors db i _) as [|e es]; [done|].
  destruct (in_place i), (rating_choice (in_rating i)); eauto.
Qed.


Lemma update_report_wf db pk r r' :
  wf db → Table.rows (reports db) !! pk = Some r →
  row_in (places db) (Report.place r') → row_in (users db) (Report.author r') →
  wf (set_reports (Table.update pk r') db).
Proof.
  intros [Hus Hpl Hre Hco Hno Hprof Hfav Hval Hrfk Hcfk Hnfk] Hr Hp Hu.
  assert (Hin : ∀ k, row_in (reports db) k → row_in (Table.update pk r' (reports db)) k).
  { intros k [x Hx]. unfold row_in, Table.update. simpl. rewrite lookup_insert.
    case_decide; eauto. }
  split; simpl_db; eauto using table_update_wf with incluimap.
  - intros k x. unfold Table.update. simpl. rewrite lookup_insert.
    case_decide; [intros [= <-]; done|eauto].
  - intros k c Hc. destruct (Hcfk k c Hc). eauto.
  - intros k n Hn. destruct (Hnfk k n Hn) as (? & ? & Hrep). split_and!; eauto.
Qed.

(** The pre-fill names a place exactly when the parameter is the
    [int()] of an existing place's key; anything else leaves the form
    empty without an error. *)
Lemma initial_place_spec raw db k :
  initial_place raw db = Some k ↔
  ∃ s, raw = Some s ∧ py_int_str s = Some (Z.of_nat k) ∧ row_in (places db) k.
Proof.
  unfold initial_place. destruct raw as [s|]; [|naive_solver].
  destruct (truthy s) eqn:Ht.
  - destruct (py_int_str s) as [z|] eqn:E; [|naive_solver].
    destruct (0 <=? z)%Z eqn:Hz; simpl; [case_bool_decide as Hk|]; split.
    + intros [= <-]. exists s. rewrite Z2Nat.id by lia. done.
    + intros (s' & [= <-] & E' & _). rewrite E in E'. injection E' as ->. f_equal. lia.
    + done.
    + intros (s' & [= <-] & E' & Hk'). rewrite E in E'. injection E' as ->.
      rewrite Nat2Z.id in Hk. done.
    + done.
    + intros (s' & [= <-] & E' & _). rewrite E in E'. injection E' as ->. apply Z.leb_gt in Hz. lia.
  - apply truthy_false_iff in Ht as ->. split; [done|]. intros (s' & [= <-] & E' & _). done.
Qed.

Example initial_place_examples :
  initial_place (Some (lit "${p.id}")) demo_db = None ∧ initial_place (Some (lit " 1 ")) demo_db = Some 1 ∧
  initial_place (Some (lit "7")) demo_db = None ∧ initial_place (Some (lit "-1")) demo_db = None.
Proof. vm_compute. split_and!; reflexivity. Qed.

(** ** Properties of the views *)

Section ViewProperties.
  Context `{MailTransport}.

Lemma report_update_eq now k r db : report_update now k r db = set_reports (Table.update k r) db.
  Proof. done. Qed.

Lemma report_view_wf now db m u i :
    wf db → row_in (users db) u → wf (state (report_view now db m (Some u) i)).
  Proof.
    intros Hwf Hu. unfold report_view. destruct m; [done|].
    destruct (report_form_clean db i None) eqn:Hd; [done|]. cbn [state].
    destruct (report_form_clean_place_rating _ _ _ _ Hd) as [Hp _]. by apply report_create_wf.
  Qed.

Lemma report_edit_view_wf now db m u pk i :
    wf db → wf (state (report_edit_view now db m (Some u) pk i)).
  Proof.
    intros Hwf. unfold report_edit_view.
    destruct (own_report db pk u) as [r|] eqn:Ho; [|done]. destruct m; [done|].
    destruct (report_form_clean db i _) eqn:Hd; [done|]. cbn [state].
    apply own_report_Some in Ho as [Hr _]. rewrite report_update_eq.
    destruct (report_form_clean_place_rating _ _ _ _ Hd) as [Hp _].
    eapply update_report_wf; [done|exact Hr|exact Hp|]. apply (wf_report_fk _ Hwf pk r Hr).
  Qed.

  (** C20: editing or deleting a report that the acting user did not
      write (or that does not exist) is answered 404, whatever the method
      and the form, and changes nothing. *)
Theorem report_views_not_author now db m u pk i :
    (∀ r, Table.rows (reports db) !! pk = Some r → Report.author r ≠ u) →
    report_edit_view now db m (Some u) pk i = unchanged NotFound db ∧
    report_delete_view db m (Some u) pk = unchanged NotFound db.
  Proof.
    intros Hnot. unfold report_edit_view, report_delete_view.
    by rewrite own_report_None.
  Qed.

  (** C33: the edit view never creates a notification nor sends mail,
      whichever place the edited report now names: the receiver runs with
      [created=False]. *)
Theorem report_edit_no_fanout now db m user pk i :
    notifications (state (report_edit_view now db m user pk i)) = notifications db ∧
    outbox (state (report_edit_view now db m user pk i)) = outbox db.
  Proof.
    unfold report_edit_view. repeat case_match; done.
  Qed.



  (** a report form posted without a rating is refused: the form's
      [rating] is a required [ChoiceField], so the model default of 3 that
      the spec describes for an unspecified rating never applies. *)
Theorem report_view_rating_required now db u i :
    in_rating i = [] →
    report_view now db POST (Some u) i =
      mkOutcome (Render T_report_form) [flash_report L_error "Revisa los campos marcados."] db.
  Proof.
    intros Hr. unfold report_view.
    destruct (report_form_clean_inl db i None) as [es ->]; [|done].
    unfold report_form_errors, clean_rating. rewrite Hr. by destruct (clean_place db (in_place i)).
  Qed.

End ViewProperties.

(** C25: the author's POST on the delete view removes the report, every
    comment on it and every notification about it, and keeps the database
    consistent. *)
Theorem report_delete_own db u pk r :
  wf db → own_report db pk u = Some r →
  let o := report_delete_view db POST (Some u) pk in
  response o = Redirect R_my_reports ∧ wf (state o) ∧
  Table.rows (reports (state o)) !! pk = None ∧
  (∀ k c, Table.rows (comments (state o)) !! k = Some c → Comment.report c ≠ pk) ∧
  (∀ k n, Table.rows (notifications (state o)) !! k = Some n → Notification.report n ≠ Some pk).
Proof.
  intros Hwf Hown o. subst o. unfold report_delete_view. rewrite Hown. cbn [state response].
  split_and!; [done|by apply delete_report_wf| | |].
  - unfold delete_report. simpl_db. by rewrite table_delete_rows, lookup_delete_eq.
  - intros k c. unfold delete_report. simpl_db. rewrite table_keep_lookup, negb_bool_decide_true. tauto.
  - intros k n. unfold delete_report. simpl_db. rewrite table_keep_lookup, negb_bool_decide_true. tauto.
Qed.

(** ** Witnesses on the sample databases *)

Lemma demo_report_db_wf : wf demo_report_db.
Proof. apply report_create_wf; [apply demo_fav_db_wf|vm_compute; eauto|vm_compute; eauto]. Qed.

Lemma report_views_not_author_witness :
  (∀ r, Table.rows (reports demo_report_db) !! 1 = Some r → Report.author r ≠ 2) ∧
  @report_edit_view accept_all 0 demo_report_db POST (Some 2) 1 demo_edit = unchanged NotFound demo_report_db ∧
  report_delete_view demo_report_db POST (Some 2) 1 = unchanged NotFound demo_report_db.
Proof.
  assert (Hnot : ∀ r, Table.rows (reports demo_report_db) !! 1 = Some r → Report.author r ≠ 2).
  { intros r Hr. vm_compute in Hr. injection Hr as <-. discriminate. }
  split; [exact Hnot|]. exact (@report_views_not_author accept_all 0 demo_report_db POST 2 1 demo_edit Hnot).
Defined.



Lemma report_delete_own_witness :
  wf demo_report_db ∧ own_report demo_report_db 1 1 = Some demo_report ∧
  let o := report_delete_view demo_report_db POST (Some 1) 1 in
  response o = Redirect R_my_reports ∧ wf (state o) ∧
  Table.rows (reports (state o)) !! 1 = None ∧
  (∀ k c, Table.rows (comments (state o)) !! k = Some c → Comment.report c ≠ 1) ∧
  (∀ k n, Table.rows (notifications (state o)) !! k = Some n → Notification.report n ≠ Some 1).
Proof.
  assert (Hown : own_report demo_report_db 1 1 = Some demo_report) by (vm_compute; reflexivity).
  split_and!; [apply demo_report_db_wf|exact Hown|].
  exact (report_delete_own demo_report_db 1 1 demo_report demo_report_db_wf Hown).
Defined.

(** The form of the test suite is valid and its description is stripped. *)
Example demo_input_clean :
  report_form_clean demo_fav_db demo_input None =
    inr (mkReportData 1 (lit "Rampa en mal estado") 3 (lit "ascensor") None).
Proof. vm_compute. reflexivity. Qed.

Lemma report_view_rating_required_witness :
  @report_view accept_all 0 demo_fav_db POST (Some 1)
    (mkReportInput (Some 1) (lit "Rampa en mal estado") [] [] None) =
  mkOutcome (Render T_report_form) [flash_report L_error "Revisa los campos marcados."] demo_fav_db.
Proof. apply (@report_view_rating_required accept_all). reflexivity. Defined.

Lemma report_delete_view_wf db m u pk : wf db → wf (state (report_delete_view db m (Some u) pk)).
Proof.
  intros Hwf. unfold report_delete_view.
  destruct (own_report db pk u); [|done]. destruct m; [done|]. by apply delete_report_wf.
Qed.
