(* ===== verification/Contact.v ===== *)
(** * Contact: [contact_view] (views.py, lines 237-310)

    A POST strips the four fields ([nombre], [email], [tipo],
    [mensaje]); when one of [nombre], [email], [mensaje] is empty the
    page is rendered again with an error and the entered values.
    Otherwise the view composes a subject and a body and calls
    [send_mail] with [fail_silently=False] to the address
    [settings.CONTACT_EMAIL] (or [DEFAULT_FROM_EMAIL]); success queues a
    message and redirects to the contact page, any exception queues an
    error and renders the page with the values.  Any other method renders
    the empty page.

    The settings are not part of the sources: [CONTACT_EMAIL] is a
    variable of the Section [Contact] (absent or set), and
    [DEFAULT_FROM_EMAIL], which Django's global settings always define,
    is the sender of every mail and is not recorded in [Email].
    [send_mail] builds the message before handing it to the backend, and
    building it raises [BadHeaderError] when the subject contains a line
    break ([forbid_multi_line_headers]); the backend is the
    [MailTransport] of Notify.v. *)

From S2P Require Import Prelude Text Models Http Notify.

(** The values [form_data] gives back to the template. *)
Record ContactData := mkContactData {
  cd_nombre : text; cd_email : text; cd_tipo : text; cd_mensaje : text
}.

(** [(request.POST.get(f) or "").strip()] *)
Definition post_field (v : option text) : text := strip (default [] v).

Definition contact_flash (l : Level) (msg : string) : Flash := mkFlash l (lit "contact") (lit msg).

(** [f"Nuevo mensaje de contacto — {tipo or 'Sin categoría'}"] *)
Definition contact_subject (tipo : text) : text :=
  lit "Nuevo mensaje de contacto — " ++ (if truthy tipo then tipo else lit "Sin categoría").

(** The body: four lines, an empty line, and the message. *)
Definition contact_body (nombre email tipo mensaje : text) : text :=
  lit "Nombre: " ++ nombre ++ [NEWLINE] ++
  lit "Email: " ++ email ++ [NEWLINE] ++
  lit "Tipo de mensaje: " ++ tipo ++ [NEWLINE; NEWLINE] ++
  lit "Mensaje:" ++ [NEWLINE] ++ mensaje.

(** [forbid_multi_line_headers]: a header value holds no line break. *)
Definition header_ok (v : text) : bool :=
  negb (bool_decide (NEWLINE ∈ v)) && negb (bool_decide (13%N ∈ v)).

Section Contact.
  Context `{MailTransport}.
  Variable CONTACT_EMAIL : option text.
  Variable DEFAULT_FROM_EMAIL : text.

(** [getattr(settings, "CONTACT_EMAIL", getattr(settings, "DEFAULT_FROM_EMAIL", ...))] *)
Definition destinatario : text := default DEFAULT_FROM_EMAIL CONTACT_EMAIL.

(** [send_mail(..., fail_silently=False)]: [true] when it returns,
    [false] when it raises. *)
Definition send_mail (e : Email) : bool := header_ok (subject e) && deliver e.

Definition contact_view (db : DB) (m : Method) (nombre email tipo mensaje : option text)
    : Outcome * option ContactData :=
  match m with
  | GET => (unchanged (Render T_contact) db, None)
  | POST =>
      let n := post_field nombre in
      let e := post_field email in
      let t := post_field tipo in
      let msg := post_field mensaje in
      let form_data := mkContactData n e (if truthy t then t else lit "Consulta general") msg in
      if negb (truthy n) || negb (truthy e) || negb (truthy msg) then
        (mkOutcome (Render T_contact)
           [contact_flash L_error "Por favor completa todos los campos obligatorios."] db,
         Some form_data)
      else
        let mail := mkEmail (contact_subject t) (contact_body n e t msg) destinatario in
        if send_mail mail then
          (mkOutcome (Redirect R_contact)
             [contact_flash L_success "¡Gracias! Tu mensaje fue enviado correctamente."]
             (set_outbox (λ o, o ++ [mail]) db), None)
        else
          (mkOutcome (Render T_contact)
             [contact_flash L_error "Ocurrió un problema al enviar el mensaje. Intenta nuevamente más tarde."]
             db, Some form_data)
  end.

End Contact.

(** The sender of Django's global settings, used by the witnesses with
    no [CONTACT_EMAIL] and a transport that delivers everything. *)
Definition demo_sender : text := lit "webmaster@localhost".

(** ** Lemmas *)

Lemma split_line (a b r : text) :
  NEWLINE ∉ a → NEWLINE ∉ b → split_on NEWLINE (a ++ b ++ [NEWLINE] ++ r) = (a ++ b) :: split_on NEWLINE r.
Proof.
  intros Ha Hb. rewrite app_assoc. change ([NEWLINE] ++ r) with (NEWLINE :: r).
  apply split_on_app_sep. rewrite elem_of_app. tauto.
Qed.

Lemma contact_body_split n e t m :
  NEWLINE ∉ n → NEWLINE ∉ e → NEWLINE ∉ t →
  split_on NEWLINE (contact_body n e t m) =
    [lit "Nombre: " ++ n; lit "Email: " ++ e; lit "Tipo de mensaje: " ++ t; []; lit "Mensaje:"] ++
    split_on NEWLINE m.
Proof.
  intros Hn He Ht. unfold contact_body.
  rewrite split_line by (done || (vm_compute; set_solver)).
  rewrite split_line by (done || (vm_compute; set_solver)).
  change ([NEWLINE; NEWLINE] ++ ?r) with ([NEWLINE] ++ NEWLINE :: r).
  rewrite split_line by (done || (vm_compute; set_solver)).
  rewrite (split_on_app_sep NEWLINE [] _ (not_elem_of_nil _) : split_on NEWLINE (NEWLINE :: _) = _).
  rewrite (split_on_app_sep NEWLINE (lit "Mensaje:") _ ltac:(vm_compute; set_solver)
            : split_on NEWLINE (lit "Mensaje:" ++ [NEWLINE] ++ _) = _).
  done.
Qed.

Section ContactLemmas.
  Context `{MailTransport} (CONTACT_EMAIL : option text) (DEFAULT_FROM_EMAIL : text).

Lemma send_mail_header_false e : header_ok (subject e) = false → send_mail e = false.
Proof. unfold send_mail. by intros ->. Qed.

End ContactLemmas.

(** ** Properties of [contact_view] *)

Section ContactProperties.
  Context `{MailTransport} (CONTACT_EMAIL : option text) (DEFAULT_FROM_EMAIL : text).

(** a POST with a name, an address and a message (after stripping)
    sends exactly one mail, to [destinatario], with the subject and body
    composed from the fields: if [send_mail] returns, the mail is the
    only change and the user is redirected; if it raises, nothing
    changes and the page shows the entered values again, an empty type
    shown as "Consulta general". *)
Theorem contact_view_post db n e t m :
  truthy (post_field n) = true → truthy (post_field e) = true → truthy (post_field m) = true →
  let mail := mkEmail (contact_subject (post_field t))
                (contact_body (post_field n) (post_field e) (post_field t) (post_field m))
                (destinatario CONTACT_EMAIL DEFAULT_FROM_EMAIL) in
  let '(o, fd) := contact_view CONTACT_EMAIL DEFAULT_FROM_EMAIL db POST n e t m in
  (send_mail mail = true →
     response o = Redirect R_contact ∧ state o = set_outbox (λ ob, ob ++ [mail]) db ∧ fd = None) ∧
  (send_mail mail = false →
     response o = Render T_contact ∧ state o = db ∧
     fd = Some (mkContactData (post_field n) (post_field e)
                  (if truthy (post_field t) then post_field t else lit "Consulta general") (post_field m))).
Proof.
  intros Hn He Hm mail. unfold contact_view. rewrite Hn, He, Hm. simpl.
  fold mail. destruct (send_mail mail); split; intros; done.
Qed.

(** C30: a type containing a line break can never be mailed: it ends up
    in the subject, building the message raises [BadHeaderError], and the
    view answers with the page and an error, the outbox untouched,
    whatever the mail transport. *)
Theorem contact_header_injection db n e t m :
  NEWLINE ∈ post_field t ∨ 13%N ∈ post_field t →
  let '(o, _) := contact_view CONTACT_EMAIL DEFAULT_FROM_EMAIL db POST n e t m in
  response o = Render T_contact ∧ state o = db.
Proof.
  intros Hbr. unfold contact_view.
  assert (Hsub : header_ok (contact_subject (post_field t)) = false).
  { assert (truthy (post_field t) = true) as Ht.
    { apply truthy_true_iff. intros E. rewrite E in Hbr. set_solver. }
    unfold header_ok, contact_subject. rewrite Ht.
    destruct Hbr; [rewrite (bool_decide_true (NEWLINE ∈ _))|rewrite (bool_decide_true (13%N ∈ _))];
      rewrite ?andb_false_r; try done; apply elem_of_app; by right. }
  destruct (negb _ || _ || _); [done|]. by rewrite send_mail_header_false.
Qed.

(** the body of the mail can be read back: for a name, an address
    and a type on one line each (the view strips them, but inner line
    breaks stay), two different submissions never give the same
    body. *)
Theorem contact_body_injective n e t m n' e' t' m' :
  NEWLINE ∉ n → NEWLINE ∉ e → NEWLINE ∉ t → NEWLINE ∉ n' → NEWLINE ∉ e' → NEWLINE ∉ t' →
  contact_body n e t m = contact_body n' e' t' m' → n = n' ∧ e = e' ∧ t = t' ∧ m = m'.
Proof.
  intros Hn He Ht Hn' He' Ht' Eq.
  apply (f_equal (split_on NEWLINE)) in Eq. rewrite !contact_body_split in Eq by done.
  simpl in Eq. injection Eq as En Ee Et Em. split_and!; try done.
  by rewrite <- (join_split_on NEWLINE m), Em, join_split_on.
Qed.

End ContactProperties.


(** ** Witnesses *)

Lemma contact_view_post_witness :
  let n := Some (lit " Ana ") in let e := Some (lit "ana@test.cl") in
  let t := None in let m := Some (lit "La rampa está rota") in
  truthy (post_field n) = true ∧ truthy (post_field e) = true ∧ truthy (post_field m) = true ∧
  let mail := mkEmail (contact_subject (post_field t))
                (contact_body (post_field n) (post_field e) (post_field t) (post_field m))
                (destinatario None demo_sender) in
  let '(o, fd) := @contact_view accept_all None demo_sender empty_db POST n e t m in
  (@send_mail accept_all mail = true →
     response o = Redirect R_contact ∧ state o = set_outbox (λ ob, ob ++ [mail]) empty_db ∧ fd = None) ∧
  (@send_mail accept_all mail = false →
     response o = Render T_contact ∧ state o = empty_db ∧
     fd = Some (mkContactData (post_field n) (post_field e)
                  (if truthy (post_field t) then post_field t else lit "Consulta general") (post_field m))).
Proof.
  intros n e t m. split; [vm_compute; reflexivity|]. split; [vm_compute; reflexivity|].
  split; [vm_compute; reflexivity|].
  apply (@contact_view_post accept_all None demo_sender); vm_compute; reflexivity.
Defined.

Lemma contact_header_injection_witness :
  let t := lit "Reclamo" ++ [NEWLINE] ++ lit "Bcc: todos@ejemplo.cl" in
  (NEWLINE ∈ post_field (Some t) ∨ 13%N ∈ post_field (Some t)) ∧
  let '(o, _) := @contact_view accept_all None demo_sender empty_db POST
                   (Some (lit "Ana")) (Some (lit "ana@test.cl")) (Some t) (Some (lit "Hola")) in
  response o = Render T_contact ∧ state o = empty_db.
Proof.
  intros t. assert (Ht : NEWLINE ∈ post_field (Some t)) by (vm_compute; set_solver).
  split; [by left|]. apply (@contact_header_injection accept_all None demo_sender). by left.
Defined.

Lemma contact_body_injective_witness :
  (NEWLINE ∉ lit "Ana") ∧ (NEWLINE ∉ lit "ana@test.cl") ∧ (NEWLINE ∉ @nil N) ∧
  (contact_body (lit "Ana") (lit "ana@test.cl") [] (lit "Hola") =
   contact_body (lit "Ana") (lit "ana@test.cl") [] (lit "Hola") →
   lit "Ana" = lit "Ana" ∧ lit "ana@test.cl" = lit "ana@test.cl" ∧ @nil N = [] ∧ lit "Hola" = lit "Hola").
Proof.
  assert (H1 : NEWLINE ∉ lit "Ana") by (vm_compute; set_solver).
  assert (H2 : NEWLINE ∉ lit "ana@test.cl") by (vm_compute; set_solver).
  assert (H3 : NEWLINE ∉ @nil N) by set_solver.
  split_and!; [exact H1|exact H2|exact H3|].
  apply contact_body_injective; assumption.
Defined.
