(* ===== verification/Listing.v ===== *)
(** * Listing: the pages that list places and reports (views.py, lines
      16-112 and 203-234)

    [map_view] and [about_view] render a template.  [places_view] lists
    the 100 newest places and, for a logged-in user, the ids of their
    favourite places, after [Profile.objects.get_or_create]: opening the
    page creates the profile of a user who has none.  [favorites_view]
    ([login_required]) does the same and lists the favourite places by
    name.  [reports_view] lists the 24 newest (or, with [orden=oldest],
    oldest) reports, [my_reports_view] ([login_required]) the 50 of the
    acting user, both filtered by the dates [desde] and [hasta].

    A date filter [created_at__date__gte=value] converts [value] with
    [DateField.to_python] when the [filter] call builds the lookup, in
    the view: a value that is not a date raises [ValidationError], which
    the view does not catch, and the request fails with a 500 error.
    [parse_date] (django/utils/dateparse.py) first tries
    [datetime.date.fromisoformat], whose accepted formats depend on the
    Python version and which is a variable of the Section [Listing], then
    the pattern [\d{4}-\d{1,2}-\d{1,2}$] with [datetime.date]'s range
    checks.  [__date] takes the date of a timestamp in the configured
    time zone; the settings are not in the sources, so the date of a
    timestamp, [local_date], is also a variable.  [\d] is modelled on
    ASCII digits.

    Rows with the same [created_at] (or, for favourites, the same name)
    come in an order the database chooses; the lists are sorted by a
    stable merge sort and the theorems characterise them up to such
    ties. *)

From S2P Require Import Prelude Text Geofence Models Http Routing Favorites Notify Reports.

(** ** Dates *)

(** [datetime.date] *)
Record Date := mkDate { d_year : Z; d_month : Z; d_day : Z }.

#[export] Instance Date_eq_dec : EqDecision Date.
Proof. solve_decision. Defined.

Definition is_leap (y : Z) : bool :=
  (Z.rem y 4 =? 0)%Z && (negb (Z.rem y 100 =? 0)%Z || (Z.rem y 400 =? 0)%Z).

Definition days_in_month (y m : Z) : Z :=
  if (m =? 2)%Z then (if is_leap y then 29 else 28)
  else if (m =? 4)%Z || (m =? 6)%Z || (m =? 9)%Z || (m =? 11)%Z then 30 else 31.

(** [datetime.date(year, month, day)]; [None] when it raises
    [ValueError]. *)
Definition make_date (y m d : Z) : option Date :=
  if (1 <=? y)%Z && (y <=? 9999)%Z && (1 <=? m)%Z && (m <=? 12)%Z &&
     (1 <=? d)%Z && (d <=? days_in_month y m)%Z
  then Some (mkDate y m d) else None.

Definition DASH : N := 45%N.

(** [date_re.match(value)] with [date_re = r'(?P<year>\d{4})-(?P<month>\d{1,2})-(?P<day>\d{1,2})$'],
    then [datetime.date] on the three numbers: [$] also matches before a
    final newline. *)
Definition regex_date (s : text) : option Date :=
  let s := match reverse s with c :: r => if (c =? NEWLINE)%N then reverse r else s | [] => s end in
  match split_on DASH s with
  | [y; m; d] =>
      if all_digits y && (length y =? 4)%nat &&
         all_digits m && (length m <=? 2)%nat && all_digits d && (length d <=? 2)%nat
      then make_date (Z.of_nat (digits_value y)) (Z.of_nat (digits_value m)) (Z.of_nat (digits_value d))
      else None
  | _ => None
  end.

(** [date_a <= date_b] *)
Definition date_le (a b : Date) : bool :=
  (d_year a <? d_year b)%Z ||
  ((d_year a =? d_year b)%Z &&
   ((d_month a <? d_month b)%Z || ((d_month a =? d_month b)%Z && (d_day a <=? d_day b)%Z))).

(** [request.GET.get(p) or ""] stripped. *)
Definition date_param (p : option text) : text := strip (default [] p).

(** [(request.GET.get("orden") or "newest").strip()] *)
Definition order_param (orden : option text) : text :=
  strip (default [] (py_or orden (Some (lit "newest")))).

Definition oldest (orden : option text) : bool := bool_decide (order_param orden = lit "oldest").

(** [order_by("created_at")] when [asc], [order_by("-created_at")]
    otherwise. *)
Definition report_before (asc : bool) (a b : nat * Report.t) : Prop :=
  if asc then Report.created_at a.2 ≤ Report.created_at b.2
  else Report.created_at b.2 ≤ Report.created_at a.2.

#[export] Instance report_before_dec asc : RelDecision (report_before asc).
Proof. intros a b. unfold report_before. destruct asc; apply _. Defined.

(** [Place.objects.all().order_by("-created_at")] *)
Definition place_newest (a b : nat * Place.t) : Prop := Place.created_at b.2 ≤ Place.created_at a.2.

#[export] Instance place_newest_dec : RelDecision place_newest.
Proof. intros a b. unfold place_newest. apply _. Defined.

(** [order_by("name")] *)
Definition place_by_name (a b : nat * Place.t) : Prop := text_leb (Place.name a.2) (Place.name b.2) = true.

#[export] Instance place_by_name_dec : RelDecision place_by_name.
Proof. intros a b. unfold place_by_name. apply _. Defined.

(** What the reports template receives. *)
Record ReportsPage := mkReportsPage {
  rp_reports : list (nat * Report.t);
  rp_order : text;
  rp_from : text;
  rp_to : text
}.

Definition map_view (db : DB) : Outcome := unchanged (Render T_map) db.
Definition about_view (db : DB) : Outcome := unchanged (Render T_about) db.

Section Listing.
  Variable fromisoformat : text → option Date.
  Variable local_date : nat → Date.

(** [django.utils.dateparse.parse_date]; [None] when it returns [None]
    or raises. *)
Definition parse_date (s : text) : option Date :=
  match fromisoformat s with Some d => Some d | None => regex_date s end.

(** The bound a date parameter sets: [Some None] for none, [None] when
    the filter raises [ValidationError]. *)
Definition parse_bound (raw : text) : option (option Date) :=
  if truthy raw then Some <$> parse_date raw else Some None.

Definition in_range (lo hi : option Date) (r : Report.t) : bool :=
  match lo with Some d => date_le d (local_date (Report.created_at r)) | None => true end &&
  match hi with Some d => date_le (local_date (Report.created_at r)) d | None => true end.

Definition author_ok (author : option nat) (r : Report.t) : bool :=
  match author with Some u => bool_decide (Report.author r = u) | None => true end.

(** The report query of both views: [filter(author=...)] when
    [author] is given, the order, the date filters and the slice. *)
Definition report_list (limit : nat) (author : option nat) (lo hi : option Date) (asc : bool)
    (db : DB) : list (nat * Report.t) :=
  take limit (merge_sort (report_before asc)
    (filter (λ kv, author_ok author kv.2 && in_range lo hi kv.2 = true)
       (map_to_list (Table.rows (reports db))))).

Definition reports_page (limit : nat) (author : option nat) (orden desde hasta : option text)
    (db : DB) : option ReportsPage :=
  let asc := oldest orden in
  let from := date_param desde in
  let to := date_param hasta in
  lo ← parse_bound from;
  hi ← parse_bound to;
  Some (mkReportsPage (report_list limit author lo hi asc db)
          (if asc then lit "oldest" else lit "newest") from to).

Definition page_outcome (db : DB) (pg : option ReportsPage) : Outcome * option ReportsPage :=
  match pg with
  | Some p => (unchanged (Render T_reports) db, Some p)
  | None => (unchanged ServerError db, None)
  end.

Definition reports_view (db : DB) (orden desde hasta : option text) : Outcome * option ReportsPage :=
  page_outcome db (reports_page 24 None orden desde hasta db).

Definition my_reports_view (db : DB) (user : option nat) (orden desde hasta : option text)
    : Outcome * option ReportsPage :=
  match user with
  | None => (unchanged (Redirect R_login) db, None)
  | Some u => page_outcome db (reports_page 50 (Some u) orden desde hasta db)
  end.

End Listing.

(** [places_view]: the outcome, the places listed and [favorite_ids]. *)
Definition places_view (db : DB) (user : option nat) : Outcome * (list (nat * Place.t) * gset nat) :=
  let newest (db : DB) := take 100 (merge_sort place_newest (map_to_list (Table.rows (places db)))) in
  match user with
  | None => (unchanged (Render T_places) db, (newest db, ∅))
  | Some u =>
      let '(prof, db1) := get_or_create_profile u db in
      (unchanged (Render T_places) db1,
       (newest db1, filter (λ k, is_Some (Table.rows (places db1) !! k)) (Profile.favorite_places prof)))
  end.

(** [favorites_view]: the outcome and the places listed. *)
Definition favorites_view (db : DB) (user : option nat) : Outcome * list (nat * Place.t) :=
  match user with
  | None => (unchanged (Redirect R_login) db, [])
  | Some u =>
      let '(prof, db1) := get_or_create_profile u db in
      (unchanged (Render T_favorites) db1,
       merge_sort place_by_name
         (filter (λ kv, kv.1 ∈ Profile.favorite_places prof) (map_to_list (Table.rows (places db1)))))
  end.

(** ** Sample settings

    A [fromisoformat] that rejects every value (the dates of the
    witnesses are read by the pattern of [parse_date]), and a time zone
    in which every timestamp of the sample database falls on 1 June
    2024. *)
Definition no_isoformat (_ : text) : option Date := None.
Definition demo_local_date (_ : nat) : Date := mkDate 2024 6 1.

(** ** Lemmas *)

#[export] Instance report_before_total asc : Total (report_before asc).
Proof. intros a b. unfold report_before. destruct asc; lia. Qed.

#[export] Instance report_before_trans asc : Transitive (report_before asc).
Proof. intros a b c. unfold report_before. destruct asc; lia. Qed.

#[export] Instance place_newest_total : Total place_newest.
Proof. intros a b. unfold place_newest. lia. Qed.

#[export] Instance place_newest_trans : Transitive place_newest.
Proof. intros a b c. unfold place_newest. lia. Qed.

#[export] Instance place_by_name_total : Total place_by_name.
Proof. intros a b. apply text_leb_total. Qed.

#[export] Instance place_by_name_trans : Transitive place_by_name.
Proof. intros a b c. apply text_leb_trans. Qed.

Section ListingLemmas.
  Context (fromisoformat : text → option Date) (local_date : nat → Date).

Lemma reports_page_None limit author orden desde hasta db :
  reports_page fromisoformat local_date limit author orden desde hasta db = None ↔
  parse_bound fromisoformat (date_param desde) = None ∨ parse_bound fromisoformat (date_param hasta) = None.
Proof.
  unfold reports_page.
  destruct (parse_bound _ (date_param desde)), (parse_bound _ (date_param hasta)); simpl; naive_solver.
Qed.

Lemma reports_page_Some limit author orden desde hasta db lo hi :
  parse_bound fromisoformat (date_param desde) = Some lo →
  parse_bound fromisoformat (date_param hasta) = Some hi →
  reports_page fromisoformat local_date limit author orden desde hasta db =
    Some (mkReportsPage (report_list local_date limit author lo hi (oldest orden) db)
            (if oldest orden then lit "oldest" else lit "newest") (date_param desde) (date_param hasta)).
Proof. intros Hlo Hhi. unfold reports_page. by rewrite Hlo, Hhi. Qed.

Lemma parse_bound_None raw :
  parse_bound fromisoformat raw = None ↔ truthy raw = true ∧ parse_date fromisoformat raw = None.
Proof.
  unfold parse_bound. destruct (truthy raw); [|naive_solver].
  destruct (parse_date _ raw); simpl; naive_solver.
Qed.

End ListingLemmas.

(** ** Properties of the list views *)

(** C23: with dates that parse (or none), [my_reports_view] changes
    nothing and lists only reports of the acting user created within the
    dates, each once, in the order [orden] asks for ([oldest] after
    stripping, newest first otherwise), at most 50; a report of the user
    within the dates is left out only when 50 listed ones come before
    it. *)
Theorem my_reports_view_spec fromisoformat local_date db u orden desde hasta lo hi :
  parse_bound fromisoformat (date_param desde) = Some lo →
  parse_bound fromisoformat (date_param hasta) = Some hi →
  let '(o, pg) := my_reports_view fromisoformat local_date db (Some u) orden desde hasta in
  o = unchanged (Render T_reports) db ∧
  ∃ p, pg = Some p ∧ rp_order p = (if oldest orden then lit "oldest" else lit "newest") ∧
    (∀ k r, (k, r) ∈ rp_reports p →
       Table.rows (reports db) !! k = Some r ∧ Report.author r = u ∧ in_range local_date lo hi r = true) ∧
    NoDup (rp_reports p).*1 ∧ StronglySorted (report_before (oldest orden)) (rp_reports p) ∧
    length (rp_reports p) ≤ 50 ∧
    (∀ k r, Table.rows (reports db) !! k = Some r → Report.author r = u →
       in_range local_date lo hi r = true → (k, r) ∉ rp_reports p →
       length (rp_reports p) = 50 ∧ Forall (λ y, report_before (oldest orden) y (k, r)) (rp_reports p)).
Proof.
  intros Hlo Hhi. unfold my_reports_view. rewrite (reports_page_Some _ _ _ _ _ _ _ _ lo hi) by done.
  split; [done|]. eexists; split_and!; [done|done|..]; cbn [rp_reports]; unfold report_list;
    destruct (sorted_page (report_before (oldest orden))
                (λ kv, author_ok (Some u) kv.2 && in_range local_date lo hi kv.2 = true)
                (Table.rows (reports db)) 50) as (Hel & Hnd & Hs & Hlen & Htop); try done.
  - intros k r (Hk & Hp)%Hel. apply andb_true_iff in Hp as [Ha Hr]. simpl in Ha.
    by apply bool_decide_eq_true in Ha.
  - intros k r Hk Ha Hr. apply Htop; [done|]. apply andb_true_iff. simpl.
    by rewrite bool_decide_eq_true.
Qed.

(** C24: a date parameter that is not empty and is not a date makes the
    [filter] call raise [ValidationError]: both report lists answer
    with a server error. *)
Theorem reports_view_bad_date fromisoformat local_date db orden desde hasta :
  parse_bound fromisoformat (date_param desde) = None ∨ parse_bound fromisoformat (date_param hasta) = None →
  reports_view fromisoformat local_date db orden desde hasta = (unchanged ServerError db, None) ∧
  ∀ u, my_reports_view fromisoformat local_date db (Some u) orden desde hasta = (unchanged ServerError db, None).
Proof.
  intros Hbad. unfold reports_view, my_reports_view.
  pose proof (proj2 (reports_page_None fromisoformat local_date 24 None orden desde hasta db) Hbad) as H24.
  rewrite H24. split; [done|]. intros u.
  by rewrite (proj2 (reports_page_None fromisoformat local_date 50 (Some u) orden desde hasta db) Hbad).
Qed.

(** on a consistent database [favorites_view] only reads (the
    profile it gets or creates exists already) and lists exactly the
    user's favourite places, each once, ordered by name. *)
Theorem favorites_view_spec db u :
  wf db → row_in (users db) u →
  let '(o, l) := favorites_view db (Some u) in
  o = unchanged (Render T_favorites) db ∧
  (∀ k p, (k, p) ∈ l ↔ Table.rows (places db) !! k = Some p ∧ k ∈ favorites_of u db) ∧
  NoDup l.*1 ∧ StronglySorted place_by_name l.
Proof.
  intros Hwf Hu. unfold favorites_view, favorites_of.
  pose proof (get_or_create_noop u db Hwf Hu) as Hnoop.
  destruct (get_or_create_profile u db) as [prof db1] eqn:E. simpl in Hnoop |- *. subst db1.
  split_and!; [done| | |apply StronglySorted_merge_sort; apply _].
  - intros k p. rewrite merge_sort_Permutation, list_elem_of_filter, elem_of_map_to_list. simpl. tauto.
  - rewrite merge_sort_Permutation. apply NoDup_fst_filter, NoDup_fst_map_to_list.
Qed.

(** on a consistent database [places_view] only reads; it lists the
    newest places, each once, at most 100, a place being left out only
    behind 100 at least as recent ones, and for a logged-in user the
    favourite ids are exactly the user's favourites. *)
Theorem places_view_spec db user :
  wf db → (∀ u, user = Some u → row_in (users db) u) →
  let '(o, (l, favs)) := places_view db user in
  o = unchanged (Render T_places) db ∧
  (∀ k p, (k, p) ∈ l → Table.rows (places db) !! k = Some p) ∧
  NoDup l.*1 ∧ StronglySorted place_newest l ∧ length l ≤ 100 ∧
  (∀ k p, Table.rows (places db) !! k = Some p → (k, p) ∉ l →
     length l = 100 ∧ Forall (λ y, place_newest y (k, p)) l) ∧
  favs = match user with Some u => favorites_of u db | None => ∅ end.
Proof.
  intros Hwf Hu. unfold places_view.
  destruct (sorted_page place_newest (λ _, True) (Table.rows (places db)) 100)
    as (Hel & Hnd & Hs & Hlen & Htop).
  rewrite filter_True_id in Hel, Hnd, Hs, Hlen, Htop.
  assert (Hin : ∀ k p, (k, p) ∈ take 100 (merge_sort place_newest (map_to_list (Table.rows (places db)))) →
                  Table.rows (places db) !! k = Some p) by (intros k p Hk; by apply Hel in Hk as [? _]).
  assert (Hout : ∀ k p, Table.rows (places db) !! k = Some p →
                   (k, p) ∉ take 100 (merge_sort place_newest (map_to_list (Table.rows (places db)))) →
                   _) by (intros k p Hk; by apply Htop).
  destruct user as [u|]; [|by split_and!].
  pose proof (get_or_create_noop u db Hwf (Hu u eq_refl)) as Hnoop. unfold favorites_of.
  destruct (get_or_create_profile u db) as [prof db1] eqn:E. simpl in Hnoop |- *. subst db1.
  split_and!; try done. apply set_eq. intros k. rewrite elem_of_filter. split; [tauto|].
  intros Hk. split; [|done].
  pose proof (get_or_create_lookup u db) as Hl. rewrite E in Hl. simpl in Hl.
  apply (wf_favorites _ Hwf) in Hl. apply Hl in Hk. by apply elem_of_dom in Hk.
Qed.


(** ** Witnesses *)

Lemma my_reports_view_spec_witness :
  parse_bound no_isoformat (date_param (Some (lit "2024-1-1"))) = Some (Some (mkDate 2024 1 1)) ∧
  parse_bound no_isoformat (date_param (Some (lit " 2024-12-31 "))) = Some (Some (mkDate 2024 12 31)) ∧
  let '(o, pg) := my_reports_view no_isoformat demo_local_date demo_report_db (Some 1) (Some (lit " oldest "))
                    (Some (lit "2024-1-1")) (Some (lit " 2024-12-31 ")) in
  o = unchanged (Render T_reports) demo_report_db ∧
  ∃ p, pg = Some p ∧ rp_order p = (if oldest (Some (lit " oldest ")) then lit "oldest" else lit "newest") ∧
    (∀ k r, (k, r) ∈ rp_reports p →
       Table.rows (reports demo_report_db) !! k = Some r ∧ Report.author r = 1 ∧
       in_range demo_local_date (Some (mkDate 2024 1 1)) (Some (mkDate 2024 12 31)) r = true) ∧
    NoDup (rp_reports p).*1 ∧ StronglySorted (report_before (oldest (Some (lit " oldest ")))) (rp_reports p) ∧
    length (rp_reports p) ≤ 50 ∧
    (∀ k r, Table.rows (reports demo_report_db) !! k = Some r → Report.author r = 1 →
       in_range demo_local_date (Some (mkDate 2024 1 1)) (Some (mkDate 2024 12 31)) r = true →
       (k, r) ∉ rp_reports p →
       length (rp_reports p) = 50 ∧
       Forall (λ y, report_before (oldest (Some (lit " oldest "))) y (k, r)) (rp_reports p)).
Proof.
  split; [vm_compute; reflexivity|]. split; [vm_compute; reflexivity|].
  apply my_reports_view_spec; vm_compute; reflexivity.
Defined.

(** 30 February does not exist: the page fails. *)
Lemma reports_view_bad_date_witness :
  reports_view no_isoformat demo_local_date demo_report_db None (Some (lit "2024-02-30")) None =
    (unchanged ServerError demo_report_db, None) ∧
  ∀ u, my_reports_view no_isoformat demo_local_date demo_report_db (Some u) None
         (Some (lit "2024-02-30")) None = (unchanged ServerError demo_report_db, None).
Proof. apply reports_view_bad_date. left. vm_compute. reflexivity. Defined.

Lemma favorites_view_spec_witness :
  let '(o, l) := favorites_view demo_fav_db (Some 2) in
  o = unchanged (Render T_favorites) demo_fav_db ∧
  (∀ k p, (k, p) ∈ l ↔ Table.rows (places demo_fav_db) !! k = Some p ∧ k ∈ favorites_of 2 demo_fav_db) ∧
  NoDup l.*1 ∧ StronglySorted place_by_name l.
Proof.
  apply favorites_view_spec; [|vm_compute; eauto].
  apply toggle_wf; [apply demo_db_wf|intros u [= <-]; vm_compute; eauto].
Defined.

Lemma places_view_spec_witness :
  let '(o, (l, favs)) := places_view demo_fav_db (Some 2) in
  o = unchanged (Render T_places) demo_fav_db ∧
  (∀ k p, (k, p) ∈ l → Table.rows (places demo_fav_db) !! k = Some p) ∧
  NoDup l.*1 ∧ StronglySorted place_newest l ∧ length l ≤ 100 ∧
  (∀ k p, Table.rows (places demo_fav_db) !! k = Some p → (k, p) ∉ l →
     length l = 100 ∧ Forall (λ y, place_newest y (k, p)) l) ∧
  favs = favorites_of 2 demo_fav_db.
Proof.
  apply (places_view_spec demo_fav_db (Some 2)).
  - apply toggle_wf; [apply demo_db_wf|intros u [= <-]; vm_compute; eauto].
  - intros u [= <-]. vm_compute. eauto.
Defined.

(** The listed reports and the context of the template. *)
Example reports_view_example :
  (rp_reports <$> (reports_view no_isoformat demo_local_date demo_report_db None None None).2) =
    Some [(1, demo_report)] ∧
  (rp_order <$> (reports_view no_isoformat demo_local_date demo_report_db (Some (lit "  ")) None None).2) =
    Some (lit "newest") ∧
  (rp_reports <$> (my_reports_view no_isoformat demo_local_date demo_report_db (Some 2) None None None).2) =
    Some [].
Proof. vm_compute. split_and!; reflexivity. Qed.
