(* ===== verification/Comments.v ===== *)
(** * Comments: [report_detail] (views.py, lines 482-522)

    The view looks the report up (404 when absent, whoever asks); a GET
    shows the report with its comments.  A POST from an anonymous user is
    sent to the login page with an error message.  Otherwise the [text]
    parameter (empty when absent) is stripped; an empty result is refused
    with an error message and the page is shown again, and a non-empty one
    is stored by [Comment.objects.create] with the acting user as author,
    after which the user is redirected to the report.

    The page lists [report.comments], ordered by [Comment.Meta.ordering =
    ['created_at']]: [comments_page] sorts the report's comments by their
    creation time with a stable merge sort; comments created at the same
    instant come in an order the database chooses, and the theorems say
    nothing about it. *)

From S2P Require Import Prelude Text Geofence Models Http Notify Reports.

(** [Comment.objects.create(report=report, author=request.user, text=text)]:
    no [full_clean], so [TextField(max_length=1000)] is not checked. *)
Definition comment_create (now report_id author : nat) (txt : text) (db : DB) : nat * DB :=
  let ins := Table.insert (Comment.mk report_id author txt now) (comments db) in
  (ins.1, set_comments (λ _, ins.2) db).

Definition flash_comment (l : Level) (msg : string) : Flash := mkFlash l (lit "comment") (lit msg).

(** [request.POST.get('text', '').strip()] *)
Definition comment_text (text_param : option text) : text := strip (default [] text_param).

Definition report_detail (now : nat) (db : DB) (m : Method) (user : option nat) (pk : nat)
    (text_param : option text) : Outcome :=
  match Table.rows (reports db) !! pk with
  | None => unchanged NotFound db
  | Some _ =>
      match m with
      | GET => unchanged (Render T_report_detail) db
      | POST =>
          match user with
          | None =>
              mkOutcome (Redirect R_login)
                [flash_comment L_error "Debes iniciar sesión para comentar."] db
          | Some u =>
              let txt := comment_text text_param in
              if truthy txt then
                mkOutcome (Redirect (R_report_detail pk))
                  [flash_comment L_success "Comentario publicado."]
                  (comment_create now pk u txt db).2
              else
                mkOutcome (Render T_report_detail)
                  [flash_comment L_error "El comentario no puede estar vacío."] db
          end
      end
  end.

(** [Comment.Meta.ordering = ['created_at']] *)
Definition by_created_at (a b : nat * Comment.t) : Prop :=
  Comment.created_at a.2 ≤ Comment.created_at b.2.

#[export] Instance by_created_at_dec : RelDecision by_created_at :=
  λ a b, decide (Comment.created_at a.2 ≤ Comment.created_at b.2).

(** [report.comments.select_related('author')]: the comments of the
    report, with their keys, oldest first. *)
Definition comments_page (pk : nat) (db : DB) : list (nat * Comment.t) :=
  merge_sort by_created_at
    (filter (λ kv, Comment.report kv.2 = pk) (map_to_list (Table.rows (comments db)))).

(** ** Lemmas *)

#[export] Instance by_created_at_total : Total by_created_at.
Proof. intros a b. unfold by_created_at. lia. Qed.

#[export] Instance by_created_at_trans : Transitive by_created_at.
Proof. intros a b c. unfold by_created_at. lia. Qed.

Lemma comment_create_key now pk u txt db :
  (comment_create now pk u txt db).1 = Table.next_id (comments db).
Proof. done. Qed.

Lemma comment_create_rows now pk u txt db :
  Table.rows (comments (comment_create now pk u txt db).2) =
    <[Table.next_id (comments db) := Comment.mk pk u txt now]> (Table.rows (comments db)).
Proof. done. Qed.

Lemma comment_create_wf now pk u txt db :
  wf db → row_in (reports db) pk → row_in (users db) u → wf (comment_create now pk u txt db).2.
Proof.
  intros [] Hr Hu. unfold comment_create.
  split; simpl_db; eauto with incluimap.
  intros k c. rewrite table_insert_lookup. case_decide; [intros [= <-]; done|eauto].
Qed.

Lemma comment_text_nil_iff p :
  comment_text p = [] ↔ Forall (λ c, isspace c = true) (default [] p).
Proof. apply strip_nil_iff. Qed.

#[export] Hint Rewrite comment_create_rows comment_create_key : incluimap_rw.


Lemma comments_page_insert pk db k c :
  Table.rows (comments db) !! k = None →
  length (merge_sort by_created_at (filter (λ kv, Comment.report kv.2 = pk)
    (map_to_list (<[k := c]> (Table.rows (comments db)))))) =
  (if decide (Comment.report c = pk) then 1 else 0) + length (comments_page pk db).
Proof.
  intros Hk. unfold comments_page. rewrite !merge_sort_Permutation.
  rewrite map_to_list_insert by done. rewrite filter_cons. simpl. by case_decide.
Qed.

Lemma report_detail_wf now db m u pk t :
  wf db → row_in (users db) u → wf (state (report_detail now db m (Some u) pk t)).
Proof.
  intros Hwf Hu. unfold report_detail.
  destruct (Table.rows (reports db) !! pk) eqn:Hr; [|done]. destruct m; [done|].
  destruct (truthy (comment_text t)); [|done]. apply comment_create_wf; eauto with incluimap.
Qed.

(** ** Properties of [report_detail] *)

(** C10: a logged-in POST whose stripped text is not empty adds exactly
    one comment, under a fresh key, on the report, by the acting user,
    with the stripped text and the request time, and changes no other
    table; the database stays consistent, the report's page shows one
    comment more, and the user is sent back to the report. *)
Theorem report_detail_comment now db u pk r t :
  wf db → Table.rows (reports db) !! pk = Some r → row_in (users db) u → comment_text t ≠ [] →
  let o := report_detail now db POST (Some u) pk t in
  response o = Redirect (R_report_detail pk) ∧ wf (state o) ∧
  Table.rows (comments db) !! Table.next_id (comments db) = None ∧
  Table.rows (comments (state o)) =
    <[Table.next_id (comments db) := Comment.mk pk u (comment_text t) now]> (Table.rows (comments db)) ∧
  length (comments_page pk (state o)) = S (length (comments_page pk db)) ∧
  users (state o) = users db ∧ profiles (state o) = profiles db ∧ places (state o) = places db ∧
  reports (state o) = reports db ∧ notifications (state o) = notifications db.
Proof.
  intros Hwf Hr Hu Ht o. subst o. unfold report_detail. rewrite Hr.
  apply truthy_true_iff in Ht as ->. cbn [state response].
  pose proof (table_insert_fresh _ (wf_comments _ Hwf)) as Hfresh.
  split_and!; try done.
  - apply comment_create_wf; eauto with incluimap.
  - unfold comments_page at 1. rewrite comment_create_rows, comments_page_insert by done.
    by rewrite decide_True.
Qed.

(** C11: a comment whose text is missing, empty or made only of
    whitespace is refused: the page is shown again with the error message
    and nothing is stored. *)
Theorem report_detail_blank now db u pk r t :
  Table.rows (reports db) !! pk = Some r → Forall (λ c, isspace c = true) (default [] t) →
  report_detail now db POST (Some u) pk t =
    mkOutcome (Render T_report_detail)
      [flash_comment L_error "El comentario no puede estar vacío."] db.
Proof.
  intros Hr Ht. unfold report_detail. rewrite Hr.
  apply comment_text_nil_iff in Ht. by rewrite Ht.
Qed.

(** the other paths of [report_detail] change nothing: a missing
    report is answered 404 whoever asks and whatever the method, a GET
    renders the page, and an anonymous POST is sent to the login page with
    an error message. *)
Theorem report_detail_errors now db m user pk t :
  (Table.rows (reports db) !! pk = None → report_detail now db m user pk t = unchanged NotFound db) ∧
  (is_Some (Table.rows (reports db) !! pk) →
     report_detail now db GET user pk t = unchanged (Render T_report_detail) db ∧
     report_detail now db POST None pk t =
       mkOutcome (Redirect R_login) [flash_comment L_error "Debes iniciar sesión para comentar."] db).
Proof.
  unfold report_detail. split; [by intros ->|]. intros [r ->]. done.
Qed.


(** [TextField(max_length=1000)] is not enforced: [objects.create]
    runs no validation, so a comment of more than 1000 characters is
    stored as it is. *)
Theorem report_detail_long_comment now db u pk r t :
  Table.rows (reports db) !! pk = Some r → 1000 < length (comment_text t) →
  ∃ k c, Table.rows (comments (state (report_detail now db POST (Some u) pk t))) !! k = Some c ∧
         Comment.author c = u ∧ 1000 < length (Comment.text c).
Proof.
  intros Hr Hlen. unfold report_detail. rewrite Hr.
  assert (truthy (comment_text t) = true) as ->
    by (apply truthy_true_iff; intros E; rewrite E in Hlen; simpl in Hlen; lia).
  exists (Table.next_id (comments db)), (Comment.mk pk u (comment_text t) now).
  cbn [state]. by rewrite comment_create_rows, lookup_insert_eq.
Qed.

(** ** Witnesses on the sample database of Reports.v

    User 2 comments on report 1 of user 1. *)

Lemma report_detail_comment_witness :
  let t := Some (lit " Muy útil, gracias ") in
  let o := report_detail 5 demo_report_db POST (Some 2) 1 t in
  response o = Redirect (R_report_detail 1) ∧ wf (state o) ∧
  Table.rows (comments demo_report_db) !! Table.next_id (comments demo_report_db) = None ∧
  Table.rows (comments (state o)) =
    <[Table.next_id (comments demo_report_db) := Comment.mk 1 2 (comment_text t) 5]>
      (Table.rows (comments demo_report_db)) ∧
  length (comments_page 1 (state o)) = S (length (comments_page 1 demo_report_db)) ∧
  users (state o) = users demo_report_db ∧ profiles (state o) = profiles demo_report_db ∧
  places (state o) = places demo_report_db ∧ reports (state o) = reports demo_report_db ∧
  notifications (state o) = notifications demo_report_db.
Proof.
  apply (report_detail_comment 5 demo_report_db 2 1 demo_report).
  - apply demo_report_db_wf.
  - vm_compute. reflexivity.
  - vm_compute. eauto.
  - vm_compute. discriminate.
Defined.

Lemma report_detail_blank_witness :
  report_detail 5 demo_report_db POST (Some 2) 1 (Some (lit " 	 ")) =
    mkOutcome (Render T_report_detail)
      [flash_comment L_error "El comentario no puede estar vacío."] demo_report_db.
Proof.
  apply (report_detail_blank _ _ _ _ demo_report); vm_compute; [reflexivity|].
  repeat constructor.
Defined.

Lemma report_detail_long_comment_witness :
  ∃ k c, Table.rows (comments (state (report_detail 5 demo_report_db POST (Some 2) 1
                                        (Some (repeat 97%N 1001))))) !! k = Some c ∧
         Comment.author c = 2 ∧ 1000 < length (Comment.text c).
Proof.
  apply (report_detail_long_comment _ _ _ _ demo_report); vm_compute; [reflexivity|lia].
Defined.
