(* ===== verification/Inbox.v ===== *)
(** * Inbox: [notifications_view] (views.py, lines 423-440)

    The view builds the queryset of the acting user's notifications,
    newest first, cut to 50, then marks every unread notification of the
    user as read with one [UPDATE], and renders the page with the
    queryset.  A Django queryset is lazy: slicing it does not run it, and
    the template runs it after the [UPDATE].  So the page shows the
    notifications as they are after the update.  [notifications_view]
    returns the outcome of the request and the rows the page lists.

    Notifications created at the same instant come in an order the
    database chooses; [inbox] breaks such ties by a stable sort of the
    table's rows, and the theorems say nothing about that order. *)

From S2P Require Import Prelude Text Geofence Models Http Notify Reports.

Definition set_read (n : Notification.t) : Notification.t :=
  Notification.mk (Notification.user n) (Notification.place n) (Notification.report n)
    (Notification.message n) (Notification.created_at n) true.

(** [Notification.objects.filter(user=u, is_read=False).update(is_read=True)] *)
Definition mark_read (u : nat) (db : DB) : DB :=
  set_notifications
    (Table.update_all (λ n, if bool_decide (Notification.user n = u) && negb (Notification.is_read n)
                            then set_read n else n)) db.

(** [order_by("-created_at")] *)
Definition newest_first (a b : nat * Notification.t) : Prop :=
  Notification.created_at b.2 ≤ Notification.created_at a.2.

#[export] Instance newest_first_dec : RelDecision newest_first :=
  λ a b, decide (Notification.created_at b.2 ≤ Notification.created_at a.2).

(** [Notification.objects.filter(user=u).order_by("-created_at")[:50]],
    run on [db]. *)
Definition inbox (u : nat) (db : DB) : list (nat * Notification.t) :=
  take 50 (merge_sort newest_first
             (filter (λ kv, Notification.user kv.2 = u) (map_to_list (Table.rows (notifications db))))).

Definition notifications_view (db : DB) (user : option nat) : Outcome * list (nat * Notification.t) :=
  match user with
  | None => (unchanged (Redirect R_login) db, [])
  | Some u =>
      let db' := mark_read u db in
      (unchanged (Render T_notifications) db', inbox u db')
  end.

(** ** Lemmas *)

#[export] Instance newest_first_total : Total newest_first.
Proof. intros a b. unfold newest_first. lia. Qed.

#[export] Instance newest_first_trans : Transitive newest_first.
Proof. intros a b c. unfold newest_first. lia. Qed.

Lemma mark_read_lookup u db k :
  Table.rows (notifications (mark_read u db)) !! k =
    (λ n, if bool_decide (Notification.user n = u) then set_read n else n)
      <$> Table.rows (notifications db) !! k.
Proof.
  unfold mark_read, Table.update_all. simpl. rewrite !lookup_fmap.
  destruct (Table.rows (notifications db) !! k) as [n|]; [simpl|done].
  f_equal. case_bool_decide; [|done]. by destruct n as [? ? ? ? ? []].
Qed.

Lemma mark_read_tables u db :
  let db' := mark_read u db in
  users db' = users db ∧ profiles db' = profiles db ∧ places db' = places db ∧
  reports db' = reports db ∧ comments db' = comments db ∧ outbox db' = outbox db ∧
  Table.next_id (notifications db') = Table.next_id (notifications db).
Proof. done. Qed.

Lemma mark_read_wf u db : wf db → wf (mark_read u db).
Proof.
  intros [Hus Hpl Hre Hco Hno Hprof Hfav Hval Hrfk Hcfk Hnfk].
  split; simpl_db; auto; intros k n; rewrite mark_read_lookup, fmap_Some.
  - intros (n0 & Hn0 & _). eauto.
  - intros (n0 & Hn0 & ->). destruct (Hnfk k n0 Hn0). by case_bool_decide.
Qed.

Lemma mark_read_user u db k n :
  Table.rows (notifications (mark_read u db)) !! k = Some n → Notification.user n = u →
  Notification.is_read n = true.
Proof.
  rewrite mark_read_lookup, fmap_Some. intros (n0 & _ & ->). by case_bool_decide.
Qed.

(** ** Properties of [notifications_view] *)

(** C13: opening the notification page marks every notification of the
    user as read and changes nothing else: the other users'
    notifications, the set of rows, every field but [is_read], and every
    other table stay as they were. *)
Theorem notifications_view_marks_read db u :
  let db' := (notifications_view db (Some u)).1.(state) in
  (∀ k n, Table.rows (notifications db') !! k = Some n → Notification.user n = u →
          Notification.is_read n = true) ∧
  (∀ k n, Table.rows (notifications db) !! k = Some n → Notification.user n ≠ u →
          Table.rows (notifications db') !! k = Some n) ∧
  (∀ k n, Table.rows (notifications db) !! k = Some n →
          ∃ n', Table.rows (notifications db') !! k = Some n' ∧ set_read n' = set_read n) ∧
  (∀ k n', Table.rows (notifications db') !! k = Some n' → is_Some (Table.rows (notifications db) !! k)) ∧
  users db' = users db ∧ profiles db' = profiles db ∧ places db' = places db ∧
  reports db' = reports db ∧ comments db' = comments db ∧ outbox db' = outbox db.
Proof.
  cbn [notifications_view fst state unchanged]. split_and!; try done.
  - apply mark_read_user.
  - intros k n Hn Hu. rewrite mark_read_lookup, Hn. simpl. by rewrite bool_decide_false.
  - intros k n Hn. rewrite mark_read_lookup, Hn. simpl. eexists; split; [done|].
    by case_bool_decide.
  - intros k n'. rewrite mark_read_lookup, fmap_Some. intros (n & -> & _). by eexists.
Qed.

(** C26: the page is run after the update, so it shows each
    notification as read, including those that were unread when the page
    was opened: it lists only notifications of the user, each once, all
    read, newest first, at most 50 of them; a notification of the user is
    left out only when 50 at least as recent ones are listed. *)
Theorem notifications_view_page db u :
  let o := notifications_view db (Some u) in
  let rows' := Table.rows (notifications o.1.(state)) in
  Forall (λ kn, rows' !! kn.1 = Some kn.2 ∧ Notification.user kn.2 = u ∧
                Notification.is_read kn.2 = true) o.2 ∧
  NoDup o.2.*1 ∧ StronglySorted newest_first o.2 ∧ length o.2 ≤ 50 ∧
  (∀ k n, rows' !! k = Some n → Notification.user n = u → (k, n) ∉ o.2 →
     length o.2 = 50 ∧ Forall (λ kn, Notification.created_at n ≤ Notification.created_at kn.2) o.2).
Proof.
  cbn [notifications_view fst snd state unchanged]. unfold inbox.
  destruct (sorted_page newest_first (λ kv, Notification.user kv.2 = u)
              (Table.rows (notifications (mark_read u db))) 50) as (Hel & Hnd & Hs & Hlen & Htop).
  split_and!; [|done|done|done|exact Htop].
  apply Forall_forall. intros [k n] (Hk & Hu)%Hel. split_and!; [done|done|]. by eapply mark_read_user.
Qed.

(** opening the page a second time changes nothing more: marking
    as read is idempotent. *)
Theorem notifications_view_idempotent db u :
  let db' := (notifications_view db (Some u)).1.(state) in
  (notifications_view db' (Some u)).1.(state) = db'.
Proof.
  cbn [notifications_view fst state unchanged].
  unfold mark_read at 1, set_notifications. rewrite table_update_all_id.
  - by destruct (mark_read u db).
  - intros k n Hn. case_bool_decide as Hu; [|done]. by rewrite (mark_read_user u db k n Hn Hu).
Qed.

(** On the sample database of Reports.v, user 2 has one unread
    notification (the report of user 1 on a favourite place); the page
    lists it already marked as read. *)
Example notifications_view_demo :
  map (λ kn, Notification.is_read kn.2) (inbox 2 demo_report_db) = [false] ∧
  map (λ kn, Notification.is_read kn.2) (notifications_view demo_report_db (Some 2)).2 = [true].
Proof. vm_compute. split; reflexivity. Qed.
