(* ===== verification/Stats.v ===== *)
(** * Stats: [places_api] and [dashboard_view] (views.py, lines 313-362
      and 443-479)

    Both views read the database and change nothing.

    [places_api] ([require_GET]) reads the parameters [q], [commune] and
    [tags]; [tags] is stripped, lower-cased and split on commas, and the
    empty pieces are dropped (the pieces themselves are not stripped).  It
    keeps the places whose name or address contains [q] and whose tags
    contain one of the pieces, both tests case-insensitive
    ([__icontains]); [commune] is ignored since [Place] has no such field.
    Each place is annotated with the mean rating of its reports
    ([Avg("report__rating")], [None] when it has none) and their number
    ([Count("report")]), the rows are ordered by decreasing count and then
    by name, and a row whose coordinates do not convert to [float] is
    skipped.

    [dashboard_view] groups the reports by the literal string of their
    [tags] column, counts each group, averages its ratings, orders the
    groups by mean rating and then by tag string, and labels the empty
    string "Sin tag".

    Modelling choices: the mean is an exact rational (Python computes a
    float); names are compared by code point, which is the [BINARY]
    collation of SQLite, the database of the model (its [NULL] ordering
    is also SQLite's); [__icontains] is SQLite's [LIKE], which ignores
    the case of ASCII letters only ([Text.ascii_lower]): [Maipú] does
    not contain [MAIPÚ].  Rows that tie on the whole ordering key come in an
    order the database chooses; [merge_sort] fixes one, and the theorems
    say nothing about it. *)

From Stdlib Require Import QArith.
From S2P Require Import Prelude Text Geofence Models Http Notify.

(** ** Aggregates *)

#[export] Instance Qeq_decision : RelDecision Qeq := Qeq_dec.
#[export] Instance Qlt_decision : RelDecision Qlt :=
  λ x y, match Qlt_le_dec x y with left H => left H | right H => right (Qle_not_lt y x H) end.

Definition sum_Z (xs : list Z) : Z := foldr Z.add 0%Z xs.

(** [Avg]: [None] (SQL [NULL]) on no rows, the arithmetic mean otherwise. *)
Definition mean (xs : list Z) : option Q :=
  match xs with
  | [] => None
  | _ => Some (inject_Z (sum_Z xs) / inject_Z (Z.of_nat (length xs)))%Q
  end.

(** The reports of place [p], as a list. *)
Definition reports_on (p : nat) (db : DB) : list Report.t :=
  (map_to_list (filter (λ kv, Report.place kv.2 = p) (Table.rows (reports db)))).*2.

(** A place annotated with [avg_rating] and [reports_count]. *)
Record PlaceStat := mkPlaceStat {
  ps_id : nat;
  ps_place : Place.t;
  ps_avg : option Q;
  ps_count : nat
}.

Definition place_stat (db : DB) (kv : nat * Place.t) : PlaceStat :=
  let rs := Report.rating <$> reports_on kv.1 db in
  mkPlaceStat kv.1 kv.2 (mean rs) (length rs).

(** ** [places_api] *)

(** [__icontains] on SQLite: [LIKE '%needle%'] with the wildcards of
    [needle] escaped, case-insensitive on ASCII letters only. *)
Definition icontains (hay needle : text) : bool := contains (ascii_lower hay) (ascii_lower needle).

(** [[t for t in tags_raw.split(",") if t]] *)
Definition tags_list (tags_raw : text) : list text := filter (λ t, t ≠ []) (split_on comma tags_raw).

(** The [q] filter and the [OR] of the [tags__icontains] filters. *)
Definition place_matches (q : text) (tl : list text) (p : Place.t) : bool :=
  (negb (truthy q) || icontains (Place.name p) q || icontains (Place.address p) q) &&
  (negb (bool_decide (tl ≠ [])) || existsb (icontains (Place.tags p)) tl).

(** [order_by("-reports_count", "name")] *)
Definition api_before (x y : PlaceStat) : Prop :=
  ps_count y < ps_count x ∨
  (ps_count x = ps_count y ∧ text_leb (Place.name (ps_place x)) (Place.name (ps_place y)) = true).

#[export] Instance api_before_dec : RelDecision api_before.
Proof. intros x y. unfold api_before. apply _. Defined.

(** One element of the [places] array of the JSON answer. *)
Record ApiRow := mkApiRow {
  api_id : nat;
  api_name : text;
  api_address : text;
  api_lat : Decimal.t;
  api_lng : Decimal.t;
  api_tags : text;
  api_avg : option Q;
  api_count : nat
}.

(** [float(p.get("lat"))], and the row skipped when it raises. *)
Definition api_row (s : PlaceStat) : option ApiRow :=
  let p := ps_place s in
  match Place.lat p, Place.lng p with
  | Some a, Some b =>
      Some (mkApiRow (ps_id s) (Place.name p) (Place.address p) a b (Place.tags p) (ps_avg s) (ps_count s))
  | _, _ => None
  end.

(** The answer to [GET /api/places/]; [None] is the 405 of [require_GET]. *)
Definition places_api (db : DB) (m : Method) (q_param tags_param commune_param : option text)
    : option (list ApiRow) :=
  match m with
  | POST => None
  | GET =>
      let q := strip (default [] q_param) in
      let tl := tags_list (lower (strip (default [] tags_param))) in
      let qs := filter (λ kv, place_matches q tl kv.2 = true) (map_to_list (Table.rows (places db))) in
      Some (omap api_row (merge_sort api_before (place_stat db <$> qs)))
  end.

(** ** [dashboard_view] *)

(** [order_by("-avg_rating", "name")] on the annotated places.  A place
    without reports has a [NULL] mean; SQLite, the database of Django's
    default settings, sorts [NULL] below every number, so such places come
    last. *)
Definition avg_before (x y : PlaceStat) : Prop :=
  match ps_avg x, ps_avg y with
  | Some a, Some b => (b < a)%Q ∨ (a == b)%Q ∧ text_leb (Place.name (ps_place x)) (Place.name (ps_place y)) = true
  | Some _, None => True
  | None, Some _ => False
  | None, None => text_leb (Place.name (ps_place x)) (Place.name (ps_place y)) = true
  end.

#[export] Instance avg_before_dec : RelDecision avg_before.
Proof. intros x y. unfold avg_before. destruct (ps_avg x), (ps_avg y); apply _. Defined.

(** The [GROUP BY tags] of [Report.objects.values("tags")]: the ratings
    of each distinct tag string, in the order the rows are read. *)
Definition group_step (m : gmap text (list Z)) (r : Report.t) : gmap text (list Z) :=
  <[Report.tags r := default [] (m !! Report.tags r) ++ [Report.rating r]]> m.

Definition group_by_tags (rs : list Report.t) : gmap text (list Z) := foldl group_step ∅ rs.

(** A row of [tags_qs]: [tags], [total_reportes], [avg_rating]. *)
Record TagStat := mkTagStat { ts_tags : text; ts_count : nat; ts_avg : Q }.

Definition tag_stat (g : text * list Z) : TagStat :=
  mkTagStat g.1 (length g.2) (default 0%Q (mean g.2)).

(** [order_by("avg_rating", "tags")] *)
Definition tag_before (x y : TagStat) : Prop :=
  (ts_avg x < ts_avg y)%Q ∨ ((ts_avg x == ts_avg y)%Q ∧ text_leb (ts_tags x) (ts_tags y) = true).

#[export] Instance tag_before_dec : RelDecision tag_before.
Proof. intros x y. unfold tag_before. apply _. Defined.

Definition all_reports (db : DB) : list Report.t := (map_to_list (Table.rows (reports db))).*2.

Definition tags_qs (db : DB) : list TagStat :=
  merge_sort tag_before (tag_stat <$> map_to_list (group_by_tags (all_reports db))).

(** [row["tags"] or "Sin tag"] *)
Definition tag_label (t : text) : text := if truthy t then t else lit "Sin tag".

(** What the dashboard template receives. *)
Record Dashboard := mkDashboard {
  places_stats : list PlaceStat;
  tags_stats : list TagStat;
  tag_labels : list text;
  tag_counts : list nat;
  tag_avg_ratings : list Q
}.

Definition dashboard_view (db : DB) (user : option nat) : Response * option Dashboard :=
  match user with
  | None => (Redirect R_login, None)
  | Some _ =>
      let ts := tags_qs db in
      (Render T_dashboard,
       Some (mkDashboard (merge_sort avg_before (place_stat db <$> map_to_list (Table.rows (places db))))
               ts (tag_label ∘ ts_tags <$> ts) (ts_count <$> ts) (ts_avg <$> ts)))
  end.

(** The sample of spec section 8: place 1 ("Espacio Urbano", tags
    "ascensor") with one report rated 4, place 2 ("Plaza", tags "rampa")
    with none, both at (-33.52, -70.77). *)
Definition spec_db : DB :=
  let db1 := match place_save 0 (Place.mk (lit "Plaza") [] (Some test_lat) (Some test_lng) (lit "rampa") 0)
                   demo_db with
             | inr (_, d) => d
             | inl _ => demo_db
             end in
  set_reports (λ t, (Table.insert (Report.mk 1 1 [] 4 [] None 0) t).2) db1.

(** Three reports on place 1 whose tag strings name the same tags in a
    different order, or none. *)
Definition tags_db : DB :=
  set_reports (λ t, (Table.insert (Report.mk 1 2 [] 5 [] None 2)
                       (Table.insert (Report.mk 1 1 [] 2 (lit "ascensor,rampa") None 1)
                          (Table.insert (Report.mk 1 1 [] 4 (lit "rampa,ascensor") None 0) t).2).2).2)
    demo_db.

(** ** Lemmas *)

#[export] Instance api_before_total : Total api_before.
Proof.
  intros x y. unfold api_before.
  destruct (lt_eq_lt_dec (ps_count x) (ps_count y)) as [[Hl|He]|Hl]; [by right; left|..|by left; left].
  destruct (text_leb_total (Place.name (ps_place x)) (Place.name (ps_place y))); [left|right]; right; auto.
Qed.

#[export] Instance api_before_trans : Transitive api_before.
Proof.
  intros x y z. unfold api_before. intros [?|[? ?]] [?|[? ?]]; try (left; lia).
  right. split; [lia|]. by eapply text_leb_trans.
Qed.

Lemma sum_Z_cons x xs : sum_Z (x :: xs) = (x + sum_Z xs)%Z.
Proof. done. Qed.

(** The mean of a non-empty list times its length is its sum. *)
Lemma mean_spec xs :
  (mean xs = None ↔ xs = []) ∧
  (∀ a, mean xs = Some a → (a * inject_Z (Z.of_nat (length xs)) == inject_Z (sum_Z xs))%Q).
Proof.
  destruct xs as [|x xs]; [split; [done|discriminate]|].
  split; [done|]. intros a [= <-]. cbn [length sum_Z foldr].
  rewrite Qmult_comm. apply Qmult_div_r. unfold inject_Z, Qeq. simpl. lia.
Qed.

Lemma length_reports_on p db : length (reports_on p db) = size (reports_of p db).
Proof. unfold reports_on, reports_of. by rewrite length_fmap, length_map_to_list, size_dom. Qed.

Lemma reports_on_elem p db r :
  r ∈ reports_on p db ↔ ∃ k, Table.rows (reports db) !! k = Some r ∧ Report.place r = p.
Proof.
  unfold reports_on. rewrite list_elem_of_fmap. setoid_rewrite elem_of_map_to_list'.
  setoid_rewrite map_lookup_filter_Some. split.
  - intros ([k r'] & -> & Hk & Hp). simpl in *. eauto.
  - intros (k & Hk & Hp). exists (k, r). eauto.
Qed.

(** Under the invariant every place has both coordinates. *)
Lemma api_row_wf db k p :
  wf db → Table.rows (places db) !! k = Some p → is_Some (api_row (place_stat db (k, p))).
Proof.
  intros Hwf Hk. destruct (wf_place_valid _ Hwf k p Hk) as (a & b & Ha & Hb & _).
  unfold api_row. simpl. rewrite Ha, Hb. by eexists.
Qed.

Lemma api_row_id s row : api_row s = Some row → api_id row = ps_id s.
Proof. unfold api_row. destruct (Place.lat (ps_place s)), (Place.lng (ps_place s)); intros; simplify_eq; done. Qed.

Lemma places_api_elem db q tg cm data row :
  places_api db GET q tg cm = Some data →
  row ∈ data ↔
    ∃ p, Table.rows (places db) !! api_id row = Some p ∧
         place_matches (strip (default [] q)) (tags_list (lower (strip (default [] tg)))) p = true ∧
         api_row (place_stat db (api_id row, p)) = Some row.
Proof.
  intros [= <-]. rewrite list_elem_of_omap. setoid_rewrite merge_sort_Permutation.
  setoid_rewrite list_elem_of_fmap. setoid_rewrite list_elem_of_filter.
  setoid_rewrite elem_of_map_to_list'. split.
  - intros (s & ([k p] & -> & Hm & Hk) & Hrow). simpl in *.
    rewrite (api_row_id _ _ Hrow). eauto.
  - intros (p & Hk & Hm & Hrow). eexists; split; [|exact Hrow]. by exists (api_id row, p).
Qed.

Lemma api_row_fields db k p row :
  api_row (place_stat db (k, p)) = Some row →
  api_id row = k ∧ api_name row = Place.name p ∧ api_address row = Place.address p ∧
  api_tags row = Place.tags p ∧ Place.lat p = Some (api_lat row) ∧ Place.lng p = Some (api_lng row) ∧
  api_count row = length (reports_on k db) ∧ api_avg row = mean (Report.rating <$> reports_on k db).
Proof.
  unfold api_row, place_stat. simpl.
  destruct (Place.lat p), (Place.lng p); intros; simplify_eq; simpl; by rewrite ?length_fmap.
Qed.

(** ** Properties of [places_api] *)

(** C37: on a consistent database, [GET /api/places/] lists every place
    that matches the [q] and [tags] filters, once, and nothing else; each
    row carries the place's fields, the number of its reports and their
    mean rating ([None] exactly when there is none, and otherwise the
    value whose product with the count is the sum of the ratings); the
    rows are ordered by decreasing count and then by name. *)
Theorem places_api_spec db q tg cm :
  wf db →
  let q' := strip (default [] q) in
  let tl := tags_list (lower (strip (default [] tg))) in
  ∃ data, places_api db GET q tg cm = Some data ∧
  (∀ k p, Table.rows (places db) !! k = Some p → place_matches q' tl p = true →
          ∃ row, row ∈ data ∧ api_id row = k) ∧
  (∀ row, row ∈ data → ∃ p,
     Table.rows (places db) !! api_id row = Some p ∧ place_matches q' tl p = true ∧
     api_name row = Place.name p ∧ api_address row = Place.address p ∧ api_tags row = Place.tags p ∧
     Place.lat p = Some (api_lat row) ∧ Place.lng p = Some (api_lng row) ∧
     api_count row = size (reports_of (api_id row) db) ∧
     (api_avg row = None ↔ api_count row = 0) ∧
     (∀ a, api_avg row = Some a →
        (a * inject_Z (Z.of_nat (api_count row)) ==
         inject_Z (sum_Z (Report.rating <$> reports_on (api_id row) db)))%Q)) ∧
  NoDup (api_id <$> data) ∧
  StronglySorted (λ x y, api_count y < api_count x ∨
                         (api_count x = api_count y ∧ text_leb (api_name x) (api_name y) = true)) data.
Proof.
  intros Hwf q' tl. eexists. split; [reflexivity|]. split_and!.
  - intros k p Hk Hm. destruct (api_row_wf db k p Hwf Hk) as [row Hrow].
    exists row. destruct (api_row_fields _ _ _ _ Hrow) as [Hid _].
    split; [|done]. eapply (places_api_elem db q tg cm); [reflexivity|]. rewrite Hid. eauto.
  - intros row Hin. eapply (places_api_elem db q tg cm) in Hin as (p & Hk & Hm & Hrow); [|reflexivity].
    destruct (api_row_fields _ _ _ _ Hrow) as (_ & ? & ? & ? & ? & ? & Hc & Ha).
    pose proof (mean_spec (Report.rating <$> reports_on (api_id row) db)) as [Hnone Hsum].
    exists p. rewrite Hc, Ha, length_fmap in *. rewrite <- length_reports_on.
    split_and!; try done.
    + rewrite Hnone, <- (length_fmap Report.rating), length_zero_iff_nil. done.
  - apply (NoDup_omap_key api_row ps_id api_id); [intros s row; apply api_row_id|].
    rewrite merge_sort_Permutation, <- list_fmap_compose.
    apply NoDup_fst_filter, NoDup_fst_map_to_list.
  - eapply StronglySorted_omap; [|apply StronglySorted_merge_sort; apply _].
    intros [k1 p1 a1 c1] [k2 p2 a2 c2] x y Hx Hy. unfold api_before. simpl.
    unfold api_row in Hx, Hy. simpl in *.
    destruct (Place.lat p1), (Place.lng p1), (Place.lat p2), (Place.lng p2); simplify_eq; done.
Qed.

(** the example of spec section 8: filtered by [tags=ascensor] the
    API answers exactly the first place with mean rating 4 and one report;
    filtered by [tags=rampa], exactly the second place with no mean
    ([null]) and no report. *)
Example places_api_spec_example :
  map (λ r, (api_id r, api_avg r, api_count r)) <$> places_api spec_db GET None (Some (lit "ascensor")) None
    = Some [(1, Some 4%Q, 1)] ∧
  map (λ r, (api_id r, api_avg r, api_count r)) <$> places_api spec_db GET None (Some (lit "rampa")) None
    = Some [(2, None, 0)].
Proof. vm_compute. split; reflexivity. Qed.

(** C38: the pieces of the [tags] parameter are not stripped, so a
    request for [tags=rampa, ascensor] (with the space a reader types
    after the comma) looks for " ascensor" and misses a place tagged
    exactly "ascensor". *)
Theorem places_api_tag_space db q k p data :
  Table.rows (places db) !! k = Some p → Place.tags p = lit "ascensor" →
  places_api db GET q (Some (lit "rampa, ascensor")) None = Some data →
  k ∉ api_id <$> data.
Proof.
  intros Hk Ht Hd (row & -> & Hrow)%list_elem_of_fmap.
  eapply places_api_elem in Hrow as (p' & Hk' & Hm & _); [|exact Hd].
  rewrite Hk in Hk'. injection Hk' as <-. unfold place_matches in Hm. rewrite Ht in Hm.
  apply andb_prop in Hm as [_ Hm]. vm_compute in Hm. discriminate.
Qed.

(** On the sample, with [tags=rampa, ascensor], only the place tagged
    "rampa" is listed, although the other is tagged "ascensor". *)
Lemma places_api_tag_space_witness :
  places_api spec_db GET None (Some (lit "rampa, ascensor")) None =
    Some [mkApiRow 2 (lit "Plaza") [] test_lat test_lng (lit "rampa") None 0] ∧
  1 ∉ api_id <$> [mkApiRow 2 (lit "Plaza") [] test_lat test_lng (lit "rampa") None 0].
Proof.
  split; [vm_compute; reflexivity|].
  apply (places_api_tag_space spec_db None 1 demo_place); vm_compute; reflexivity.
Defined.

(** ** Lemmas on the grouping *)

Lemma group_fold_lookup m rs t :
  foldl group_step m rs !! t =
    if bool_decide (filter (λ r, Report.tags r = t) rs = []) then m !! t
    else Some (default [] (m !! t) ++ (Report.rating <$> filter (λ r, Report.tags r = t) rs)).
Proof.
  revert m. induction rs as [|r rs IH]; intros m; simpl; [by try case_bool_decide|].
  rewrite IH, filter_cons. unfold group_step.
  destruct (decide (Report.tags r = t)) as [<-|Hne].
  - rewrite lookup_insert_eq, (bool_decide_false (_ :: _ = [])) by done. simpl.
    case_bool_decide as Hnil; [rewrite Hnil|]; simpl; by rewrite ?app_nil_r, <- ?app_assoc.
  - by rewrite lookup_insert_ne.
Qed.

Lemma group_by_tags_lookup rs t :
  group_by_tags rs !! t =
    if bool_decide (filter (λ r, Report.tags r = t) rs = []) then None
    else Some (Report.rating <$> filter (λ r, Report.tags r = t) rs).
Proof. unfold group_by_tags. rewrite group_fold_lookup, lookup_empty. by case_bool_decide. Qed.

(** Each step adds one rating to one group. *)
Lemma group_fold_total m rs :
  sum_list_with (length ∘ snd) (map_to_list (foldl group_step m rs)) =
  sum_list_with (length ∘ snd) (map_to_list m) + length rs.
Proof.
  revert m. induction rs as [|r rs IH]; intros m; simpl; [lia|]. rewrite IH. unfold group_step.
  destruct (m !! Report.tags r) as [v|] eqn:E; simpl.
  - rewrite <- (insert_delete_eq m), map_to_list_insert by apply lookup_delete_eq.
    rewrite <- (map_to_list_delete m _ _ E). simpl. rewrite length_app. simpl. lia.
  - rewrite map_to_list_insert by done. simpl. lia.
Qed.

#[export] Instance tag_before_total : Total tag_before.
Proof.
  intros x y. unfold tag_before.
  destruct (Q_dec (ts_avg x) (ts_avg y)) as [[Hl|Hl]|He]; [by left; left|by right; left|].
  destruct (text_leb_total (ts_tags x) (ts_tags y)); [left|right]; right; split; auto.
  by symmetry.
Qed.

#[export] Instance tag_before_trans : Transitive tag_before.
Proof.
  intros x y z. unfold tag_before. intros [Hxy|[Hxy Hxy']] [Hyz|[Hyz Hyz']].
  - left. by eapply Qlt_trans.
  - left. by rewrite <- Hyz.
  - left. by rewrite Hxy.
  - right. split; [by rewrite Hxy|]. by eapply text_leb_trans.
Qed.

Lemma all_reports_elem db r : r ∈ all_reports db ↔ ∃ k, Table.rows (reports db) !! k = Some r.
Proof.
  unfold all_reports. rewrite list_elem_of_fmap. setoid_rewrite elem_of_map_to_list'. split.
  - intros ([k r'] & -> & Hk). eauto.
  - intros (k & Hk). by exists (k, r).
Qed.

Lemma tags_qs_elem db g :
  g ∈ tags_qs db ↔ ∃ t, g = tag_stat (t, Report.rating <$> filter (λ r, Report.tags r = t) (all_reports db)) ∧
                         filter (λ r, Report.tags r = t) (all_reports db) ≠ [].
Proof.
  unfold tags_qs. rewrite merge_sort_Permutation, list_elem_of_fmap.
  setoid_rewrite elem_of_map_to_list'. setoid_rewrite group_by_tags_lookup. split.
  - intros ([t v] & -> & Hv). simpl in Hv. case_bool_decide; simplify_eq. eauto.
  - intros (t & -> & Hne). exists (t, Report.rating <$> filter (λ r, Report.tags r = t) (all_reports db)).
    split; [done|]. simpl. by rewrite bool_decide_false.
Qed.

(** ** Properties of [dashboard_view] *)

(** the per-tag statistics of the dashboard have one row per
    distinct [tags] string of the reports, and no other: each row counts
    the reports whose [tags] column is exactly that string, at least one,
    and its mean rating times that count is the sum of their ratings; the
    rows are ordered by mean rating and then by tag string. *)
Theorem tags_qs_spec db :
  (∀ g, g ∈ tags_qs db →
     let rs := filter (λ r, Report.tags r = ts_tags g) (all_reports db) in
     rs ≠ [] ∧ ts_count g = length rs ∧
     (ts_avg g * inject_Z (Z.of_nat (ts_count g)) == inject_Z (sum_Z (Report.rating <$> rs)))%Q) ∧
  (∀ k r, Table.rows (reports db) !! k = Some r → ∃ g, g ∈ tags_qs db ∧ ts_tags g = Report.tags r) ∧
  NoDup (ts_tags <$> tags_qs db) ∧
  StronglySorted tag_before (tags_qs db).
Proof.
  split_and!.
  - intros g (t & -> & Hne)%tags_qs_elem rs. subst rs. cbn [tag_stat ts_tags ts_count ts_avg fst snd].
    rewrite length_fmap. split_and!; [done|done|].
    destruct (mean_spec (Report.rating <$> filter (λ r, Report.tags r = t) (all_reports db))) as [_ Hs].
    destruct (mean _) as [a|] eqn:Ha.
    + simpl. rewrite <- (length_fmap Report.rating). by apply Hs.
    + by destruct (filter (λ r, Report.tags r = t) (all_reports db)).
  - intros k r Hk. eexists. split; [apply tags_qs_elem; eexists; split; [reflexivity|]|done].
    intros Hnil. assert (Hr : r ∈ filter (λ r', Report.tags r' = Report.tags r) (all_reports db))
      by (apply list_elem_of_filter; split; [done|apply all_reports_elem; eauto]).
    rewrite Hnil in Hr. by apply elem_of_nil in Hr.
  - unfold tags_qs. rewrite merge_sort_Permutation, <- list_fmap_compose.
    apply NoDup_fst_map_to_list.
  - apply StronglySorted_merge_sort; apply _.
Qed.

(** every report is counted in exactly one group: the counts of
    the per-tag statistics add up to the number of reports. *)
Theorem tag_counts_total db :
  sum_list_with ts_count (tags_qs db) = size (Table.rows (reports db)).
Proof.
  unfold tags_qs. rewrite merge_sort_Permutation, sum_list_with_fmap.
  unfold group_by_tags. rewrite group_fold_total, map_to_list_empty. simpl.
  unfold all_reports. by rewrite length_fmap, length_map_to_list.
Qed.

#[export] Instance avg_before_total : Total avg_before.
Proof.
  intros x y. unfold avg_before.
  destruct (ps_avg x) as [a|], (ps_avg y) as [b|]; auto using text_leb_total.
  destruct (Q_dec a b) as [[Hl|Hl]|He]; [by right; left|by left; left|].
  destruct (text_leb_total (Place.name (ps_place x)) (Place.name (ps_place y))); [left|right]; right;
    split; auto. by symmetry.
Qed.

#[export] Instance avg_before_trans : Transitive avg_before.
Proof.
  intros x y z. unfold avg_before.
  destruct (ps_avg x) as [a|], (ps_avg y) as [b|], (ps_avg z) as [c|]; try tauto;
    [|apply text_leb_trans].
  intros [H1|[H1 H1']] [H2|[H2 H2']].
  - left. by eapply Qlt_trans.
  - left. by rewrite <- H2.
  - left. by rewrite H1.
  - right. split; [by rewrite H1|]. by eapply text_leb_trans.
Qed.

Lemma place_stat_elem db s :
  s ∈ place_stat db <$> map_to_list (Table.rows (places db)) ↔
  ∃ k p, Table.rows (places db) !! k = Some p ∧ s = place_stat db (k, p).
Proof.
  rewrite list_elem_of_fmap. setoid_rewrite elem_of_map_to_list'. split.
  - intros ([k p] & -> & Hk). eauto.
  - intros (k & p & Hk & ->). by exists (k, p).
Qed.

(** *** Bounds on the averages *)

Lemma sum_Z_bounds lo hi xs :
  Forall (λ x, lo ≤ x ≤ hi)%Z xs →
  (lo * Z.of_nat (length xs) ≤ sum_Z xs ≤ hi * Z.of_nat (length xs))%Z.
Proof. induction 1; cbn [length]; rewrite ?sum_Z_cons, ?Nat2Z.inj_succ; simpl; lia. Qed.

(** A mean of values in [lo, hi] lies in [lo, hi]. *)
Lemma mean_bounds lo hi xs a :
  Forall (λ x, lo ≤ x ≤ hi)%Z xs → mean xs = Some a → (inject_Z lo <= a <= inject_Z hi)%Q.
Proof.
  intros Hall Ha. pose proof (proj2 (mean_spec xs) a Ha) as Hs.
  destruct (sum_Z_bounds lo hi xs Hall) as [Hlo Hhi].
  assert (Hn : (0 < inject_Z (Z.of_nat (length xs)))%Q).
  { destruct xs; [done|]. unfold Qlt. simpl. lia. }
  split; apply (Qmult_le_r _ _ _ Hn); rewrite Hs, <- inject_Z_mult; by rewrite <- Zle_Qle.
Qed.

(** The ratings of the reports, all within [lo, hi]. *)
Definition ratings_within (lo hi : Z) (db : DB) : Prop :=
  ∀ k r, Table.rows (reports db) !! k = Some r → (lo ≤ Report.rating r ≤ hi)%Z.

Lemma place_stat_avg_bounds lo hi db kv a :
  ratings_within lo hi db → ps_avg (place_stat db kv) = Some a → (inject_Z lo <= a <= inject_Z hi)%Q.
Proof.
  intros Hr. apply mean_bounds, Forall_forall.
  intros x (r & -> & (k & Hk & _)%reports_on_elem)%list_elem_of_fmap. by eapply Hr.
Qed.

Lemma tag_stat_avg_bounds lo hi db g :
  ratings_within lo hi db → g ∈ tags_qs db → (inject_Z lo <= ts_avg g <= inject_Z hi)%Q.
Proof.
  intros Hr (t & -> & Hne)%tags_qs_elem. cbn [tag_stat ts_avg snd].
  destruct (mean _) as [a|] eqn:Ha.
  - simpl. eapply mean_bounds; [|exact Ha]. apply Forall_forall.
    intros x (r & -> & [_ Hin]%list_elem_of_filter)%list_elem_of_fmap.
    apply all_reports_elem in Hin as [k Hk]. by eapply Hr.
  - apply (proj1 (mean_spec _)), fmap_nil_inv in Ha. done.
Qed.

(** the per-place statistics of the dashboard list every place
    once, with its number of reports and their mean rating, ordered by
    decreasing mean, then by name, with the places without reports last. *)
Theorem dashboard_places_stats db u :
  ∃ d, dashboard_view db (Some u) = (Render T_dashboard, Some d) ∧
  (∀ s, s ∈ places_stats d ↔ ∃ k p, Table.rows (places db) !! k = Some p ∧ s = place_stat db (k, p)) ∧
  (∀ s, s ∈ places_stats d → ps_count s = size (reports_of (ps_id s) db) ∧
     (ps_avg s = None ↔ ps_count s = 0) ∧
     (∀ a, ps_avg s = Some a →
        (a * inject_Z (Z.of_nat (ps_count s)) ==
         inject_Z (sum_Z (Report.rating <$> reports_on (ps_id s) db)))%Q)) ∧
  NoDup (ps_id <$> places_stats d) ∧ StronglySorted avg_before (places_stats d).
Proof.
  eexists. split; [reflexivity|]. cbn [places_stats].
  assert (Helem : ∀ s, s ∈ merge_sort avg_before (place_stat db <$> map_to_list (Table.rows (places db))) ↔
                       ∃ k p, Table.rows (places db) !! k = Some p ∧ s = place_stat db (k, p))
    by (intros s; by rewrite merge_sort_Permutation, place_stat_elem).
  split_and!; [done| | |apply StronglySorted_merge_sort; apply _].
  - intros s (k & p & Hk & ->)%Helem. cbn [place_stat ps_id ps_avg ps_count fst snd].
    pose proof (mean_spec (Report.rating <$> reports_on k db)) as [Hn Hs].
    split_and!.
    + by rewrite length_fmap, length_reports_on.
    + by rewrite Hn, <- length_zero_iff_nil.
    + exact Hs.
  - rewrite merge_sort_Permutation, <- list_fmap_compose. apply NoDup_fst_map_to_list.
Qed.

(** the dashboard groups by the literal tag string, as the spec
    prescribes (design notes, section 9) and not per tag as the view's
    docstring says: "rampa,ascensor" and "ascensor,rampa" are two groups,
    and the reports without tags form the group labelled "Sin tag". *)
Example dashboard_literal_groups :
  match dashboard_view tags_db (Some 1) with
  | (_, Some d) => (tag_labels d, tag_counts d, tag_avg_ratings d)
  | _ => ([], [], [])
  end = ([lit "ascensor,rampa"; lit "rampa,ascensor"; lit "Sin tag"], [1; 1; 1], [2%Q; 4%Q; 5%Q]).
Proof. vm_compute. reflexivity. Qed.

Lemma spec_db_wf : wf spec_db.
Proof.
  unfold spec_db. pose proof demo_db_wf as Hw.
  assert (H1 : row_in (places demo_db) 1) by (vm_compute; eauto).
  assert (H2 : row_in (users demo_db) 1) by (vm_compute; eauto).
  destruct (place_save 0 _ demo_db) as [es|[k db1]] eqn:E; [by apply insert_report_wf|].
  destruct (place_save_keeps _ _ _ _ _ E) as [Hu Hp].
  apply insert_report_wf; [by eapply place_save_wf|auto|simpl; by rewrite Hu].
Qed.

Lemma places_api_spec_witness :
  let q' := strip (default [] None) in
  let tl := tags_list (lower (strip (default [] (Some (lit "ascensor"))))) in
  ∃ data, places_api spec_db GET None (Some (lit "ascensor")) None = Some data ∧
  (∀ k p, Table.rows (places spec_db) !! k = Some p → place_matches q' tl p = true →
          ∃ row, row ∈ data ∧ api_id row = k) ∧
  (∀ row, row ∈ data → ∃ p,
     Table.rows (places spec_db) !! api_id row = Some p ∧ place_matches q' tl p = true ∧
     api_name row = Place.name p ∧ api_address row = Place.address p ∧ api_tags row = Place.tags p ∧
     Place.lat p = Some (api_lat row) ∧ Place.lng p = Some (api_lng row) ∧
     api_count row = size (reports_of (api_id row) spec_db) ∧
     (api_avg row = None ↔ api_count row = 0) ∧
     (∀ a, api_avg row = Some a →
        (a * inject_Z (Z.of_nat (api_count row)) ==
         inject_Z (sum_Z (Report.rating <$> reports_on (api_id row) spec_db)))%Q)) ∧
  NoDup (api_id <$> data) ∧
  StronglySorted (λ x y, api_count y < api_count x ∨
                         (api_count x = api_count y ∧ text_leb (api_name x) (api_name y) = true)) data.
Proof. apply places_api_spec, spec_db_wf. Defined.
