(* ===== verification/Templatetags.v ===== *)
(** * Templatetags: [star_row], [split_tags] ([src/core/templatetags/stars.py])
      and [active] ([src/core/templatetags/nav_active.py])

    [star_row value max_stars] converts [value] with Python's [int()],
    falling back to 0 when the conversion raises, clamps it into
    [0, max_stars] and returns that many filled stars followed by the
    empty ones.  The values the templates pass are integers (a report's
    rating), floats or [None] (a place's mean rating) and strings, which
    [PyValue] lists; [int()] truncates a float toward zero and parses a
    string as an optional sign and decimal digits, with single
    underscores between digits, inside whitespace.  Digits other than the
    ASCII ones, which Python also accepts, are not modelled.

    [split_tags] splits a tag string on commas, strips the pieces and
    drops the empty ones.  [active] compares the name of the current
    route with its argument. *)

From Stdlib Require Import QArith.
From S2P Require Import Prelude Text Forms.

(** ** [int()] *)

Inductive PyValue := PInt (z : Z) | PFloat (q : Q) | PStr (s : text) | PNone.

Definition py_int (v : PyValue) : option Z :=
  match v with
  | PInt z => Some z
  | PFloat q => Some (Z.quot (Qnum q) (Zpos (Qden q)))
  | PStr s => py_int_str s
  | PNone => None
  end.

(** ** The tags *)

Definition STAR_FILLED : N := 9733%N.   (** U+2605 BLACK STAR *)
Definition STAR_EMPTY : N := 9734%N.    (** U+2606 WHITE STAR *)

Definition star_row (value : PyValue) (max_stars : Z) : text :=
  let v := Z.max 0 (Z.min (default 0%Z (py_int value)) max_stars) in
  repeat STAR_FILLED (Z.to_nat v) ++ repeat STAR_EMPTY (Z.to_nat (max_stars - v)).

(** [split_tags(s)] for a [str] or [None]. *)
Definition split_tags (s : option text) : list text :=
  match s with
  | Some s => if truthy s then filter (λ x, x ≠ []) (map strip (split_on comma s)) else []
  | None => []
  end.

(** [active(context, url_name)]: [current] is the name of the route being
    served, [None] when the context has no resolved request (the
    [except] branch). *)
Definition active (current : option text) (url_name : text) : text :=
  match current with
  | Some c => if bool_decide (c = url_name) then lit "is-active" else []
  | None => []
  end.

(** ** Properties *)

(** for a non-negative [max_stars], [star_row] always draws exactly
    [max_stars] stars: first the filled ones, as many as the integer value
    of [value] clamped into [0, max_stars] (0 when [int()] raises), then
    the empty ones. *)
Theorem star_row_spec value m :
  (0 ≤ m)%Z →
  let k := Z.max 0 (Z.min (default 0%Z (py_int value)) m) in
  (0 ≤ k ≤ m)%Z ∧ length (star_row value m) = Z.to_nat m ∧
  star_row value m = repeat STAR_FILLED (Z.to_nat k) ++ repeat STAR_EMPTY (Z.to_nat (m - k)) ∧
  (∀ z, py_int value = Some z → (0 ≤ z ≤ m)%Z → k = z) ∧
  (py_int value = None → k = 0%Z).
Proof.
  intros Hm k. subst k. split_and!.
  - lia.
  - lia.
  - unfold star_row. rewrite length_app, !repeat_length. lia.
  - done.
  - intros z -> Hz. simpl. lia.
  - intros ->. simpl. lia.
Qed.

(** A negative [max_stars] draws nothing. *)
Lemma star_row_negative value m : (m < 0)%Z → star_row value m = [].
Proof.
  intros Hm. unfold star_row.
  rewrite (Z2Nat.nonpos (Z.max _ _)) by lia. rewrite (Z2Nat.nonpos (m - _)) by lia. done.
Qed.

(** [split_tags] shows exactly the tags the report form stored: for
    a non-empty selection of valid choices, splitting the string that
    [ReportForm.clean_tags] joined gives the selection back. *)
Theorem split_tags_clean_tags tags :
  tags ≠ [] → Forall (λ t, t ∈ TAGS_CHOICES) tags → split_tags (Some (clean_tags tags)) = tags.
Proof.
  intros Hne Hall. unfold split_tags.
  destruct (clean_tags_split tags Hne Hall) as [-> ->]. by apply strip_choices_id.
Qed.

(** [ReportForm.__init__] pre-selects the valid choices among the pieces
    [split_tags] shows. *)
Lemma initial_tags_split_tags s :
  initial_tags s = filter (λ t, t ∈ TAGS_CHOICES) (split_tags (Some s)).
Proof. unfold initial_tags, split_tags. by destruct (truthy s). Qed.

(** ** Witnesses *)

(** A mean rating of 3.7 draws three filled stars out of five. *)
Lemma star_row_spec_witness :
  (0 ≤ 5)%Z ∧
  let k := Z.max 0 (Z.min (default 0%Z (py_int (PFloat (37 # 10)))) 5) in
  (0 ≤ k ≤ 5)%Z ∧ length (star_row (PFloat (37 # 10)) 5) = Z.to_nat 5 ∧
  star_row (PFloat (37 # 10)) 5 = repeat STAR_FILLED (Z.to_nat k) ++ repeat STAR_EMPTY (Z.to_nat (5 - k)) ∧
  (∀ z, py_int (PFloat (37 # 10)) = Some z → (0 ≤ z ≤ 5)%Z → k = z) ∧
  (py_int (PFloat (37 # 10)) = None → k = 0%Z).
Proof. split; [lia|]. apply star_row_spec. lia. Defined.

Lemma split_tags_clean_tags_witness :
  split_tags (Some (clean_tags [lit "bano"; lit "estacionamiento"])) = [lit "bano"; lit "estacionamiento"].
Proof. apply split_tags_clean_tags; [discriminate|repeat constructor; vm_compute; set_solver]. Defined.

Example star_row_values :
  star_row (PStr (lit " 4 ")) 5 = repeat STAR_FILLED 4 ++ repeat STAR_EMPTY 1 ∧
  star_row PNone 5 = repeat STAR_EMPTY 5 ∧
  star_row (PInt 9) 5 = repeat STAR_FILLED 5 ∧
  star_row (PStr (lit "tres")) 5 = repeat STAR_EMPTY 5.
Proof. vm_compute. split_and!; reflexivity. Qed.
