(* ===== verification/Accounts.v ===== *)
(** * Accounts: [SignupForm] (forms.py, lines 9-71), [UserForm] and
      [ProfileForm] (lines 149-185), [signup_view] and [profile_view]
      (views.py, lines 365-420)

    [SignupForm] cleans each field as Django does (a [CharField] strips
    its value, then checks [required], then runs its validators, all of
    them), rejects an e-mail address registered already
    ([clean_email]: case-insensitive, after [strip().lower()]), and
    [save] stores the address lower-cased and the names with their
    whitespace collapsed and title-cased, before [User.save] creates the
    profile.  [profile_view] gets or creates the profile, and on a valid
    POST saves [UserForm] (first name, last name, e-mail) and
    [ProfileForm] (avatar, bio).

    Django's own validators are parameters of the Section [Signup]: the
    [EmailValidator] ([email_ok]), the username checks of
    [UserCreationForm] ([username_ok], its validator and uniqueness) and
    the password checks ([password_ok]: the two entries match and pass
    the configured validators).  The theorems hold for every choice of
    them.  [__iexact] is SQLite's [LIKE] (the database of the model, as
    in Stats.v), which ignores the case of ASCII letters only
    ([Text.ascii_lower]).

    [title] is Python's [str.title] on the alphabet that the validator
    [only_letters_spaces] admits ([A-Za-z], U+00C0-U+00FF, whitespace):
    the first cased character of each word gets its title case, the
    others their lower case; ß (U+00DF) title-cases to "Ss" and ÿ
    (U+00FF) to Ÿ (U+0178). *)

From S2P Require Import Prelude Text Geofence Models Http.

(** ** [str.title()] *)

Definition is_cased (c : N) : bool :=
  ((65 <=? c)%N && (c <=? 90)%N) || ((97 <=? c)%N && (c <=? 122)%N)
  || ((192 <=? c)%N && (c <=? 255)%N && negb (c =? 215)%N && negb (c =? 247)%N)
  || (c =? 376)%N.

(** The title case of a cased character, as a string. *)
Definition title_char (c : N) : text :=
  if ((97 <=? c)%N && (c <=? 122)%N) || ((224 <=? c)%N && (c <=? 254)%N && negb (c =? 247)%N)
  then [(c - 32)%N]
  else if (c =? 223)%N then [83%N; 115%N]
  else if (c =? 255)%N then [376%N]
  else [c].

Definition lower_cased (c : N) : N := if (c =? 376)%N then 255%N else lower_char c.

(** [prev] says whether the previous character was cased. *)
Fixpoint title_aux (prev : bool) (s : text) : text :=
  match s with
  | [] => []
  | c :: r =>
      if is_cased c then
        (if prev then [lower_cased c] else title_char c) ++ title_aux true r
      else c :: title_aux false r
  end.

Definition title (s : text) : text := title_aux false s.

(** [' '.join(s.split()).title()] *)
Definition normalize_name (s : text) : text := title (join 32%N (split_ws s)).

(** [only_letters_spaces = RegexValidator(r'^[A-Za-zÀ-ÿñÑ\s]+$')] *)
Definition letter_or_space (c : N) : bool :=
  ((65 <=? c)%N && (c <=? 90)%N) || ((97 <=? c)%N && (c <=? 122)%N)
  || ((192 <=? c)%N && (c <=? 255)%N) || isspace c.

Definition only_letters_spaces (v : text) : bool := bool_decide (v ≠ []) && forallb letter_or_space v.

(** [forms.EmailField] and [clean_email]: the address, stripped and
    lower-cased, must not be registered under any case. *)
Definition email_taken (db : DB) (e : text) : bool :=
  existsb (λ kv, bool_decide (ascii_lower (User.email kv.2) = ascii_lower e))
    (map_to_list (Table.rows (users db))).

Section Signup.
  Variable email_ok : text → bool.
  Variable username_ok : DB → text → bool.
  Variable password_ok : text → text → bool.

Record SignupInput := mkSignupInput {
  su_username : text;
  su_first_name : text;
  su_last_name : text;
  su_email : text;
  su_password1 : text;
  su_password2 : text
}.

(** A [CharField(max_length=m)] with [only_letters_spaces] and
    [required=True]: strip, then the required check, then every
    validator, the field's own before the [MaxLengthValidator] that
    [CharField.__init__] appends. *)
Definition clean_name_field (f : Field) (m : nat) (v : text) : Errors :=
  let v := strip v in
  if bool_decide (v = []) then [(f, E_blank)]
  else (if only_letters_spaces v then [] else [(f, E_invalid)]) ++
       (if (m <? length v)%nat then [(f, E_max_length m)] else []).

Definition clean_email_field (db : DB) (v : text) : Errors :=
  let v := strip v in
  if bool_decide (v = []) then [(F_email, E_blank)]
  else if negb (email_ok v) then [(F_email, E_invalid)]
  else if email_taken db (lower (strip v)) then [(F_email, E_taken)]
  else [].

Definition signup_errors (db : DB) (i : SignupInput) : Errors :=
  (if username_ok db (strip (su_username i)) then [] else [(F_username, E_invalid)]) ++
  clean_name_field F_first_name 30 (su_first_name i) ++
  clean_name_field F_last_name 150 (su_last_name i) ++
  clean_email_field db (su_email i) ++
  (if password_ok (su_password1 i) (su_password2 i) then [] else [(F_password, E_invalid)]).

(** [cleaned_data['email']] after [clean_email]. *)
Definition cleaned_email (i : SignupInput) : text := lower (strip (strip (su_email i))).

(** [SignupForm.save()]: the user row it writes. *)
Definition signup_user (i : SignupInput) : User.t :=
  User.mk (strip (su_username i)) (lower (strip (cleaned_email i)))
    (normalize_name (strip (su_first_name i))) (normalize_name (strip (su_last_name i))).

(** [signup_view]: the outcome and the user logged in afterwards. *)
Definition signup_view (db : DB) (m : Method) (user : option nat) (i : SignupInput) : Outcome * option nat :=
  match user with
  | Some u => (unchanged (Redirect R_home) db, Some u)
  | None =>
      match m with
      | GET => (unchanged (Render T_signup) db, None)
      | POST =>
          match signup_errors db i with
          | [] =>
              let '(k, db') := create_user (signup_user i) db in
              (mkOutcome (Redirect R_home) [mkFlash L_success [] (lit "¡Cuenta creada! Bienvenido/a a IncluiMap.")] db',
               Some k)
          | _ => (mkOutcome (Render T_signup) [mkFlash L_error [] (lit "Revisa los campos marcados.")] db, None)
          end
      end
  end.

(** What [profile_view] receives: the [UserForm] and [ProfileForm]
    fields ([avatar] is the name of a new upload, if any). *)
Record ProfileInput := mkProfileInput {
  pi_first_name : text;
  pi_last_name : text;
  pi_email : text;
  pi_avatar : option text;
  pi_bio : text
}.

(** [UserForm]: the model fields [first_name] and [last_name]
    ([max_length=150, blank=True]) and [email] ([EmailField], blank
    allowed, [max_length=254]); no uniqueness check. *)
Definition user_form_errors (i : ProfileInput) : Errors :=
  (if (150 <? length (strip (pi_first_name i)))%nat then [(F_first_name, E_max_length 150)] else []) ++
  (if (150 <? length (strip (pi_last_name i)))%nat then [(F_last_name, E_max_length 150)] else []) ++
  (let e := strip (pi_email i) in
   if bool_decide (e = []) then []
   else (if (254 <? length e)%nat then [(F_email, E_max_length 254)] else []) ++
        (if email_ok e then [] else [(F_email, E_invalid)])).

Definition profile_view (db : DB) (m : Method) (user : option nat) (i : ProfileInput) : Outcome :=
  match user with
  | None => unchanged (Redirect R_login) db
  | Some u =>
      let '(prof, db1) := get_or_create_profile u db in
      match m with
      | GET => unchanged (Render T_profile) db1
      | POST =>
          match Table.rows (users db1) !! u, user_form_errors i with
          | Some usr, [] =>
              let usr' := User.mk (User.username usr) (strip (pi_email i))
                            (strip (pi_first_name i)) (strip (pi_last_name i)) in
              let db2 := save_user u usr' db1 in
              let prof' := Profile.mk (match pi_avatar i with Some a => Some a | None => Profile.avatar prof end)
                             (strip (pi_bio i)) (Profile.favorite_places prof) in
              mkOutcome (Redirect R_profile)
                [mkFlash L_success (lit "profile") (lit "Perfil actualizado correctamente.")]
                (set_profiles (λ ps, <[u := prof']> ps) db2)
          | _, _ =>
              mkOutcome (Render T_profile)
                [mkFlash L_error (lit "profile") (lit "Revisa los campos marcados.")] db1
          end
      end
  end.

End Signup.

(** No two accounts share an e-mail address, compared as [__iexact]
    compares (empty addresses apart). *)
Definition email_unique (db : DB) : Prop :=
  ∀ k1 k2 u1 u2, Table.rows (users db) !! k1 = Some u1 → Table.rows (users db) !! k2 = Some u2 →
    k1 ≠ k2 → User.email u1 ≠ [] → ascii_lower (User.email u1) ≠ ascii_lower (User.email u2).

(** ** Sample validators

    Validators for the examples: an address needs an "@", a username
    must be free and non-empty, the two passwords must match and have 8
    characters at least. *)
Definition demo_email_ok (e : text) : bool := bool_decide (64%N ∈ e).
Definition demo_username_ok (db : DB) (u : text) : bool :=
  bool_decide (u ≠ []) &&
  negb (existsb (λ kv, bool_decide (User.username kv.2 = u)) (map_to_list (Table.rows (users db)))).
Definition demo_password_ok (p1 p2 : text) : bool := bool_decide (p1 = p2) && (8 <=? length p1)%nat.

Definition demo_signup : SignupInput :=
  mkSignupInput (lit "maria") (lit "  maría   josé ") (lit "pérez") (lit " Maria@Test.CL ")
    (lit "secreto123") (lit "secreto123").

(** ** Lemmas *)

Lemma email_taken_false db e :
  email_taken db e = false ↔
  ∀ k usr, Table.rows (users db) !! k = Some usr → ascii_lower (User.email usr) ≠ ascii_lower e.
Proof.
  unfold email_taken. rewrite <- not_true_iff_false, existsb_exists. split.
  - intros Hn k usr Hk He. apply Hn. exists (k, usr).
    split; [apply list_elem_of_In, elem_of_map_to_list, Hk|by apply bool_decide_eq_true].
  - intros Hall ([k usr] & Hin & He). apply list_elem_of_In, elem_of_map_to_list in Hin.
    apply bool_decide_eq_true in He. by apply (Hall k usr).
Qed.

Section SignupLemmas.
  Context (email_ok : text → bool) (username_ok : DB → text → bool) (password_ok : text → text → bool).

Lemma signup_errors_nil db i :
    signup_errors email_ok username_ok password_ok db i = [] →
    strip (su_email i) ≠ [] ∧ email_taken db (lower (strip (strip (su_email i)))) = false.
  Proof.
    unfold signup_errors. rewrite !app_nil. intros (_ & _ & _ & He & _).
    unfold clean_email_field in He. case_bool_decide as Hnil; [discriminate|].
    destruct (negb (email_ok _)); [discriminate|]. split; [done|].
    by destruct (email_taken _ _).
  Qed.

End SignupLemmas.

(** The address [save] stores is the stripped, lower-cased entry. *)
Lemma signup_user_email i : User.email (signup_user i) = lower (strip (su_email i)).
Proof. simpl. unfold cleaned_email. by rewrite strip_lower, !strip_idem, lower_idem. Qed.

(** Saving the profile page keeps the database consistent: the user's
    row is updated in place and the profile keeps its favourites. *)
Lemma profile_view_wf email_ok db m u i :
  wf db → row_in (users db) u → wf (state (profile_view email_ok db m (Some u) i)).
Proof.
  intros Hwf Hu. unfold profile_view.
  pose proof (get_or_create_noop u db Hwf Hu) as Hnoop. pose proof (get_or_create_lookup u db) as Hl.
  destruct (get_or_create_profile u db) as [prof db1] eqn:E. simpl in Hnoop, Hl. subst db1.
  destruct m; [done|]. destruct (Table.rows (users db) !! u) as [usr|]; [|done].
  destruct (user_form_errors _ i); [|done]. cbn [state]. unfold save_user.
  set (usr' := User.mk _ _ _ _).
  assert (Hw1 : wf (set_users (Table.update u usr') db)) by (by apply update_user_wf).
  assert (Hu1 : row_in (users (set_users (Table.update u usr') db)) u)
    by (simpl_db; by rewrite table_row_in_update).
  rewrite (get_or_create_noop u _ Hw1 Hu1). apply profile_insert_wf; [done|done|].
  simpl_db. cbn [Profile.favorite_places]. by apply (wf_favorites _ Hwf u).
Qed.

(** ** Properties of the account views *)

(** C12: a valid signup creates one account under a fresh key, with the
    e-mail address stripped and lower-cased and a profile of its own,
    logs the new user in and keeps the database consistent; and no two
    accounts then share an e-mail address under [__iexact] if none did
    before. *)
Theorem signup_view_creates email_ok username_ok password_ok db i :
  wf db → signup_errors email_ok username_ok password_ok db i = [] →
  let '(o, logged) := signup_view email_ok username_ok password_ok db POST None i in
  ∃ k, logged = Some k ∧ Table.rows (users db) !! k = None ∧
       Table.rows (users (state o)) !! k = Some (signup_user i) ∧
       User.email (signup_user i) = lower (strip (su_email i)) ∧
       profiles (state o) !! k = Some Profile.empty ∧ wf (state o) ∧
       response o = Redirect R_home ∧
       (email_unique db → email_unique (state o)).
Proof.
  intros Hwf Herr. destruct (signup_errors_nil _ _ _ _ _ Herr) as [Hne Htaken].
  unfold signup_view. rewrite Herr.
  destruct (create_user (signup_user i) db) as [k db'] eqn:Ec.
  pose proof (create_user_wf (signup_user i) db Hwf) as Hw. rewrite Ec in Hw.
  unfold create_user in Ec. apply pair_equal_spec in Ec as [<- <-]. cbn [state response].
  simpl_db. rewrite table_insert_key.
  pose proof (table_insert_fresh _ (wf_users _ Hwf)) as Hfresh.
  exists (Table.next_id (users db)). split_and!; try done.
  - apply table_insert_lookup_eq.
  - apply signup_user_email.
  - by rewrite lookup_insert_eq.
  - intros Hu k1 k2 u1 u2. simpl_db. rewrite !table_insert_lookup.
    rewrite email_taken_false, strip_idem in Htaken.
    case_decide as E1; case_decide as E2; intros H1 H2 Hk12 He; simplify_eq;
      rewrite ?signup_user_email, ?lower_idem;
      first [done | intros Heq; apply (Htaken k2 u2 H2); by symmetry
            | by apply (Htaken k1 u1 H1) | by apply (Hu k1 k2 u1 u2)].
Qed.

(** C31: [UserForm] neither normalises nor checks the e-mail address:
    a user who enters the address of another account on the profile page
    gets it saved, and two accounts then share an address, which
    [SignupForm.clean_email] exists to prevent. *)
Theorem profile_view_duplicate_email email_ok db u v usr vv i :
  Table.rows (users db) !! u = Some usr → Table.rows (users db) !! v = Some vv → u ≠ v →
  User.email vv ≠ [] → strip (pi_email i) = User.email vv → user_form_errors email_ok i = [] →
  let st := state (profile_view email_ok db POST (Some u) i) in
  (∃ w, Table.rows (users st) !! u = Some w ∧ Table.rows (users st) !! v = Some vv ∧
        User.email w = User.email vv) ∧
  ¬ email_unique st.
Proof.
  intros Hu Hv Huv Hne He Hf st.
  set (w := User.mk (User.username usr) (strip (pi_email i)) (strip (pi_first_name i)) (strip (pi_last_name i))).
  assert (Hst : Table.rows (users st) = <[u := w]> (Table.rows (users db))).
  { subst st. unfold profile_view.
    destruct (get_or_create_profile u db) as [prof db1] eqn:Eg.
    assert (Hus : users db1 = users db) by (rewrite <- (get_or_create_users u db), Eg; done).
    rewrite Hus, Hu, Hf. cbn [state]. simpl_db. unfold save_user. rewrite get_or_create_users.
    simpl_db. by rewrite Hus. }
  rewrite Hst, lookup_insert_eq, lookup_insert_ne by done.
  split; [by eexists|]. intros Huniq.
  apply (Huniq v u vv w); rewrite ?Hst, ?lookup_insert_eq, ?lookup_insert_ne; try done.
  simpl. by rewrite He.
Qed.

(** ** Witnesses *)

Lemma signup_view_creates_witness :
  let '(o, logged) := signup_view demo_email_ok demo_username_ok demo_password_ok demo_db POST None demo_signup in
  ∃ k, logged = Some k ∧ Table.rows (users demo_db) !! k = None ∧
       Table.rows (users (state o)) !! k = Some (signup_user demo_signup) ∧
       User.email (signup_user demo_signup) = lower (strip (su_email demo_signup)) ∧
       profiles (state o) !! k = Some Profile.empty ∧ wf (state o) ∧
       response o = Redirect R_home ∧
       (email_unique demo_db → email_unique (state o)).
Proof. apply signup_view_creates; [apply demo_db_wf|vm_compute; reflexivity]. Defined.

(** User 1 of the sample database saves the address of user 2 on the
    profile page. *)
Lemma profile_view_duplicate_email_witness :
  let st := state (profile_view demo_email_ok demo_db POST (Some 1)
                     (mkProfileInput [] [] (lit " ignacio@test.com") None [])) in
  (∃ w, Table.rows (users st) !! 1 = Some w ∧
        Table.rows (users st) !! 2 = Some (User.mk (lit "ignacio") (lit "ignacio@test.com") [] []) ∧
        User.email w = lit "ignacio@test.com") ∧
  ¬ email_unique st.
Proof.
  apply (profile_view_duplicate_email demo_email_ok demo_db 1 2
           (User.mk (lit "levis") [] [] []) (User.mk (lit "ignacio") (lit "ignacio@test.com") [] []));
    vm_compute; try reflexivity; discriminate.
Defined.

(** The names [save] stores: whitespace collapsed, words title-cased. *)
Example signup_names :
  User.first_name (signup_user demo_signup) = lit "María José" ∧
  User.email (signup_user demo_signup) = lit "maria@test.cl".
Proof. vm_compute. split; reflexivity. Qed.
