(* ===== verification/System.v ===== *)
(** * System: the application as a transition system

    [step db db'] holds when one request or one save takes the database
    [db] to [db']: a signup ([User.save] with its profile receiver), a
    [Place.save] (the admin or any code path: it always runs
    [full_clean]), the deletion of a place or of a user with its cascade
    (the admin's pages), the views of [src/core/views.py] that write
    (report creation, edition and deletion, comments, the favourite
    toggle, the notification page, the profile page, and [places_view]
    and [favorites_view], whose [get_or_create] may write) as a
    logged-in, existing user sends them with any method and parameters,
    and [contact_view] for anyone, which only adds to the outbox.  The
    other views only read, and the requests of anonymous visitors to the
    views above change nothing ([login_required] and the checks of
    [report_detail]).  The Django validators of [profile_view], the
    transport and the contact address are variables of the Section.

    [inv] collects what every reachable database satisfies: the
    integrity invariant [wf]; every report rated from 1 to 5 (the bound
    is enforced by the form only, spec section 9, so this is a property of
    the request paths); every comment non-empty and stripped; and no user
    notified about a report of their own.  [reachable_inv] proves it by
    induction on the steps from the empty database. *)

From Stdlib Require Import QArith.
From S2P Require Import Prelude Text Geofence Models Http Favorites Notify Forms Reports Listing Contact Comments Inbox Stats Accounts.

Section System.
  Context `{MailTransport}.
  Variable email_ok : text → bool.
  Variables (CONTACT_EMAIL : option text) (DEFAULT_FROM_EMAIL : text).

Inductive step : DB → DB → Prop :=
  | step_signup db usr : step db (create_user usr db).2
  | step_place db now p k db' : place_save now p db = inr (k, db') → step db db'
  | step_delete_place db p : step db (delete_place p db)
  | step_toggle db m u p pn gn :
      row_in (users db) u → step db (state (toggle_favorite_place db m (Some u) p pn gn))
  | step_report db now m u i :
      row_in (users db) u → step db (state (report_view now db m (Some u) i))
  | step_edit db now m u pk i :
      row_in (users db) u → step db (state (report_edit_view now db m (Some u) pk i))
  | step_delete db m u pk :
      row_in (users db) u → step db (state (report_delete_view db m (Some u) pk))
  | step_comment db now m u pk t :
      row_in (users db) u → step db (state (report_detail now db m (Some u) pk t))
  | step_inbox db u :
      row_in (users db) u → step db (state (notifications_view db (Some u)).1)
  | step_delete_user db u : step db (delete_user u db)
  | step_profile db m u i :
      row_in (users db) u → step db (state (profile_view email_ok db m (Some u) i))
  | step_places db u :
      row_in (users db) u → step db (state (places_view db (Some u)).1)
  | step_favorites db u :
      row_in (users db) u → step db (state (favorites_view db (Some u)).1)
  | step_contact db m n e t msg :
      step db (state (contact_view CONTACT_EMAIL DEFAULT_FROM_EMAIL db m n e t msg).1).

Definition reachable (db : DB) : Prop := rtc step empty_db db.

End System.

(** A run of the application: the two users and the place of the sample
    database are created, user 2 adds the place to the favourites, and
    user 1 files a report on it through the form. *)
Definition demo_run : DB := state (@report_view accept_all 0 demo_fav_db POST (Some 1) demo_input).

Record inv (db : DB) : Prop := {
  inv_wf : wf db;
  inv_rating : ∀ k r, Table.rows (reports db) !! k = Some r → (1 ≤ Report.rating r ≤ 5)%Z;
  inv_comment : ∀ k c, Table.rows (comments db) !! k = Some c →
    Comment.text c ≠ [] ∧ strip (Comment.text c) = Comment.text c;
  inv_not_own : ∀ k n rid r, Table.rows (notifications db) !! k = Some n →
    Notification.report n = Some rid → Table.rows (reports db) !! rid = Some r →
    Notification.user n ≠ Report.author r
}.

(** ** Each kind of step keeps [inv] *)

(** A step that changes none of the reports, comments and notifications
    keeps the invariant as soon as it keeps [wf]. *)
Lemma inv_same_rows db db' :
  inv db → wf db' → reports db' = reports db → comments db' = comments db →
  notifications db' = notifications db → inv db'.
Proof.
  intros [Hw Hr Hc Hn] Hwf Er Ec En.
  split; [done|rewrite Er; exact Hr|rewrite Ec; exact Hc|rewrite En, Er; exact Hn].
Qed.

Lemma signup_inv usr db : inv db → inv (create_user usr db).2.
Proof. intros Hi. apply inv_same_rows with db; [done|apply create_user_wf, Hi|done..]. Qed.

Lemma place_inv now p db k db' : inv db → place_save now p db = inr (k, db') → inv db'.
Proof.
  intros Hi Hs. apply inv_same_rows with db; [done|eapply place_save_wf; [apply Hi|exact Hs]|..];
    unfold place_save in Hs; destruct (Place.full_clean p); try discriminate;
    apply (inj inr), pair_equal_spec in Hs as [_ <-]; done.
Qed.

Lemma toggle_tables db m u p pn gn :
  let db' := state (toggle_favorite_place db m (Some u) p pn gn) in
  reports db' = reports db ∧ comments db' = comments db ∧ notifications db' = notifications db.
Proof.
  unfold toggle_favorite_place. destruct m; [done|].
  destruct (Table.rows (places db) !! p); [|done]. cbn [state]. unfold toggle_act.
  destruct (toggle_check u p db);
    [pose proof (set_favorites_other u (favorites_of u db ∖ {[p]}) db)
    |pose proof (set_favorites_other u ({[p]} ∪ favorites_of u db) db)]; naive_solver.
Qed.

Lemma toggle_inv db m u p pn gn :
  inv db → row_in (users db) u → inv (state (toggle_favorite_place db m (Some u) p pn gn)).
Proof.
  intros Hi Hu. destruct (toggle_tables db m u p pn gn) as (Er & Ec & En).
  apply inv_same_rows with db; [done| |done..]. apply toggle_wf; [apply Hi|naive_solver].
Qed.

Lemma inbox_inv db u : inv db → inv (state (notifications_view db (Some u)).1).
Proof.
  intros [Hw Hr Hc Hn]. cbn [notifications_view fst state unchanged].
  split; [by apply mark_read_wf|done|done|].
  intros k n rid r. rewrite mark_read_lookup, fmap_Some. intros (n0 & Hn0 & ->).
  case_bool_decide; simpl; eauto.
Qed.

Lemma comment_inv db now m u pk t :
  inv db → row_in (users db) u → inv (state (report_detail now db m (Some u) pk t)).
Proof.
  intros Hi Hu. pose proof (report_detail_wf now db m u pk t (inv_wf _ Hi) Hu) as Hw.
  destruct Hi as [Hwf Hr Hc Hn]. revert Hw. unfold report_detail.
  destruct (Table.rows (reports db) !! pk); [|by split]. destruct m; [by split|].
  destruct (truthy (comment_text t)) eqn:Ht; [|by split]. cbn [state]. intros Hw.
  split; [done|done| |done]. intros k c. rewrite comment_create_rows, lookup_insert.
  case_decide; [intros [= <-]|by apply Hc]. simpl.
  split; [by apply truthy_true_iff|apply strip_idem].
Qed.

Lemma delete_report_inv pk db : inv db → inv (delete_report pk db).
Proof.
  intros [Hw Hr Hc Hn]. split; [by apply delete_report_wf|..]; unfold delete_report; simpl_db.
  - intros k r. rewrite table_delete_rows, lookup_delete_Some. intros [_ Hk]. eauto.
  - intros k c. rewrite table_keep_lookup. intros [Hk _]. eauto.
  - intros k n rid r. rewrite table_keep_lookup, table_delete_rows, lookup_delete_Some.
    intros [Hk _] Hrid [_ Hr']. eauto.
Qed.

Lemma delete_inv db m u pk : inv db → inv (state (report_delete_view db m (Some u) pk)).
Proof.
  intros Hi. unfold report_delete_view.
  destruct (own_report db pk u); [|done]. destruct m; [done|]. by apply delete_report_inv.
Qed.

Lemma delete_place_inv p db : inv db → inv (delete_place p db).
Proof.
  intros [Hw Hr Hc Hn]. split; [by apply delete_place_wf|..]; unfold delete_place; simpl_db.
  - intros k r. rewrite table_keep_lookup. intros [Hk _]. eauto.
  - intros k c. rewrite table_keep_lookup. intros [Hk _]. eauto.
  - intros k n rid r. rewrite !table_keep_lookup. intros [Hk _] Hrid [Hr' _]. eauto.
Qed.

Lemma delete_user_inv u db : inv db → inv (delete_user u db).
Proof.
  intros [Hw Hr Hc Hn]. split; [by apply delete_user_wf|..]; unfold delete_user; simpl_db.
  - intros k r. rewrite table_keep_lookup. intros [Hk _]. eauto.
  - intros k c. rewrite table_keep_lookup. intros [Hk _]. eauto.
  - intros k n rid r. rewrite !table_keep_lookup. intros [Hk _] Hrid [Hr' _]. eauto.
Qed.

Lemma profile_inv email_ok db m u i :
  inv db → row_in (users db) u → inv (state (profile_view email_ok db m (Some u) i)).
Proof.
  intros Hi Hu. apply inv_same_rows with db; [done|by apply profile_view_wf; [apply Hi|]|..];
    unfold profile_view; pose proof (get_or_create_noop u db (inv_wf _ Hi) Hu) as Hnoop;
    destruct (get_or_create_profile u db) as [prof db1]; simpl in Hnoop; subst db1;
    destruct m; try done; destruct (Table.rows (users db) !! u), (user_form_errors email_ok i); try done;
    cbn [state]; unfold save_user;
    (rewrite get_or_create_noop; [done|apply update_user_wf; [apply Hi|done]|
                                  simpl_db; by rewrite table_row_in_update]).
Qed.

Lemma places_inv db u : inv db → row_in (users db) u → inv (state (places_view db (Some u)).1).
Proof.
  intros Hi Hu. unfold places_view. pose proof (get_or_create_noop u db (inv_wf _ Hi) Hu) as Hnoop.
  destruct (get_or_create_profile u db) as [prof db1]. simpl in *. by subst db1.
Qed.

Lemma favorites_inv db u : inv db → row_in (users db) u → inv (state (favorites_view db (Some u)).1).
Proof.
  intros Hi Hu. unfold favorites_view. pose proof (get_or_create_noop u db (inv_wf _ Hi) Hu) as Hnoop.
  destruct (get_or_create_profile u db) as [prof db1]. simpl in *. by subst db1.
Qed.

Lemma contact_inv `{MailTransport} ce dfe db m n e t msg :
  inv db → inv (state (contact_view ce dfe db m n e t msg).1).
Proof.
  intros Hi. unfold contact_view. destruct m; [done|].
  destruct (negb _ || _ || _); [done|]. destruct (send_mail _); [|done].
  destruct Hi as [[] ? ? ?]. by split; [split|..].
Qed.

Section Requests.
  Context `{MailTransport}.

Lemma report_inv db now m u i :
    inv db → row_in (users db) u → inv (state (report_view now db m (Some u) i)).
  Proof.
    intros Hi Hu. pose proof (report_view_wf now db m u i (inv_wf _ Hi) Hu) as Hw.
    destruct Hi as [Hwf Hr Hc Hn]. revert Hw. unfold report_view.
    destruct m; [by split|]. destruct (report_form_clean db i None) as [es|d] eqn:Hd; [by split|].
    cbn [state]. intros Hw. destruct (report_form_clean_place_rating _ _ _ _ Hd) as [_ Hrat].
    unfold report_create in *. cbn [fst snd] in *. rewrite table_insert_key in *.
    set (r := Report.mk _ _ _ _ _ _ _) in *.
    set (db1 := set_reports (λ _, (Table.insert r (reports db)).2) db) in *.
    destruct (receiver_tables now true (Table.next_id (reports db)) r db1) as (_ & _ & _ & Er & Ec).
    pose proof (table_insert_fresh _ (wf_reports _ Hwf)) as Hfresh.
    split; [done| | |].
    - intros k r0. rewrite Er. unfold db1. simpl_db. rewrite table_insert_lookup.
      case_decide; [intros [= <-]; done|eauto].
    - rewrite Ec. exact Hc.
    - intros k n rid r0 Hk Hrid. rewrite Er. unfold db1. simpl_db. rewrite table_insert_lookup.
      apply receiver_rows in Hk as [Hold|(Hne & Hrep & _)]; [| |exact (wf_notifications _ Hwf)].
      + destruct (wf_notification_fk _ Hwf k n Hold) as (_ & _ & Hfk).
        destruct (Hfk rid Hrid) as [x Hx].
        case_decide as Heq; [subst rid; congruence|]. eauto.
      + rewrite Hrep in Hrid. injection Hrid as <-. rewrite decide_True by done.
        intros [= <-]. done.
  Qed.

Lemma edit_inv db now m u pk i : inv db → inv (state (report_edit_view now db m (Some u) pk i)).
  Proof.
    intros Hi. pose proof (report_edit_view_wf now db m u pk i (inv_wf _ Hi)) as Hw.
    destruct Hi as [Hwf Hr Hc Hn]. revert Hw. unfold report_edit_view.
    destruct (own_report db pk u) as [r|] eqn:Ho; [|by split]. destruct m; [by split|].
    destruct (report_form_clean db i _) as [es|d] eqn:Hd; [by split|].
    cbn [state]. rewrite report_update_eq. intros Hw.
    apply own_report_Some in Ho as [Hro _].
    destruct (report_form_clean_place_rating _ _ _ _ Hd) as [_ Hrat].
    split; [done| |done|]; simpl_db.
    - intros k r0. unfold Table.update. simpl. rewrite lookup_insert.
      case_decide; [intros [= <-]; done|eauto].
    - intros k n rid r0 Hk Hrid. unfold Table.update. simpl. rewrite lookup_insert.
      case_decide as Heq; [intros [= <-]; simpl; subst rid; eauto|eauto].
  Qed.

End Requests.

Lemma empty_inv : inv empty_db.
Proof. split; [apply empty_db_wf|done..]. Qed.

Section Reachable.
  Context `{MailTransport} (email_ok : text → bool).
  Context (CONTACT_EMAIL : option text) (DEFAULT_FROM_EMAIL : text).

Lemma step_inv db db' : step email_ok CONTACT_EMAIL DEFAULT_FROM_EMAIL db db' → inv db → inv db'.
  Proof.
    intros []; eauto using signup_inv, place_inv, delete_place_inv, toggle_inv, report_inv,
      edit_inv, delete_inv, comment_inv, inbox_inv, delete_user_inv, profile_inv, places_inv,
      favorites_inv, contact_inv.
  Qed.

(** Rule induction over the steps from the empty database. *)
Lemma reachable_inv_rec db : reachable email_ok CONTACT_EMAIL DEFAULT_FROM_EMAIL db → inv db.
Proof.
  revert db. apply rtc_ind_r; [apply empty_inv|]. intros y z _ Hyz IH. by eapply step_inv.
Qed.

  (** C4: every database that the application can reach from the empty
      one, by signups, place saves and deletions, and the requests of
      logged-in users (favourite toggles, report creation, edition and
      deletion, comments, opening the notification page), satisfies the
      integrity invariant [wf], has every report rated from 1 to 5 (the
      bound lives in the form only: spec section 9), every comment
      non-empty and stripped, and no notification sent to the author of
      the report it is about. *)
Theorem reachable_inv db :
    reachable email_ok CONTACT_EMAIL DEFAULT_FROM_EMAIL db →
    wf db ∧
    (∀ k r, Table.rows (reports db) !! k = Some r → (1 ≤ Report.rating r ≤ 5)%Z) ∧
    (∀ k c, Table.rows (comments db) !! k = Some c →
       Comment.text c ≠ [] ∧ strip (Comment.text c) = Comment.text c) ∧
    (∀ k n rid r, Table.rows (notifications db) !! k = Some n →
       Notification.report n = Some rid → Table.rows (reports db) !! rid = Some r →
       Notification.user n ≠ Report.author r).
  Proof.
    intros Hr. destruct (reachable_inv_rec db Hr) as [Hw Hrat Hc Hn]. by split_and!.
  Qed.

(** Deleting the users one at a time from a consistent database reaches
    one without users. *)
Lemma delete_users_all n db :
  size (Table.rows (users db)) = n → inv db →
  ∃ db', rtc (step email_ok CONTACT_EMAIL DEFAULT_FROM_EMAIL) db db' ∧ inv db' ∧
         Table.rows (users db') = ∅.
Proof.
  revert db. induction n as [|n IH]; intros db Hn Hi.
  - exists db. split_and!; [apply rtc_refl|done|by apply map_size_empty_iff].
  - destruct (map_choose (Table.rows (users db))) as (k & usr & Hk); [intros E; rewrite E in Hn; done|].
    destruct (IH (delete_user k db)) as (db' & Hs & Hi' & He).
    + unfold delete_user. simpl_db. rewrite table_delete_rows, map_size_delete, Hk. simpl. lia.
    + by apply delete_user_inv.
    + exists db'. split_and!; [|done|done]. eapply rtc_l; [apply step_delete_user|exact Hs].
Qed.

(** A consistent database without users has no rows that refer to one. *)
Lemma no_users_empty db :
  wf db → Table.rows (users db) = ∅ →
  profiles db = ∅ ∧ Table.rows (reports db) = ∅ ∧ Table.rows (comments db) = ∅ ∧
  Table.rows (notifications db) = ∅.
Proof.
  intros Hwf He.
  assert (Hno : ∀ u, ¬ row_in (users db) u) by (intros u [x Hx]; by rewrite He in Hx).
  split_and!; apply map_empty; intros k.
  - destruct (profiles db !! k) eqn:E; [|done]. exfalso. apply (Hno k), (wf_profiles _ Hwf). by eexists.
  - destruct (Table.rows (reports db) !! k) as [r|] eqn:E; [|done].
    exfalso. eapply Hno, (wf_report_fk _ Hwf _ _ E).
  - destruct (Table.rows (comments db) !! k) as [c|] eqn:E; [|done].
    exfalso. eapply Hno, (wf_comment_fk _ Hwf _ _ E).
  - destruct (Table.rows (notifications db) !! k) as [x|] eqn:E; [|done].
    exfalso. eapply Hno, (wf_notification_fk _ Hwf _ _ E).
Qed.

(** C40: from every reachable database the application can always reach
    one with no users, profiles, reports, comments or notifications:
    the admin deletes the users one at a time and the cascades remove
    everything that refers to them. *)
Theorem reachable_cleanup db :
  reachable email_ok CONTACT_EMAIL DEFAULT_FROM_EMAIL db →
  ∃ db', rtc (step email_ok CONTACT_EMAIL DEFAULT_FROM_EMAIL) db db' ∧
         reachable email_ok CONTACT_EMAIL DEFAULT_FROM_EMAIL db' ∧
         Table.rows (users db') = ∅ ∧ profiles db' = ∅ ∧ Table.rows (reports db') = ∅ ∧
         Table.rows (comments db') = ∅ ∧ Table.rows (notifications db') = ∅.
Proof.
  intros Hr. destruct (delete_users_all _ db eq_refl (reachable_inv_rec db Hr)) as (db' & Hs & Hi' & He).
  exists db'. split_and!; [done|unfold reachable in *; by etrans|done|..];
    apply (no_users_empty db' (inv_wf _ Hi') He).
Qed.

(** C39: the averages the application shows lie between 1 and 5 on every
    reachable database: each [avg_rating] of [GET /api/places/], each
    per-place average of the dashboard, and each per-tag average of the
    dashboard chart, since every stored rating passed the form's 1..5
    check. *)
Theorem shown_averages_bounded db :
  reachable email_ok CONTACT_EMAIL DEFAULT_FROM_EMAIL db →
  (∀ q tg cm data row a, places_api db GET q tg cm = Some data → row ∈ data →
     api_avg row = Some a → (1 <= a <= 5)%Q) ∧
  (∀ u d, (dashboard_view db (Some u)).2 = Some d →
     (∀ s a, s ∈ places_stats d → ps_avg s = Some a → (1 <= a <= 5)%Q) ∧
     Forall (λ a, 1 <= a <= 5)%Q (tag_avg_ratings d)).
Proof.
  intros Hr. pose proof (inv_rating _ (reachable_inv_rec db Hr)) as Hb.
  change (ratings_within 1 5 db) in Hb. split.
  - intros q tg cm data row a Hd (p & _ & _ & Hrow)%(places_api_elem _ _ _ _ _ _ Hd) Ha.
    destruct (api_row_fields _ _ _ _ Hrow) as (_ & _ & _ & _ & _ & _ & _ & Havg).
    rewrite Havg in Ha. by apply (place_stat_avg_bounds 1 5 db (api_id row, p)).
  - intros u d [= <-]. cbn [places_stats tag_avg_ratings]. split.
    + intros s a Hs. rewrite merge_sort_Permutation in Hs.
      apply place_stat_elem in Hs as (k & p & _ & ->). by apply place_stat_avg_bounds.
    + apply Forall_forall. intros a (g & -> & Hg)%list_elem_of_fmap. by apply (tag_stat_avg_bounds 1 5 db).
Qed.

End Reachable.


Lemma demo_run_reachable : @reachable accept_all demo_email_ok None demo_sender demo_run.
Proof.
  unfold reachable.
  eapply rtc_l; [apply (step_signup _ _ _ _ (User.mk (lit "levis") [] [] []))|].
  eapply rtc_l; [apply (step_signup _ _ _ _ (User.mk (lit "ignacio") (lit "ignacio@test.com") [] []))|].
  eapply rtc_l; [apply (step_place _ _ _ _ 0 demo_place 1 demo_db); vm_compute; reflexivity|].
  eapply rtc_l; [apply (step_toggle _ _ _ demo_db POST 2 1 None None); vm_compute; eauto|].
  eapply rtc_l; [apply (step_report _ _ _ demo_fav_db 0 POST 1 demo_input); vm_compute; eauto|].
  apply rtc_refl.
Qed.

Lemma reachable_cleanup_witness :
  ∃ db', rtc (@step accept_all demo_email_ok None demo_sender) demo_run db' ∧
         @reachable accept_all demo_email_ok None demo_sender db' ∧
         Table.rows (users db') = ∅ ∧ profiles db' = ∅ ∧ Table.rows (reports db') = ∅ ∧
         Table.rows (comments db') = ∅ ∧ Table.rows (notifications db') = ∅.
Proof. apply (@reachable_cleanup accept_all demo_email_ok None demo_sender), demo_run_reachable. Defined.

Lemma reachable_inv_witness :
  wf demo_run ∧
  (∀ k r, Table.rows (reports demo_run) !! k = Some r → (1 ≤ Report.rating r ≤ 5)%Z) ∧
  (∀ k c, Table.rows (comments demo_run) !! k = Some c →
     Comment.text c ≠ [] ∧ strip (Comment.text c) = Comment.text c) ∧
  (∀ k n rid r, Table.rows (notifications demo_run) !! k = Some n →
     Notification.report n = Some rid → Table.rows (reports demo_run) !! rid = Some r →
     Notification.user n ≠ Report.author r).
Proof. apply (@reachable_inv accept_all demo_email_ok None demo_sender), demo_run_reachable. Defined.

Lemma shown_averages_bounded_witness :
  (∀ q tg cm data row a, places_api demo_run GET q tg cm = Some data → row ∈ data →
     api_avg row = Some a → (1 <= a <= 5)%Q) ∧
  (∀ u d, (dashboard_view demo_run (Some u)).2 = Some d →
     (∀ s a, s ∈ places_stats d → ps_avg s = Some a → (1 <= a <= 5)%Q) ∧
     Forall (λ a, 1 <= a <= 5)%Q (tag_avg_ratings d)).
Proof. apply (@shown_averages_bounded accept_all demo_email_ok None demo_sender), demo_run_reachable. Defined.
