(* ===== verification/Schema.v ===== *)
(** * Schema: every stored row fits its column declarations

    [src/core/models.py] declares the columns of [Place] (lines 53-58:
    [name] a [CharField(max_length=200)], [address] and [tags]
    [CharField(max_length=255, blank=True)], [lat] and [lng]
    [DecimalField(max_digits=9, decimal_places=6)]) and of [Report]
    (line 107: [tags] a [CharField(max_length=255, blank=True)], line 106:
    [rating] a [PositiveSmallIntegerField]).  SQLite does not enforce the
    lengths and digit counts, so whether the rows fit the declarations is
    a property of the code paths that write them: [Place.save] runs
    [full_clean] (line 93), and the reports are written only from a
    [ReportForm] whose model validation checks the joined tags against
    [max_length].

    [Models.wf] already carries the places' judgement ([Place.valid],
    what [full_clean] accepts); [typed db] adds the reports': every
    report's tags fit 255 characters.  [reachable_typed] proves by rule
    induction on [System.step] that every reachable database is typed,
    and with [System.inv] that every report row fits its columns: its
    tags, its rating within the [PositiveSmallIntegerField] range
    [0..32767], and its place a row that passes [full_clean], inside
    the bounding box.  The comments are left out on purpose: their
    [TextField(max_length=1000)] is a form hint that no code path checks
    (see [Comments.report_detail_long_comment]); so are the users, which
    the admin and [createsuperuser] write without [SignupForm]. *)

From Stdlib Require Import QArith.
From S2P Require Import Prelude Text Geofence Models Http Favorites Notify Forms Reports Listing Contact Comments Inbox Stats Accounts System.

(** A predicate holds of every row of a table. *)
Definition table_all {A} (P : A → Prop) (tb : Table.t A) : Prop :=
  map_Forall (λ _, P) (Table.rows tb).

(** [Report.tags]: [CharField(max_length=255)]. *)
Definition report_fits (r : Report.t) : Prop := length (Report.tags r) ≤ 255.

(** Every stored report fits its column declarations; the places are
    covered by [Models.wf] ([wf_place_valid]). *)
Definition typed (db : DB) : Prop := table_all report_fits (reports db).

(** ** The table operations keep [table_all] *)

Section TableAll.
  Context {A : Type} (P : A → Prop).
  Implicit Types (tb : Table.t A) (x : A).

Lemma table_all_insert tb x : table_all P tb → P x → table_all P (Table.insert x tb).2.
  Proof. intros Hall Hx. by apply map_Forall_insert_2. Qed.

Lemma table_all_update tb k x : table_all P tb → P x → table_all P (Table.update k x tb).
  Proof. intros Hall Hx. by apply map_Forall_insert_2. Qed.

Lemma table_all_delete tb k : table_all P tb → table_all P (Table.delete k tb).
  Proof. intros Hall. by apply map_Forall_delete. Qed.

Lemma table_all_keep (Q : A → bool) tb : table_all P tb → table_all P (Table.keep Q tb).
  Proof. intros Hall k x [Hk _]%table_keep_lookup. by eapply Hall. Qed.

End TableAll.

#[export] Hint Resolve table_all_insert table_all_update table_all_delete table_all_keep : incluimap.

Lemma typed_same db db' : reports db' = reports db → typed db → typed db'.
Proof. unfold typed. by intros ->. Qed.

(** [get_or_create] and the favourites leave the reports alone. *)
Lemma get_or_create_reports u db : reports (get_or_create_profile u db).2 = reports db.
Proof. unfold get_or_create_profile. by case_match. Qed.

Lemma set_favorites_reports u favs db : reports (set_favorites u favs db) = reports db.
Proof.
  unfold set_favorites. pose proof (get_or_create_reports u db) as E.
  destruct (get_or_create_profile u db). exact E.
Qed.

Lemma receiver_reports `{MailTransport} now c k r db :
  reports (create_favorite_place_notifications now c k r db) = reports db.
Proof.
  by destruct (receiver_tables now c k r db) as (_ & _ & _ & -> & _).
Qed.

(** Rewrites a view's result down to the tables it leaves alone. *)
Ltac reports_same :=
  repeat (case_match; cbn [state unchanged fst snd] in *; try done); simpl_db;
  rewrite ?set_favorites_reports, ?receiver_reports, ?get_or_create_reports; done.

(** ** Each kind of step keeps [typed] *)

Lemma delete_place_typed p db : typed db → typed (delete_place p db).
Proof. unfold typed. simpl. eauto with incluimap. Qed.

Lemma delete_user_typed u db : typed db → typed (delete_user u db).
Proof. unfold typed. simpl. eauto with incluimap. Qed.

Lemma delete_report_typed pk db : typed db → typed (delete_report pk db).
Proof. unfold typed. simpl. eauto with incluimap. Qed.

Section Requests.
  Context `{MailTransport}.

Lemma report_view_typed now db m u i : typed db → typed (state (report_view now db m (Some u) i)).
  Proof.
    intros Ht. unfold report_view. destruct m; [done|].
    destruct (report_form_clean db i None) as [es|d] eqn:Hd; [done|]. cbn [state].
    apply report_form_clean_tags_fit in Hd. unfold report_create. cbn [snd].
    apply typed_same with (set_reports (λ _, (Table.insert (Report.mk (cd_place d) u (cd_description d)
      (cd_rating d) (cd_tags d) (cd_photo d) now) (reports db)).2) db); [apply receiver_reports|].
    unfold typed in *. simpl_db. by apply table_all_insert.
  Qed.

Lemma report_edit_typed now db m u pk i : typed db → typed (state (report_edit_view now db m (Some u) pk i)).
  Proof.
    intros Ht. unfold report_edit_view. destruct (own_report db pk u) as [r|]; [|done].
    destruct m; [done|]. destruct (report_form_clean db i _) as [es|d] eqn:Hd; [done|].
    cbn [state]. apply report_form_clean_tags_fit in Hd. rewrite report_update_eq.
    unfold typed in *. simpl_db. by apply table_all_update.
  Qed.

End Requests.

Lemma report_delete_typed db m u pk : typed db → typed (state (report_delete_view db m (Some u) pk)).
Proof.
  intros Ht. unfold report_delete_view. destruct (own_report db pk u); [|done].
  destruct m; [done|]. by apply delete_report_typed.
Qed.

(** The views whose [get_or_create] may add a profile: what follows it
    is checked against the database it returns. *)
Ltac get_or_create_same u db :=
  let E := fresh "E" in
  pose proof (get_or_create_reports u db) as E;
  destruct (get_or_create_profile u db) as [? ?]; cbn [snd] in E; rewrite <- E.

Section Reachable.
  Context `{MailTransport} (email_ok : text → bool).
  Context (CONTACT_EMAIL : option text) (DEFAULT_FROM_EMAIL : text).

Lemma step_typed db db' : step email_ok CONTACT_EMAIL DEFAULT_FROM_EMAIL db db' → typed db → typed db'.
  Proof.
    intros Hs Ht. destruct Hs;
      try (by eauto using delete_place_typed, delete_user_typed, report_view_typed, report_edit_typed,
             report_delete_typed);
      apply typed_same with db; try done.
    - match goal with Hp : place_save _ _ _ = _ |- _ => rename Hp into Hsave end.
      unfold place_save in Hsave. destruct (Place.full_clean p); [|done].
      by apply (inj inr), pair_equal_spec in Hsave as [_ <-].
    - unfold toggle_favorite_place, toggle_act. reports_same.
    - unfold report_detail, comment_create. reports_same.
    - unfold profile_view. get_or_create_same u db. destruct m; [done|]. unfold save_user. reports_same.
    - unfold places_view. get_or_create_same u db. done.
    - unfold favorites_view. get_or_create_same u db. done.
    - unfold contact_view. reports_same.
  Qed.

Lemma reachable_typed_rec db : reachable email_ok CONTACT_EMAIL DEFAULT_FROM_EMAIL db → typed db.
  Proof. revert db. apply rtc_ind_r; [done|]. intros y z _ Hs Hy. by eapply step_typed. Qed.

(** C22: every row of a reachable database fits its column
    declarations: every place passes [full_clean] (lengths, decimal
    digits and the bounding box), and every report has tags of at most
    255 characters, a rating within the [PositiveSmallIntegerField]
    range, and a place that exists and passes [full_clean]. *)
Theorem reachable_typed db :
  reachable email_ok CONTACT_EMAIL DEFAULT_FROM_EMAIL db →
  table_all Place.valid (places db) ∧
  table_all (λ r, report_fits r ∧ (0 ≤ Report.rating r ≤ 32767)%Z ∧
                  ∃ p, Table.rows (places db) !! Report.place r = Some p ∧ Place.valid p) (reports db).
Proof.
  intros Hr. pose proof (reachable_typed_rec db Hr) as Ht.
  pose proof (reachable_inv_rec _ _ _ db Hr) as Hi. pose proof (inv_wf _ Hi) as Hw.
  split; [intros k p; apply (wf_place_valid _ Hw)|]. intros k r Hk.
  destruct (wf_report_fk _ Hw k r Hk) as [[p Hp] _]. pose proof (inv_rating _ Hi k r Hk).
  split_and!; [by apply (Ht k r)|lia|lia|]. exists p. split; [done|]. by apply (wf_place_valid _ Hw) in Hp.
Qed.

End Reachable.

Lemma reachable_typed_witness :
  table_all Place.valid (places demo_run) ∧
  table_all (λ r, report_fits r ∧ (0 ≤ Report.rating r ≤ 32767)%Z ∧
                  ∃ p, Table.rows (places demo_run) !! Report.place r = Some p ∧ Place.valid p)
    (reports demo_run).
Proof. apply (@reachable_typed accept_all demo_email_ok None demo_sender), demo_run_reachable. Defined.
