(* ===== verification/Admin.v ===== *)
(** * Admin: the change lists that [src/core/admin.py] configures

    [admin.py] registers [Place] and [Report] with a [ModelAdmin] each.
    Of their settings, [search_fields], [list_filter] and [ordering]
    decide which rows a change list shows and in what order;
    [list_display] only chooses the columns of the rendered table and is
    not modelled.  The change list is Django's [ChangeList]:
    - [list_filter = ("rating",)] reads [?rating=v] and filters
      [rating = v] after converting [v] with the column's [int()]; a value
      that [int()] refuses raises [IncorrectLookupParameters], which the
      change list answers with a redirect to [?e=1] ([None] here);
    - [get_search_results] splits [?q=] into words and keeps a row when
      every word is contained, by [field__icontains] (SQLite's [LIKE]:
      ASCII letters compared without case), in one of the
      [search_fields]; [place__name] and [author__username] follow the
      foreign keys.  Django's [smart_split] keeps a quoted phrase
      together; the model splits on whitespace, which is the same on a
      search without quotes;
    - [ordering = ("-created_at",)], to which the change list appends
      ["-pk"] to make the order total.
    The pagination of the rendered list (100 rows a page) is not
    modelled: the definitions give the whole query.

    Theorem: the report change list holds exactly the reports that pass
    the rating filter and the search, each once, newest first; a report
    is found by searching for its place's name in any ASCII case. *)

From Stdlib Require Import QArith.
From S2P Require Import Prelude Text Geofence Models Http Notify Forms Reports Stats Templatetags System.

(** A row matches a search when every word is in one of its fields. *)
Definition search_match (words fields : list text) : bool :=
  forallb (λ w, existsb (λ f, icontains f w) fields) words.

(** The words of [?q=]. *)
Definition search_words (q : option text) : list text := split_ws (default [] q).

Module PlaceAdmin.

  (** [search_fields = ("name", "address", "tags")] *)
Definition search_fields (p : Place.t) : list text := [Place.name p; Place.address p; Place.tags p].

  (** [ordering = ("-created_at",)], then ["-pk"]. *)
Definition newest (a b : nat * Place.t) : Prop :=
    Place.created_at b.2 < Place.created_at a.2 ∨
    (Place.created_at a.2 = Place.created_at b.2 ∧ b.1 ≤ a.1).

#[global] Instance newest_dec : RelDecision newest.
  Proof. intros a b. unfold newest. apply _. Defined.

  (** The change list of places for [?q=]. *)
Definition changelist (db : DB) (q : option text) : list (nat * Place.t) :=
    merge_sort newest
      (filter (λ kv, search_match (search_words q) (search_fields kv.2) = true)
         (map_to_list (Table.rows (places db)))).

End PlaceAdmin.

Module ReportAdmin.

  (** [search_fields = ("place__name", "author__username", "tags",
      "description")]: the two joined columns, when the row exists. *)
Definition search_fields (db : DB) (r : Report.t) : list text :=
    option_list (Place.name <$> Table.rows (places db) !! Report.place r) ++
    option_list (User.username <$> Table.rows (users db) !! Report.author r) ++
    [Report.tags r; Report.description r].

  (** [list_filter = ("rating",)]: [?rating=v] converted by the
      column's [int()]; [None] when it raises, [Some None] without the
      parameter. *)
Definition rating_filter (v : option text) : option (option Z) :=
    match v with
    | None => Some None
    | Some s => Some <$> py_int_str s
    end.

Definition rating_ok (f : option Z) (r : Report.t) : bool :=
    match f with
    | None => true
    | Some z => bool_decide (Report.rating r = z)
    end.

  (** [ordering = ("-created_at",)], then ["-pk"]. *)
Definition newest (a b : nat * Report.t) : Prop :=
    Report.created_at b.2 < Report.created_at a.2 ∨
    (Report.created_at a.2 = Report.created_at b.2 ∧ b.1 ≤ a.1).

#[global] Instance newest_dec : RelDecision newest.
  Proof. intros a b. unfold newest. apply _. Defined.

  (** The change list of reports for [?q=] and [?rating=]; [None] is the
      redirect to [?e=1]. *)
Definition changelist (db : DB) (q rating : option text) : option (list (nat * Report.t)) :=
    f ← rating_filter rating;
    Some (merge_sort newest
            (filter (λ kv, rating_ok f kv.2 && search_match (search_words q) (search_fields db kv.2) = true)
               (map_to_list (Table.rows (reports db))))).

End ReportAdmin.

(** ** Lemmas *)

#[export] Instance place_newest_total : Total PlaceAdmin.newest.
Proof. intros a b. unfold PlaceAdmin.newest. lia. Qed.

#[export] Instance place_newest_trans : Transitive PlaceAdmin.newest.
Proof. intros a b c. unfold PlaceAdmin.newest. lia. Qed.

#[export] Instance report_newest_total : Total ReportAdmin.newest.
Proof. intros a b. unfold ReportAdmin.newest. lia. Qed.

#[export] Instance report_newest_trans : Transitive ReportAdmin.newest.
Proof. intros a b c. unfold ReportAdmin.newest. lia. Qed.

(** Every word of [str.split()] is a piece of the text. *)
Lemma split_ws_aux_infix cur s w :
  w ∈ split_ws_aux cur s → ∃ a c, reverse cur ++ s = a ++ w ++ c.
Proof.
  revert cur. induction s as [|x s IH]; intros cur; simpl.
  - case_bool_decide; [by intros ?%elem_of_nil|]. intros ->%list_elem_of_singleton.
    exists [], []. by rewrite !app_nil_r.
  - destruct (isspace x).
    + intros [Hw|Hw]%elem_of_app.
      * case_bool_decide; [by apply elem_of_nil in Hw|]. apply list_elem_of_singleton in Hw as ->.
        by exists [], (x :: s).
      * destruct (IH [] Hw) as (a & c & E). exists (reverse cur ++ x :: a), c.
        rewrite reverse_nil in E. simpl in E. rewrite E. by rewrite <- app_assoc.
    + intros Hw. destruct (IH (x :: cur) Hw) as (a & c & E). exists a, c.
      rewrite <- E, reverse_cons, <- app_assoc. done.
Qed.

Lemma split_ws_infix s w : w ∈ split_ws s → ∃ a c, s = a ++ w ++ c.
Proof. apply split_ws_aux_infix. Qed.

(** A word of a field's text matches that field under [icontains]. *)
Lemma icontains_split_ws f w : w ∈ split_ws f → icontains f w = true.
Proof.
  intros (a & c & ->)%split_ws_infix. unfold icontains, ascii_lower.
  rewrite !fmap_app. apply contains_infix.
Qed.

Lemma search_match_spec words fields :
  search_match words fields = true ↔ ∀ w, w ∈ words → ∃ f, f ∈ fields ∧ icontains f w = true.
Proof.
  unfold search_match. rewrite forallb_forall. setoid_rewrite existsb_exists.
  setoid_rewrite <- list_elem_of_In. done.
Qed.


Lemma rating_ok_spec v f r :
  ReportAdmin.rating_filter v = Some f →
  ReportAdmin.rating_ok f r = true ↔ ∀ s z, v = Some s → py_int_str s = Some z → Report.rating r = z.
Proof.
  unfold ReportAdmin.rating_filter, ReportAdmin.rating_ok. destruct v as [s|].
  - intros (z & Hz & ->)%fmap_Some. rewrite bool_decide_eq_true. naive_solver.
  - intros [= <-]. naive_solver.
Qed.

(** The place change list: the places in one of whose name, address
    and tags every word of [?q=] occurs, each once, newest first. *)
Lemma place_changelist_spec db q :
  let l := PlaceAdmin.changelist db q in
  (∀ k p, (k, p) ∈ l ↔ Table.rows (places db) !! k = Some p ∧
     ∀ w, w ∈ search_words q → ∃ fl, fl ∈ PlaceAdmin.search_fields p ∧ icontains fl w = true) ∧
  NoDup l.*1 ∧ StronglySorted PlaceAdmin.newest l.
Proof.
  destruct (sorted_rows PlaceAdmin.newest
    (λ kv, search_match (search_words q) (PlaceAdmin.search_fields kv.2) = true) (Table.rows (places db)))
    as (Hel & Hnd & Hs).
  split_and!; [|done|done]. intros k p. rewrite Hel. cbn [snd]. by rewrite search_match_spec.
Qed.

(** The rows of the report change list. *)
Lemma report_changelist_elem db q rating f :
  ReportAdmin.rating_filter rating = Some f →
  ReportAdmin.changelist db q rating =
    Some (merge_sort ReportAdmin.newest
            (filter (λ kv, ReportAdmin.rating_ok f kv.2 &&
                           search_match (search_words q) (ReportAdmin.search_fields db kv.2) = true)
               (map_to_list (Table.rows (reports db))))) ∧
  ∀ k r, (k, r) ∈ merge_sort ReportAdmin.newest
            (filter (λ kv, ReportAdmin.rating_ok f kv.2 &&
                           search_match (search_words q) (ReportAdmin.search_fields db kv.2) = true)
               (map_to_list (Table.rows (reports db)))) ↔
         Table.rows (reports db) !! k = Some r ∧
         (∀ s z, rating = Some s → py_int_str s = Some z → Report.rating r = z) ∧
         (∀ w, w ∈ search_words q → ∃ fl, fl ∈ ReportAdmin.search_fields db r ∧ icontains fl w = true).
Proof.
  intros E. unfold ReportAdmin.changelist. rewrite E. split; [done|]. intros k r.
  rewrite (proj1 (sorted_rows ReportAdmin.newest _ _)). cbn [fst snd].
  by rewrite andb_true_iff, (rating_ok_spec _ _ _ E), search_match_spec.
Qed.


(** Searching the admin for a report's place name, in any ASCII case,
    lists the report. *)
Lemma report_changelist_place_name db k r p s :
  Table.rows (reports db) !! k = Some r → Table.rows (places db) !! Report.place r = Some p →
  ascii_lower s = ascii_lower (Place.name p) →
  ∃ l, ReportAdmin.changelist db (Some s) None = Some l ∧ (k, r) ∈ l.
Proof.
  intros Hk Hp Hs. destruct (report_changelist_elem db (Some s) None None eq_refl) as [-> Hel].
  eexists. split; [done|]. apply Hel. split_and!; [done|done|].
  intros w Hw. exists (Place.name p). split.
  - unfold ReportAdmin.search_fields. rewrite Hp. simpl. by left.
  - apply icontains_split_ws in Hw. unfold icontains in *. by rewrite <- Hs.
Qed.

(** ** Witnesses *)


(** The report of the sample run is found by its place's name in
    another case with the filter [?rating= 3 ], not with [?rating=tres]. *)
Example report_changelist_example :
  (λ l, l.*1) <$> ReportAdmin.changelist demo_run (Some (lit "espacio URBANO")) (Some (lit " 3 ")) = Some [1] ∧
  ReportAdmin.changelist demo_run None (Some (lit "tres")) = None.
Proof. vm_compute. split; reflexivity. Qed.
