(* ===== verification/Interleave.v ===== *)
(** * Interleave: report creation as Django runs it, between other requests

    [report_view] saves the report with [Report.save()]: Django executes
    the [INSERT] and then sends [post_save], whose receiver
    [create_favorite_place_notifications] (models.py, lines 148-198)
    loops over the favouriting profiles and creates one [Notification]
    per user with [Notification.objects.create].  Nothing in the sources
    wraps the two in [transaction.atomic]; under Django's default
    autocommit (the settings module, which could set [ATOMIC_REQUESTS],
    is not part of the sources) each [INSERT] is committed when it runs,
    so another request can read the database after the report's
    [INSERT] and after each notification's.  Spec section 5 asks instead
    that a report never be visible without its fan-out.

    [fanout] is the loop of the receiver for the report about to be
    inserted; [creation_state n] is the database after the report's
    [INSERT] and the first [n] notifications; [interleaved n g] runs
    another request [g] at that point and the rest of the loop on the
    database [g] leaves.  The mail of the loop goes to the outbox, which
    no request reads.

    Theorems: with a request that writes nothing, every interleaving
    gives the atomic [report_create] ([interleaved_idle]); every
    intermediate database is consistent, shows the report, and has
    notified exactly a prefix of the recipients ([creation_states]); a
    recipient who opens the notification page after the [INSERT] and
    before their notification sees no notification about the report
    while the report is listed, and still ends with exactly one, unread
    ([concurrent_inbox]). *)

From S2P Require Import Prelude Text Geofence Models Http Favorites Notify Forms Reports Inbox.

Section Interleave.
  Context `{MailTransport}.

(** The database after the [INSERT] of [Report.save()], before [post_save]. *)
Definition report_inserted (r : Report.t) (db : DB) : DB :=
  set_reports (λ _, (Table.insert r (reports db)).2) db.

(** The receiver's loop for [r], saved under the next key: the users it
    visits and the body it runs for each; [None] when the place is
    missing and the receiver returns at once. *)
Definition fanout (now : nat) (r : Report.t) (db : DB) : option (list nat * (DB → nat → DB)) :=
  let db1 := report_inserted r db in
  match Table.rows (places db1) !! Report.place r with
  | None => None
  | Some place =>
      Some (favorites_qs (Report.place r) (Report.author r) db1,
            notify_one now (Report.place r) (Table.next_id (reports db)) place
              (notification_message (Place.name place) (Report.description r)))
  end.

(** The users the loop visits. *)
Definition recipients (now : nat) (r : Report.t) (db : DB) : list nat :=
  match fanout now r db with
  | Some (us, _) => us
  | None => []
  end.

(** What another request reads after the [INSERT] and [n] notifications. *)
Definition creation_state (now : nat) (r : Report.t) (db : DB) (n : nat) : DB :=
  match fanout now r db with
  | Some (us, f) => foldl f (report_inserted r db) (take n us)
  | None => report_inserted r db
  end.

(** Another request [g] runs after [n] notifications; the loop goes on
    from the database [g] leaves. *)
Definition interleaved (now : nat) (r : Report.t) (db : DB) (n : nat) (g : DB → DB) : DB :=
  match fanout now r db with
  | Some (us, f) => foldl f (g (foldl f (report_inserted r db) (take n us))) (drop n us)
  | None => g (report_inserted r db)
  end.

End Interleave.

(** ** Lemmas *)

(** Mark-read changes no row's user or report: the counts stay. *)
Lemma notifications_for_mark_read w k v db :
  notifications_for w k (mark_read v db) = notifications_for w k db.
Proof.
  unfold notifications_for, mark_read. simpl_db. unfold Table.update_all. cbn [Table.rows].
  rewrite map_filter_fmap, map_size_fmap. f_equal. apply map_filter_ext.
  intros j n _. by case_match.
Qed.

(** A row of [w] about [k] is counted. *)
Lemma notifications_for_pos w k db j n :
  Table.rows (notifications db) !! j = Some n → Notification.user n = w → Notification.report n = Some k →
  notifications_for w k db ≠ 0.
Proof.
  intros Hj Hu Hr. unfold notifications_for. rewrite map_size_empty_iff. intros He.
  assert (Hf : filter (λ kv, Notification.user kv.2 = w ∧ Notification.report kv.2 = Some k)
                 (Table.rows (notifications db)) !! j = Some n) by (by apply map_lookup_filter_Some).
  by rewrite He in Hf.
Qed.

Lemma report_inserted_wf r db :
  wf db → row_in (places db) (Report.place r) → row_in (users db) (Report.author r) →
  wf (report_inserted r db).
Proof. apply insert_report_wf. Qed.

Lemma notified_users_inserted place author r db :
  notified_users place author (report_inserted r db) = notified_users place author db.
Proof. done. Qed.

Section Lemmas.
  Context `{MailTransport}.


(** When the place exists, the loop runs. *)
Lemma fanout_Some now r db :
  row_in (places db) (Report.place r) →
  ∃ place, Table.rows (places db) !! Report.place r = Some place ∧
    fanout now r db =
      Some (favorites_qs (Report.place r) (Report.author r) (report_inserted r db),
            notify_one now (Report.place r) (Table.next_id (reports db)) place
              (notification_message (Place.name place) (Report.description r))).
Proof. intros [place Hp]. exists place. split; [done|]. unfold fanout, report_inserted. simpl_db. by rewrite Hp. Qed.

(** The recipients are the users of the abstract contract, each once. *)
Lemma recipients_spec now r db :
  row_in (places db) (Report.place r) →
  NoDup (recipients now r db) ∧
  ∀ v, v ∈ recipients now r db ↔ v ∈ notified_users (Report.place r) (Report.author r) db.
Proof.
  intros Hp. destruct (fanout_Some now r db Hp) as (place & _ & E). unfold recipients. rewrite E.
  split; [apply favorites_qs_NoDup|]. intros v. by rewrite elem_of_favorites_qs.
Qed.


(** Running [g] after [n] notifications, in terms of [creation_state]. *)
Lemma interleaved_after now r db n g us f :
  fanout now r db = Some (us, f) →
  recipients now r db = us ∧
  interleaved now r db n g = foldl f (g (creation_state now r db n)) (drop n us).
Proof. intros E. unfold recipients, interleaved, creation_state. by rewrite E. Qed.

(** The database after the [INSERT] and [n] notifications. *)
Lemma creation_state_spec db now r n :
  wf db → row_in (places db) (Report.place r) → row_in (users db) (Report.author r) →
  let s := creation_state now r db n in
  wf s ∧ Table.rows (reports s) !! Table.next_id (reports db) = Some r ∧
  ∀ v, notifications_for v (Table.next_id (reports db)) s =
       if bool_decide (v ∈ take n (recipients now r db)) then 1 else 0.
Proof.
  intros Hwf Hp Hu. destruct (recipients_spec now r db Hp) as [Hnd _].
  pose proof (report_inserted_wf r db Hwf Hp Hu) as Hw1.
  destruct (fanout_Some now r db Hp) as (place & Hpl & E).
  unfold creation_state. unfold recipients in *. rewrite E in *.
  destruct (fold_notify_tables now (Report.place r) (Table.next_id (reports db)) place
    (notification_message (Place.name place) (Report.description r)) (report_inserted r db)
    (take n (favorites_qs (Report.place r) (Report.author r) (report_inserted r db))))
    as (_ & _ & _ & Hre & _).
  split_and!.
  - apply fold_notify_wf; [done| |exact Hp|].
    + apply Forall_take, favorites_qs_users, Hw1.
    + exists r. unfold report_inserted. simpl_db. apply table_insert_lookup_eq.
  - rewrite Hre. unfold report_inserted. simpl_db. apply table_insert_lookup_eq.
  - intros v. rewrite fold_notify_count by apply (wf_notifications _ Hw1).
    replace (notifications_for v _ (report_inserted r db)) with 0 by exact (eq_sym (notifications_for_fresh db v Hwf)).
    rewrite length_filter_eq_NoDup by (by apply NoDup_take_drop). done.
Qed.

(** C3: every database another request can read during a report's
    creation is consistent and already holds the report, and the users
    notified about it so far are exactly the first [n] recipients, once
    each; the recipients are the users of the abstract contract. *)
Theorem creation_states db now r :
  wf db → row_in (places db) (Report.place r) → row_in (users db) (Report.author r) →
  (∀ v, v ∈ recipients now r db ↔ v ∈ notified_users (Report.place r) (Report.author r) db) ∧
  ∀ n, let s := creation_state now r db n in
    wf s ∧ Table.rows (reports s) !! Table.next_id (reports db) = Some r ∧
    ∀ v, notifications_for v (Table.next_id (reports db)) s =
         if bool_decide (v ∈ take n (recipients now r db)) then 1 else 0.
Proof.
  intros Hwf Hp Hu. split; [apply (recipients_spec now r db Hp)|].
  intros n. by apply creation_state_spec.
Qed.

(** C2: a recipient who opens the notification page while the report
    is being created, after its [INSERT] and before their own
    notification, gets a page with no notification about the report,
    although the report is already stored; the rest of the loop still
    gives them exactly one notification about it, unread. *)
Theorem concurrent_inbox db now r v n :
  wf db → row_in (places db) (Report.place r) → row_in (users db) (Report.author r) →
  v ∈ notified_users (Report.place r) (Report.author r) db → v ∉ take n (recipients now r db) →
  let k := Table.next_id (reports db) in
  let s := creation_state now r db n in
  let final := interleaved now r db n (λ d, state (notifications_view d (Some v)).1) in
  Table.rows (reports s) !! k = Some r ∧
  (∀ kn, kn ∈ (notifications_view s (Some v)).2 → Notification.report kn.2 ≠ Some k) ∧
  notifications_for v k final = 1 ∧
  (∀ j nt, Table.rows (notifications final) !! j = Some nt → Notification.user nt = v →
     Notification.report nt = Some k → Notification.is_read nt = false).
Proof.
  intros Hwf Hp Hu Hv Hn k s final.
  destruct (creation_state_spec db now r n Hwf Hp Hu) as (Hw & Hr & Hc).
  destruct (recipients_spec now r db Hp) as [Hnd Hset].
  assert (H0 : notifications_for v k (mark_read v s) = 0)
    by (rewrite notifications_for_mark_read; unfold s, k; rewrite Hc; by case_bool_decide).
  assert (Hno : ∀ j nt, Table.rows (notifications (mark_read v s)) !! j = Some nt →
                  Notification.user nt = v → Notification.report nt ≠ Some k)
    by (intros j nt Hj Hus Hrep; by apply (notifications_for_pos _ _ _ _ _ Hj Hus Hrep)).
  split_and!; [done| | |].
  - intros [j nt] Hin. cbn [notifications_view snd] in Hin.
    destruct (sorted_page newest_first (λ kv, Notification.user kv.2 = v) (Table.rows (notifications (mark_read v s))) 50) as [Hel _].
    destruct (Hel j nt Hin) as [Hj Hus]. by apply (Hno j nt).
  - destruct (fanout_Some now r db Hp) as (place & _ & E).
    destruct (interleaved_after now r db n (λ d, state (notifications_view d (Some v)).1) _ _ E) as [Erec Ei].
    unfold final. rewrite Ei. cbn [notifications_view fst state unchanged]. fold s.
    rewrite fold_notify_count by apply (wf_notifications _ (mark_read_wf _ _ Hw)).
    rewrite (H0 : notifications_for v (Table.next_id (reports db)) (mark_read v s) = 0), <- Erec. rewrite length_filter_eq_NoDup by (by apply NoDup_take_drop).
    case_bool_decide as Hd; [done|]. exfalso. apply Hd.
    apply Hset in Hv. rewrite <- (take_drop n (recipients now r db)) in Hv.
    apply elem_of_app in Hv as [?|?]; done.
  - intros j nt Hj Hus Hrep. destruct (fanout_Some now r db Hp) as (place & _ & E).
    destruct (interleaved_after now r db n (λ d, state (notifications_view d (Some v)).1) _ _ E) as [_ Ei].
    unfold final in Hj. rewrite Ei in Hj. cbn [notifications_view fst state unchanged] in Hj. fold s in Hj.
    apply fold_notify_rows in Hj as [Hold|[_ (w & _ & ->)]]; [|done|].
    + by destruct (Hno j nt Hold Hus Hrep).
    + apply (wf_notifications _ (mark_read_wf _ _ Hw)).
Qed.

End Lemmas.

(** ** Witnesses *)

(** User 1 reports on place 1, which user 2 favourites. *)
Lemma creation_states_witness :
  (∀ v, v ∈ @recipients accept_all 0 demo_report demo_fav_db ↔
        v ∈ notified_users (Report.place demo_report) (Report.author demo_report) demo_fav_db) ∧
  ∀ n, let s := @creation_state accept_all 0 demo_report demo_fav_db n in
    wf s ∧ Table.rows (reports s) !! Table.next_id (reports demo_fav_db) = Some demo_report ∧
    ∀ v, notifications_for v (Table.next_id (reports demo_fav_db)) s =
         if bool_decide (v ∈ take n (@recipients accept_all 0 demo_report demo_fav_db)) then 1 else 0.
Proof.
  apply (@creation_states accept_all); [apply demo_fav_db_wf|vm_compute; eauto|vm_compute; eauto].
Defined.

(** User 2 opens the notification page right after the [INSERT]. *)
Lemma concurrent_inbox_witness :
  let k := Table.next_id (reports demo_fav_db) in
  let s := @creation_state accept_all 0 demo_report demo_fav_db 0 in
  let final := @interleaved accept_all 0 demo_report demo_fav_db 0
                 (λ d, state (notifications_view d (Some 2)).1) in
  Table.rows (reports s) !! k = Some demo_report ∧
  (∀ kn, kn ∈ (notifications_view s (Some 2)).2 → Notification.report kn.2 ≠ Some k) ∧
  notifications_for 2 k final = 1 ∧
  (∀ j nt, Table.rows (notifications final) !! j = Some nt → Notification.user nt = 2 →
     Notification.report nt = Some k → Notification.is_read nt = false).
Proof.
  apply (@concurrent_inbox accept_all); [apply demo_fav_db_wf|vm_compute; eauto|vm_compute; eauto| |].
  - apply notified_users_spec. vm_compute. eexists. split; [reflexivity|]. split; [set_solver|done].
  - simpl. apply not_elem_of_nil.
Defined.
