(* ===== verification/Refinement.v ===== *)
(** * Refinement: the favourites as an abstract state machine

    Spec section 4.5 describes the favourites as a relation between users
    and places that only the toggle changes, one (user, place) pair at a
    time.  [Favs] is that relation, as the set of favourite places of
    each user who has a profile, and [fav_step] its abstract
    transitions: a new user starts with no favourites, a toggle flips one
    place of one user, deleting a place removes it from every set,
    deleting a user removes the user; anything else leaves the relation
    as it is.

    [fav_view] reads the relation off a database ([Profile.favorite_places]
    of every profile).  [favorites_refinement] is the simulation: each
    step of the application ([System.step]) is an abstract step of the
    relation it holds, so every reachable database holds a relation that
    the abstract machine reaches from the empty one. *)

From S2P Require Import Prelude Text Geofence Models Http Favorites Notify Forms Reports Listing Contact Comments Inbox Accounts System.

Abbreviation Favs := (gmap nat (gset nat)).

Definition fav_view (db : DB) : Favs := Profile.favorite_places <$> profiles db.

Inductive fav_step : Favs → Favs → Prop :=
  | fs_stutter f : fav_step f f
  | fs_new_user f u : f !! u = None → fav_step f (<[u := ∅]> f)
  | fs_toggle f u s p : f !! u = Some s → fav_step f (<[u := flip p s]> f)
  | fs_forget_place f p : fav_step f ((λ s, s ∖ {[p]}) <$> f)
  | fs_forget_user f u : fav_step f (delete u f).

(** ** Lemmas: what each step does to the relation *)

(** A step that leaves the profile table as it is. *)
Lemma fav_same db db' : profiles db' = profiles db → fav_step (fav_view db) (fav_view db').
Proof. unfold fav_view. intros ->. constructor. Qed.

Lemma report_create_profiles `{MailTransport} now r db : profiles (report_create now r db).2 = profiles db.
Proof. unfold report_create. simpl. by rewrite (proj1 (proj2 (receiver_tables _ _ _ _ _))). Qed.

Lemma report_update_profiles `{MailTransport} now k r db : profiles (report_update now k r db) = profiles db.
Proof. unfold report_update. by rewrite (proj1 (proj2 (receiver_tables _ _ _ _ _))). Qed.

Ltac profiles_same :=
  apply fav_same; repeat (case_match; cbn [state unchanged]; try done);
  rewrite ?report_create_profiles, ?report_update_profiles; done.

Lemma fav_signup db usr : wf db → fav_step (fav_view db) (fav_view (create_user usr db).2).
Proof.
  intros Hwf. unfold create_user, fav_view. simpl_db. rewrite fmap_insert. cbn [Profile.favorite_places].
  apply fs_new_user. rewrite lookup_fmap, fmap_None, table_insert_key.
  destruct (profiles db !! Table.next_id (users db)) eqn:E; [|done].
  assert (Hin : is_Some (profiles db !! Table.next_id (users db))) by (rewrite E; eauto).
  apply (wf_profiles _ Hwf) in Hin as [x Hx]. by rewrite (table_insert_fresh _ (wf_users _ Hwf)) in Hx.
Qed.

Lemma fav_view_set_favorites u favs db :
  fav_view (set_favorites u favs db) = <[u := favs]> (fav_view db).
Proof.
  apply map_eq. intros v. unfold fav_view at 1. rewrite lookup_fmap, set_favorites_lookup.
  rewrite lookup_insert. unfold fav_view. rewrite lookup_fmap. by case_decide; simplify_eq.
Qed.

Lemma fav_toggle db m u p pn gn :
  wf db → row_in (users db) u →
  fav_step (fav_view db) (fav_view (state (toggle_favorite_place db m (Some u) p pn gn))).
Proof.
  intros Hwf Hu. unfold toggle_favorite_place. destruct m; [constructor|].
  destruct (Table.rows (places db) !! p); [|constructor]. cbn [state].
  apply (wf_profiles _ Hwf) in Hu as [prof Hp].
  assert (Hf : fav_view db !! u = Some (Profile.favorite_places prof))
    by (unfold fav_view; by rewrite lookup_fmap, Hp).
  assert (Hfav : favorites_of u db = Profile.favorite_places prof)
    by (unfold favorites_of; by rewrite (get_or_create_existing _ _ _ Hp)).
  unfold toggle_act, toggle_check. rewrite Hfav.
  case_bool_decide; rewrite fav_view_set_favorites;
    [rewrite <- flip_in by done|rewrite <- flip_notin by done]; by apply fs_toggle.
Qed.

Lemma fav_delete_place db p : fav_step (fav_view db) (fav_view (delete_place p db)).
Proof.
  unfold fav_view, delete_place. simpl_db.
  refine (eq_rect _ (fav_step _) (fs_forget_place _ p) _ _).
  rewrite <- !map_fmap_compose. by apply map_fmap_ext.
Qed.

Lemma fav_delete_user db u : fav_step (fav_view db) (fav_view (delete_user u db)).
Proof. unfold fav_view, delete_user. simpl_db. rewrite fmap_delete. apply fs_forget_user. Qed.

Lemma fav_profile email_ok db m u i :
  wf db → row_in (users db) u →
  fav_step (fav_view db) (fav_view (state (profile_view email_ok db m (Some u) i))).
Proof.
  intros Hwf Hu. unfold profile_view.
  pose proof (get_or_create_noop u db Hwf Hu) as Hnoop. pose proof (get_or_create_lookup u db) as Hl.
  destruct (get_or_create_profile u db) as [prof db1]. simpl in Hnoop, Hl. subst db1.
  destruct m; [constructor|]. destruct (Table.rows (users db) !! u); [|constructor].
  destruct (user_form_errors email_ok i); [|constructor]. cbn [state]. unfold save_user.
  rewrite get_or_create_noop; [|apply update_user_wf; done|simpl_db; by rewrite table_row_in_update].
  unfold fav_view. simpl_db. rewrite fmap_insert. cbn [Profile.favorite_places].
  rewrite insert_id; [constructor|]. by rewrite lookup_fmap, Hl.
Qed.

Section Simulation.
  Context `{MailTransport} (email_ok : text → bool).
  Context (CONTACT_EMAIL : option text) (DEFAULT_FROM_EMAIL : text).

Lemma step_fav db db' :
  step email_ok CONTACT_EMAIL DEFAULT_FROM_EMAIL db db' → inv db → fav_step (fav_view db) (fav_view db').
Proof.
  intros Hs Hi. pose proof (inv_wf _ Hi) as Hwf. destruct Hs.
  - by apply fav_signup.
  - apply fav_same. unfold place_save in *. destruct (Place.full_clean p); [|done].
    apply (inj inr), pair_equal_spec in H0 as [_ <-]. done.
  - apply fav_delete_place.
  - by apply fav_toggle.
  - unfold report_view. profiles_same.
  - unfold report_edit_view. profiles_same.
  - unfold report_delete_view. profiles_same.
  - unfold report_detail. profiles_same.
  - profiles_same.
  - apply fav_delete_user.
  - by apply fav_profile.
  - unfold places_view. pose proof (get_or_create_noop u db Hwf H0) as Hnoop.
    destruct (get_or_create_profile u db) as [prof db1]. simpl in Hnoop. subst db1. profiles_same.
  - unfold favorites_view. pose proof (get_or_create_noop u db Hwf H0) as Hnoop.
    destruct (get_or_create_profile u db) as [prof db1]. simpl in Hnoop. subst db1. profiles_same.
  - unfold contact_view. profiles_same.
Qed.

(** C14: the favourites relation refines its abstract specification:
    every reachable database holds a relation that the abstract machine
    reaches from the empty one, and every step of the application from a
    reachable database changes it by one abstract step: a new user with
    no favourites, one place of one user flipped by that user's toggle, a
    place or a user forgotten, or nothing. *)
Theorem favorites_refinement db :
  reachable email_ok CONTACT_EMAIL DEFAULT_FROM_EMAIL db →
  rtc fav_step ∅ (fav_view db) ∧
  ∀ db', step email_ok CONTACT_EMAIL DEFAULT_FROM_EMAIL db db' → fav_step (fav_view db) (fav_view db').
Proof.
  intros Hr. assert (Hi : inv db ∧ rtc fav_step ∅ (fav_view db)).
  { revert db Hr. apply rtc_ind_r.
    - split; [apply empty_inv|]. unfold fav_view. simpl. rewrite fmap_empty. apply rtc_refl.
    - intros y z _ Hyz [Hiy Hry]. split; [by eapply step_inv|]. eapply rtc_r; [exact Hry|].
      by eapply step_fav. }
  destruct Hi as [Hi Hrtc]. split; [done|]. intros db' Hs. by eapply step_fav.
Qed.

End Simulation.

Lemma favorites_refinement_witness :
  rtc fav_step ∅ (fav_view demo_run) ∧
  ∀ db', @step accept_all demo_email_ok None demo_sender demo_run db' →
         fav_step (fav_view demo_run) (fav_view db').
Proof. apply (@favorites_refinement accept_all demo_email_ok None demo_sender), demo_run_reachable. Defined.
